(** * movie-app-api: ownership, genre reconciliation and image paths

    A shallow embedding of the movie application ([core/models.py],
    [movie/serializers.py], [movie/views.py], [movie/urls.py]) together with
    the parts of Python, Django and the REST framework that its functions
    call.  Database tables are finite maps from primary key to row, the
    many-to-many relation is a finite set of pairs, and view code runs in a
    state-and-exception monad over the database. *)

From Stdlib Require Import ZArith Ascii String.
From stdpp Require Import base decidable option list strings gmap fin_maps
  fin_sets sorting.

Local Open Scope Z_scope.

(** ** Python builtins used by the application

    Text is a [string] whose characters are read as the code points 0..255. *)
Module Py.

Inductive exn :=
| ValueError
| Http404
| ValidationError
| MultipleObjectsReturned
| IntegrityError.

Definition code (c : ascii) : Z := Z.of_nat (nat_of_ascii c).

(** [str.isspace] on one character: the Unicode white space below 256. *)
Definition is_space (c : ascii) : bool :=
  let n := code c in
  ((9 <=? n) && (n <=? 13)) || ((28 <=? n) && (n <=? 32))
  || (n =? 133) || (n =? 160).

Definition is_digit (c : ascii) : bool :=
  let n := code c in (48 <=? n) && (n <=? 57).

Definition digit_val (c : ascii) : Z := code c - 48.

Fixpoint lstrip (s : string) : string :=
  match s with
  | String c s' => if is_space c then lstrip s' else s
  | EmptyString => EmptyString
  end.

Fixpoint rstrip (s : string) : string :=
  match s with
  | String c s' =>
      match rstrip s' with
      | EmptyString => if is_space c then EmptyString else String c EmptyString
      | r => String c r
      end
  | EmptyString => EmptyString
  end.

Definition strip (s : string) : string := rstrip (lstrip s).

(** The digit part of an integer literal: decimal digits, where single
    underscores may stand between two digits.  [prev] tells whether the
    character just read was a digit. *)
Fixpoint digits (s : string) (acc : Z) (prev : bool) : option Z :=
  match s with
  | EmptyString => if prev then Some acc else None
  | String c s' =>
      if is_digit c then digits s' (10 * acc + digit_val c) true
      else if Ascii.eqb c "_" then
        if prev then digits s' acc false else None
      else None
  end.

(** The white space that [int()] skips around a literal.  The text is first
    made ASCII: the characters below 127 stay as they are and every
    white-space character from 127 on becomes a blank (below 256 these are
    133 and 160); then the white space of C is skipped, 9 to 13 and 32.  So
    the separators 28 to 31, white space for [str.isspace] and [str.strip],
    are not skipped: [int('\x1c1')] raises. *)
Definition is_int_space (c : ascii) : bool :=
  let n := code c in
  ((9 <=? n) && (n <=? 13)) || (n =? 32) || (n =? 133) || (n =? 160).

Fixpoint int_lstrip (s : string) : string :=
  match s with
  | String c s' => if is_int_space c then int_lstrip s' else s
  | EmptyString => EmptyString
  end.

Fixpoint int_rstrip (s : string) : string :=
  match s with
  | String c s' =>
      match int_rstrip s' with
      | EmptyString =>
          if is_int_space c then EmptyString else String c EmptyString
      | r => String c r
      end
  | EmptyString => EmptyString
  end.

(** [int(s)] for a text [s] in base ten; [None] is the [ValueError].  (The
    interpreter's optional cap on the number of digits is not modelled.) *)
Definition int (s : string) : option Z :=
  match int_rstrip (int_lstrip s) with
  | String "-" r => Z.opp <$> digits r 0 false
  | String "+" r => digits r 0 false
  | r => digits r 0 false
  end.

(** [s.split(sep)] for a one-character separator. *)
Fixpoint split (sep : ascii) (s : string) : list string :=
  match s with
  | EmptyString => [EmptyString]
  | String c s' =>
      if Ascii.eqb c sep then EmptyString :: split sep s'
      else match split sep s' with
           | h :: t => String c h :: t
           | [] => [String c EmptyString]
           end
  end.

(** [s.rfind(c)]: the last index of [c], or -1. *)
Fixpoint rfind_from (c : ascii) (s : string) (i : Z) (last : Z) : Z :=
  match s with
  | EmptyString => last
  | String d s' => rfind_from c s' (i + 1) (if Ascii.eqb d c then i else last)
  end.

Definition rfind (c : ascii) (s : string) : Z := rfind_from c s 0 (-1).

(** Slices [s[:n]] and [s[n:]] for a non-negative [n]. *)
Fixpoint take (n : nat) (s : string) : string :=
  match n, s with
  | S n', String c s' => String c (take n' s')
  | _, _ => EmptyString
  end.

Fixpoint drop (n : nat) (s : string) : string :=
  match n, s with
  | S n', String _ s' => drop n' s'
  | _, _ => s
  end.

(** [c in s] *)
Fixpoint contains (c : ascii) (s : string) : bool :=
  match s with
  | EmptyString => false
  | String d s' => Ascii.eqb d c || contains c s'
  end.

(** [s[a:b]] for [0 <= a <= b]. *)
Definition slice (a b : nat) (s : string) : string := take (b - a) (drop a s).

Definition startswith (c : ascii) (s : string) : bool :=
  match s with
  | String d _ => Ascii.eqb d c
  | EmptyString => false
  end.

Fixpoint endswith (c : ascii) (s : string) : bool :=
  match s with
  | EmptyString => false
  | String d EmptyString => Ascii.eqb d c
  | String _ s' => endswith c s'
  end.

(** Dictionaries as association lists; the last binding of a key is the
    one in force, as when a later assignment overwrites an earlier one. *)
Fixpoint dict_get {V} (k : string) (d : list (string * V)) : option V :=
  match d with
  | [] => None
  | (k', v) :: d' =>
      match dict_get k d' with
      | Some v' => Some v'
      | None => if String.eqb k' k then Some v else None
      end
  end.

Definition dict_del {V} (k : string) (d : list (string * V)) : list (string * V) :=
  filter (λ kv, kv.1 ≠ k) d.

(** [d[k] = v] *)
Definition dict_set {V} (k : string) (v : V) (d : list (string * V)) :=
  dict_del k d ++ [(k, v)].

(** [d.pop(k, None)]: the value and the remaining dictionary. *)
Definition dict_pop {V} (k : string) (d : list (string * V)) :=
  (dict_get k d, dict_del k d).

End Py.

(** ** [posixpath]: [splitext] and [join] *)
Module PosixPath.

(** The loop of [genericpath._splitext] that skips the leading dots of the
    file name: [true] when a character other than the dot stands at one of
    the [n] positions from [filenameIndex] on. *)
Fixpoint has_non_dot (p : string) (filenameIndex : nat) (n : nat) : bool :=
  match n with
  | O => false
  | S n' =>
      match String.get filenameIndex p with
      | Some c =>
          if negb (Ascii.eqb c ".") then true
          else has_non_dot p (S filenameIndex) n'
      | None => true
      end
  end.

Definition splitext (p : string) : string * string :=
  let sepIndex := Py.rfind "/" p in
  let dotIndex := Py.rfind "." p in
  if (dotIndex >? sepIndex)
     && has_non_dot p (Z.to_nat (sepIndex + 1))
                    (Z.to_nat (dotIndex - (sepIndex + 1)))
  then (Py.take (Z.to_nat dotIndex) p, Py.drop (Z.to_nat dotIndex) p)
  else (p, EmptyString).

Definition join_step (path b : string) : string :=
  if Py.startswith "/" b then b
  else if (String.eqb path EmptyString) || Py.endswith "/" path
       then String.append path b
       else String.append path (String "/" b).

Definition join (a : string) (p : list string) : string :=
  fold_left join_step p a.

End PosixPath.

(** ** [uuid]: version-4 identifiers and their text form *)
Module Uuid.

(** [UUID(bytes=os.urandom(16), version=4)]: [rnd] is the integer of the
    sixteen random bytes; the variant and version bits are overwritten. *)
Definition uuid4 (rnd : Z) : Z :=
  let i := Z.land rnd (Z.lnot (Z.shiftl 0xc000 48)) in
  let i := Z.lor i (Z.shiftl 0x8000 48) in
  let i := Z.land i (Z.lnot (Z.shiftl 0xf000 64)) in
  Z.lor i (Z.shiftl 4 76).

Definition hex_digit (n : Z) : ascii :=
  if n <? 10 then ascii_of_nat (Z.to_nat (48 + n))
  else ascii_of_nat (Z.to_nat (87 + n)).

(** The [n] lowest nibbles of [u], most significant first: ['%0nx' % u]
    when [0 <= u < 16^n]. *)
Fixpoint hex (n : nat) (u : Z) : string :=
  match n with
  | O => EmptyString
  | S n' =>
      String (hex_digit (Z.land (Z.shiftr u (4 * Z.of_nat n')) 15)) (hex n' u)
  end.

(** [UUID.__str__]: the 32 hexadecimal digits in groups of 8-4-4-4-12. *)
Definition str (u : Z) : string :=
  let h := hex 32 u in
  String.append (Py.slice 0 8 h)
    (String "-" (String.append (Py.slice 8 12 h)
      (String "-" (String.append (Py.slice 12 16 h)
        (String "-" (String.append (Py.slice 16 20 h)
          (String "-" (Py.drop 20 h)))))))).

End Uuid.

(** ** [core/models.py] *)

(** [movie_image_file_path(instance, filename)]; the random bytes drawn by
    [uuid.uuid4()] are the argument [rnd].  The instance is not used. *)
Definition movie_image_file_path (rnd : Z) (filename : string) : string :=
  let ext := snd (PosixPath.splitext filename) in
  let filename := String.append (Uuid.str (Uuid.uuid4 rnd)) ext in
  PosixPath.join "uploads" ["movie"%string; filename].

Record date := Date { year : Z; month : Z; day : Z }.

(** The [image] attribute of a movie: empty, a file already in storage, or
    an upload assigned to the instance that [save] has yet to store. *)
Inductive image_ref :=
| NoImage
| Stored (path : string)
| Uploaded (filename : string).

(** A row of the movie table; the primary key is the key of the table. *)
Module Movie.
Record t := Build {
  user : Z;
  title : string;
  description : string;
  running_time_minutes : Z;
  release_date : option date;
  age_restriction : string;
  link : string;
  image : image_ref
}.
End Movie.

Module Genre.
Record t := Build {
  name : string;
  user : Z
}.
End Genre.

#[global] Instance date_eq_dec : EqDecision date.
Proof. solve_decision. Defined.
#[global] Instance image_ref_eq_dec : EqDecision image_ref.
Proof. solve_decision. Defined.
#[global] Instance Movie_eq_dec : EqDecision Movie.t.
Proof. solve_decision. Defined.
#[global] Instance Genre_eq_dec : EqDecision Genre.t.
Proof. solve_decision. Defined.

(** The database: the two tables, the relation [Movie.genres] (pairs of a
    movie key and a genre key, unique as in the junction table), the
    auto-increment counters, and how often random bytes were drawn. *)
Record DB := MkDB {
  movies : gmap Z Movie.t;
  genres : gmap Z Genre.t;
  movie_genres : gset (Z * Z);
  movie_seq : Z;
  genre_seq : Z;
  urandom_calls : nat
}.

(** New genre keys come from the counter, which stays above every key in
    use. *)
Definition genres_wf (db : DB) : Prop :=
  ∀ k, is_Some (genres db !! k) → k < genre_seq db.

(** ** Computations over the database that may raise *)

Inductive result (A : Type) :=
| Ok (a : A)
| Raise (e : Py.exn).
Arguments Ok {A} a.
Arguments Raise {A} e.

Definition M (A : Type) : Type := DB → result A * DB.

Definition ret {A} (a : A) : M A := λ db, (Ok a, db).
Definition raise {A} (e : Py.exn) : M A := λ db, (Raise e, db).
Definition bind {A B} (m : M A) (f : A → M B) : M B :=
  λ db, match m db with
        | (Ok a, db') => f a db'
        | (Raise e, db') => (Raise e, db')
        end.
Definition get_db : M DB := λ db, (Ok db, db).
Definition put_db (db' : DB) : M unit := λ _, (Ok tt, db').

Declare Scope orm_scope.
Delimit Scope orm_scope with orm.
Notation "x <- m ;; k" := (bind m (λ x, k))
  (at level 100, m at next level, right associativity) : orm_scope.
Notation "m ;;; k" := (bind m (λ _, k))
  (at level 100, right associativity) : orm_scope.

(** [for x in xs: body(x)] *)
Fixpoint for_each {A} (xs : list A) (body : A → M unit) : M unit :=
  match xs with
  | [] => ret tt
  | x :: xs' => bind (body x) (λ _, for_each xs' body)
  end.

(** ** The object-relational layer *)
Module Orm.

(** A query set, evaluated: the instances as key and row. *)
Abbreviation queryset T := (list (Z * T)).

Definition all {T} (table : gmap Z T) : queryset T := map_to_list table.

(** [.filter(user=u)] on either table. *)
Definition filter_movie_user (u : Z) (qs : queryset Movie.t) :=
  filter (λ r, Movie.user r.2 = u) qs.
Definition filter_genre_user (u : Z) (qs : queryset Genre.t) :=
  filter (λ r, Genre.user r.2 = u) qs.

(** [.filter(genres__id__in=ids)]: the join with the junction table, one
    result row for every junction row of the movie whose genre is listed. *)
Definition filter_genres_id_in (rel : gset (Z * Z)) (ids : list Z)
    (qs : queryset Movie.t) : queryset Movie.t :=
  r ← qs;
  j ← elements rel;
  if decide (j.1 = r.1 ∧ j.2 ∈ ids) then [r] else [].

(** [.order_by('-id')] and [.order_by('-name')]; names compare by code
    point. *)
Definition id_desc {T} (x y : Z * T) : Prop := y.1 ≤ x.1.
Definition name_desc (x y : Z * Genre.t) : Prop :=
  String.le (Genre.name y.2) (Genre.name x.2).

#[global] Instance id_desc_dec {T} : RelDecision (@id_desc T).
Proof. intros x y. unfold id_desc. apply _. Defined.
#[global] Instance name_desc_dec : RelDecision name_desc.
Proof. intros x y. unfold name_desc. apply _. Defined.

Definition order_by_id_desc {T} (qs : queryset T) : queryset T :=
  merge_sort id_desc qs.
Definition order_by_name_desc (qs : queryset Genre.t) : queryset Genre.t :=
  merge_sort name_desc qs.

(** [.distinct()]: equal rows are returned once. *)
Definition distinct `{EqDecision T} (qs : queryset T) : queryset T :=
  remove_dups qs.

(** [get_object_or_404(queryset, pk=k)]: [queryset.get(pk=k)], where finding
    no row is the not-found exception and finding several is an error. *)
Definition get_object_or_404 {T} (k : Z) (qs : queryset T) : M (Z * T) :=
  match filter (λ r, r.1 = k) qs with
  | [] => raise Py.Http404
  | [r] => ret r
  | _ => raise Py.MultipleObjectsReturned
  end.

(** The keyword arguments [user=u, **genre] of a genre lookup: the name is
    part of the lookup when the descriptor carries one. *)
Definition genre_matches (u : Z) (nm : option string) (r : Z * Genre.t) : Prop :=
  Genre.user r.2 = u ∧ from_option (λ n, Genre.name r.2 = n) True nm.

#[global] Instance genre_matches_dec u nm r : Decision (genre_matches u nm r).
Proof. unfold genre_matches. destruct nm; simpl; apply _. Defined.

(** [Genre.objects.create(user=u, **genre)]; a missing name is the empty
    text, the default of the column. *)
Definition genre_create (u : Z) (nm : option string) : M (Z * Genre.t) :=
  λ db,
    let k := genre_seq db in
    let g := Genre.Build (default EmptyString nm) u in
    (Ok (k, g),
     MkDB (movies db) (<[k := g]> (genres db)) (movie_genres db)
          (movie_seq db) (k + 1) (urandom_calls db)).

(** [Genre.objects.get_or_create(user=u, **genre)] *)
Definition genre_get_or_create (u : Z) (nm : option string) : M (Z * Genre.t) :=
  λ db,
    match filter (genre_matches u nm) (all (genres db)) with
    | [] => genre_create u nm db
    | [r] => (Ok r, db)
    | _ => (Raise Py.MultipleObjectsReturned, db)
    end.

(** [movie.genres.add(genre_obj)] and [movie.genres.clear()] *)
Definition genres_add (movie_id genre_id : Z) : M unit :=
  λ db,
    (Ok tt,
     MkDB (movies db) (genres db) ({[ (movie_id, genre_id) ]} ∪ movie_genres db)
          (movie_seq db) (genre_seq db) (urandom_calls db)).

Definition genres_clear (movie_id : Z) : M unit :=
  λ db,
    (Ok tt,
     MkDB (movies db) (genres db)
          (filter (λ j, j.1 ≠ movie_id) (movie_genres db))
          (movie_seq db) (genre_seq db) (urandom_calls db)).

End Orm.

(** ** Request data and the framework's field validators *)

#[warnings="-register-all"]
Inductive value :=
| VNull
| VBool (b : bool)
| VInt (n : Z)
| VStr (s : string)
| VList (l : list value)
| VDict (d : list (string * value))
| VFile (filename : string) (content : string).

(** What the REST framework and the operating system supply: the conversion
    of one submitted value by each kind of leaf field (with its length and
    blank options), and the random bytes of the [n]-th draw as an integer.
    [ImageField] yields the name of an upload that decodes as an image. *)
Class Framework := {
  CharField : option nat → bool → value → option string;
  IntegerField : value → option Z;
  DateField : value → option date;
  ImageField : value → option string;
  urandom : nat → Z
}.

(** A validated value, by the attribute type it is assigned to. *)
Inductive field_value :=
| FStr (s : string)
| FInt (n : Z)
| FDate (d : option date)
| FImage (i : image_ref)
| FUser (u : Z)
| FGenres (ds : list (option string)).

Inductive field_type :=
| TChar (max_length : option nat) (allow_blank : bool)
| TInteger
| TDate
| TImage
| TGenres.

Record field := Field {
  field_name : string;
  field_ty : field_type;
  required : bool;
  allow_null : bool;
  read_only : bool
}.

(** ** [movie/serializers.py] *)
Module Serializers.
Section with_framework.
Context `{!Framework}.

(** [GenreSerializer]: [fields = ['id', 'name']], [id] read-only. *)
Definition GenreSerializer_fields : list field :=
  [ Field "id" TInteger false false true;
    Field "name" (TChar (Some 255%nat) false) true false false ].

(** [MovieSerializer.Meta.fields], with the options the model columns give
    them; [genres] is the nested [GenreSerializer(many=True, required=False)]. *)
Definition MovieSerializer_fields : list field :=
  [ Field "id" TInteger false false true;
    Field "title" (TChar (Some 255%nat) false) true false false;
    Field "running_time_minutes" TInteger true false false;
    Field "release_date" TDate false true false;
    Field "age_restriction" (TChar (Some 5%nat) true) false false false;
    Field "genres" TGenres false false false ].

Definition MovieDetailSerializer_fields : list field :=
  MovieSerializer_fields ++
  [ Field "description" (TChar None true) false false false;
    Field "link" (TChar (Some 255%nat) true) false false false;
    Field "image" TImage false true false ].

Definition RecipeImageSerializer_fields : list field :=
  [ Field "id" TInteger false false true;
    Field "image" TImage true true false ].

(** One genre descriptor through the nested serializer: a dictionary whose
    [name] is validated; when the request is partial a descriptor without a
    name passes with no name. *)
Definition genre_descriptor (partial : bool) (v : value) : option (option string) :=
  match v with
  | VDict d =>
      match Py.dict_get "name" d with
      | None => if partial then Some None else None
      | Some VNull => None
      | Some x => Some <$> CharField (Some 255%nat) false x
      end
  | _ => None
  end.

Definition field_to_internal (partial : bool) (ty : field_type) (v : value)
    : option field_value :=
  match ty with
  | TChar n b => FStr <$> CharField n b v
  | TInteger => FInt <$> IntegerField v
  | TDate => (λ d, FDate (Some d)) <$> DateField v
  | TImage => (λ f, FImage (Uploaded f)) <$> ImageField v
  | TGenres =>
      match v with
      | VList l => FGenres <$> mapM (genre_descriptor partial) l
      | _ => None
      end
  end.

Definition null_value (ty : field_type) : option field_value :=
  match ty with
  | TDate => Some (FDate None)
  | TImage => Some (FImage NoImage)
  | _ => None
  end.

(** The validation of one declared field against the submitted dictionary:
    [None] is a validation error, [Some None] a field left out. *)
Definition run_validation (partial : bool) (f : field)
    (data : list (string * value)) : option (option (string * field_value)) :=
  if read_only f then Some None
  else match Py.dict_get (field_name f) data with
       | None => if partial then Some None
                 else if required f then None else Some None
       | Some VNull =>
           if allow_null f
           then (λ x, Some (field_name f, x)) <$> null_value (field_ty f)
           else None
       | Some v =>
           (λ x, Some (field_name f, x)) <$> field_to_internal partial (field_ty f) v
       end.

(** [serializer.is_valid()]: the validated data, holding only keys of
    declared writable fields, or [None] when some field fails. *)
Fixpoint to_internal_value (partial : bool) (fields : list field)
    (data : list (string * value)) : option (list (string * field_value)) :=
  match fields with
  | [] => Some []
  | f :: fs =>
      match run_validation partial f data, to_internal_value partial fs data with
      | Some r, Some rest => Some (option_list r ++ rest)
      | _, _ => None
      end
  end.

(** [setattr(instance, attr, value)] on a movie. *)
Definition setattr (attr : string) (v : field_value) (m : Movie.t) : Movie.t :=
  match v with
  | FStr s =>
      if String.eqb attr "title" then
        Movie.Build (Movie.user m) s (Movie.description m)
          (Movie.running_time_minutes m) (Movie.release_date m)
          (Movie.age_restriction m) (Movie.link m) (Movie.image m)
      else if String.eqb attr "description" then
        Movie.Build (Movie.user m) (Movie.title m) s
          (Movie.running_time_minutes m) (Movie.release_date m)
          (Movie.age_restriction m) (Movie.link m) (Movie.image m)
      else if String.eqb attr "age_restriction" then
        Movie.Build (Movie.user m) (Movie.title m) (Movie.description m)
          (Movie.running_time_minutes m) (Movie.release_date m)
          s (Movie.link m) (Movie.image m)
      else if String.eqb attr "link" then
        Movie.Build (Movie.user m) (Movie.title m) (Movie.description m)
          (Movie.running_time_minutes m) (Movie.release_date m)
          (Movie.age_restriction m) s (Movie.image m)
      else m
  | FInt n =>
      if String.eqb attr "running_time_minutes" then
        Movie.Build (Movie.user m) (Movie.title m) (Movie.description m)
          n (Movie.release_date m)
          (Movie.age_restriction m) (Movie.link m) (Movie.image m)
      else m
  | FDate d =>
      if String.eqb attr "release_date" then
        Movie.Build (Movie.user m) (Movie.title m) (Movie.description m)
          (Movie.running_time_minutes m) d
          (Movie.age_restriction m) (Movie.link m) (Movie.image m)
      else m
  | FImage i =>
      if String.eqb attr "image" then
        Movie.Build (Movie.user m) (Movie.title m) (Movie.description m)
          (Movie.running_time_minutes m) (Movie.release_date m)
          (Movie.age_restriction m) (Movie.link m) i
      else m
  | FUser u =>
      if String.eqb attr "user" then
        Movie.Build u (Movie.title m) (Movie.description m)
          (Movie.running_time_minutes m) (Movie.release_date m)
          (Movie.age_restriction m) (Movie.link m) (Movie.image m)
      else m
  | FGenres _ => m
  end.

(** [for attr, value in validated_data.items(): setattr(instance, attr, value)] *)
Definition setattrs (validated_data : list (string * field_value)) (m : Movie.t)
    : Movie.t :=
  fold_left (λ m kv, setattr kv.1 kv.2 m) validated_data m.

(** What saving does to the image attribute: an upload is stored under the
    generated path, with fresh random bytes. *)
Definition pre_save (m : Movie.t) : M Movie.t :=
  λ db,
    match Movie.image m with
    | Uploaded f =>
        let path := movie_image_file_path (urandom (urandom_calls db)) f in
        (Ok (setattr "image" (FImage (Stored path)) m),
         MkDB (movies db) (genres db) (movie_genres db)
              (movie_seq db) (genre_seq db) (S (urandom_calls db)))
    | _ => (Ok m, db)
    end.

(** [instance.save()] of an existing movie. *)
Definition movie_save (k : Z) (m : Movie.t) : M (Z * Movie.t) :=
  (m' <- pre_save m ;;
   db <- get_db ;;
   put_db (MkDB (<[k := m']> (movies db)) (genres db) (movie_genres db)
                (movie_seq db) (genre_seq db) (urandom_calls db)) ;;;
   ret (k, m'))%orm.

(** [Movie.objects.create] with the validated data as keyword arguments:
    the owner and the running time have no default, the other columns start
    empty. *)
Definition movie_create (kw : list (string * field_value)) : M (Z * Movie.t) :=
  match Py.dict_get "user" kw, Py.dict_get "running_time_minutes" kw with
  | Some (FUser u), Some (FInt n) =>
      (m' <- pre_save (setattrs kw (Movie.Build u "" "" n None "" "" NoImage)) ;;
       db <- get_db ;;
       let k := movie_seq db in
       put_db (MkDB (<[k := m']> (movies db)) (genres db) (movie_genres db)
                    (k + 1) (genre_seq db) (urandom_calls db)) ;;;
       ret (k, m'))%orm
  | _, _ => raise Py.IntegrityError
  end.

(** [MovieSerializer._get_or_create_genres(genres, movie)]; [auth_user] is
    [self.context['request'].user]. *)
Definition _get_or_create_genres (auth_user : Z) (genres : list (option string))
    (movie : Z) : M unit :=
  for_each genres (λ genre,
    (genre_obj <- Orm.genre_get_or_create auth_user genre ;;
     Orm.genres_add movie genre_obj.1)%orm).

(** [MovieSerializer.create(validated_data)] *)
Definition create (auth_user : Z) (validated_data : list (string * field_value))
    : M (Z * Movie.t) :=
  let (popped, validated_data) := Py.dict_pop "genres" validated_data in
  let genres := match popped with Some (FGenres ds) => ds | _ => [] end in
  (movie <- movie_create validated_data ;;
   _get_or_create_genres auth_user genres movie.1 ;;;
   ret movie)%orm.

(** [MovieSerializer.update(instance, validated_data)] *)
Definition update (auth_user : Z) (instance : Z * Movie.t)
    (validated_data : list (string * field_value)) : M (Z * Movie.t) :=
  let (genres, validated_data) := Py.dict_pop "genres" validated_data in
  ((match genres with
    | Some (FGenres ds) =>
        Orm.genres_clear instance.1 ;;;
        _get_or_create_genres auth_user ds instance.1
    | _ => ret tt
    end) ;;;
   movie_save instance.1 (setattrs validated_data instance.2))%orm.

(** [serializer.save] with keyword arguments: the validated data updated
    with them, a keyword replacing a validated key of the same name. *)
Definition save_kwargs (validated_data kwargs : list (string * field_value)) :=
  fold_left (λ d kv, Py.dict_set kv.1 kv.2 d) kwargs validated_data.

(** The update of [ModelSerializer] that [GenreSerializer] inherits. *)
Definition genre_update (instance : Z * Genre.t)
    (validated_data : list (string * field_value)) : M (Z * Genre.t) :=
  let g := match Py.dict_get "name" validated_data with
           | Some (FStr s) => Genre.Build s (Genre.user instance.2)
           | _ => instance.2
           end in
  (db <- get_db ;;
   put_db (MkDB (movies db) (<[instance.1 := g]> (genres db)) (movie_genres db)
                (movie_seq db) (genre_seq db) (urandom_calls db)) ;;;
   ret (instance.1, g))%orm.

End with_framework.
End Serializers.

(** ** Requests and responses *)

Inductive http_method := GET | POST | PUT | PATCH | DELETE.

Inductive action :=
| list_
| create_
| retrieve
| update_
| partial_update
| destroy
| upload_image_.

(** A request as a view sees it: [user] is [None] when no valid token came
    with it; [path] is relative to where the application's URLs are mounted. *)
Record request := Request {
  method : http_method;
  path : string;
  user : option Z;
  query_params : list (string * string);
  data : list (string * value)
}.

Inductive body :=
| Movies (l : list (Z * Movie.t))
| MovieObj (r : Z * Movie.t)
| Genres (l : list (Z * Genre.t))
| GenreObj (r : Z * Genre.t)
| Errors
| NoBody.

Record response := Response {
  status : Z;
  content : body
}.

(** The framework's exception handler: not-found and validation errors have
    their own status, any other exception is a server error. *)
Definition handle_exception (e : Py.exn) : response :=
  match e with
  | Py.Http404 => Response 404 Errors
  | Py.ValidationError => Response 400 Errors
  | Py.ValueError | Py.MultipleObjectsReturned | Py.IntegrityError =>
      Response 500 NoBody
  end.

Definition run_view (m : M response) : DB → response * DB :=
  λ db, match m db with
        | (Ok r, db') => (r, db')
        | (Raise e, db') => (handle_exception e, db')
        end.

Definition is_valid (validated : option (list (string * field_value)))
    : M (list (string * field_value)) :=
  match validated with
  | Some vd => ret vd
  | None => raise Py.ValidationError
  end.

(** ** [movie/views.py] *)
Module MovieViewSet.
Section with_framework.
Context `{!Framework}.

(** [_params_to_ints(qs)]: [[int(str_id) for str_id in qs.split(',')]] *)
Definition _params_to_ints (qs : string) : M (list Z) :=
  match mapM Py.int (Py.split "," qs) with
  | Some ids => ret ids
  | None => raise Py.ValueError
  end.

(** [get_queryset()] for the requesting user. *)
Definition get_queryset (request_user : Z) (req : request)
    : M (list (Z * Movie.t)) :=
  let genres := Py.dict_get "genres" (query_params req) in
  (db <- get_db ;;
   let queryset := Orm.all (movies db) in
   queryset <-
     (match genres with
      | Some (String c s) =>
          genre_ids <- _params_to_ints (String c s) ;;
          ret (Orm.filter_genres_id_in (movie_genres db) genre_ids queryset)
      | _ => ret queryset
      end) ;;
   ret (Orm.distinct (Orm.order_by_id_desc
          (Orm.filter_movie_user request_user queryset))))%orm.

(** [get_serializer_class()] *)
Definition get_serializer_class (a : action) : list field :=
  match a with
  | list_ => Serializers.MovieSerializer_fields
  | upload_image_ => Serializers.RecipeImageSerializer_fields
  | _ => Serializers.MovieDetailSerializer_fields
  end.

(** [get_object()]: the instance with the key of the URL within
    [get_queryset()]; a key that is no integer finds nothing. *)
Definition get_object (request_user : Z) (req : request) (pk : string)
    : M (Z * Movie.t) :=
  (queryset <- get_queryset request_user req ;;
   match Py.int pk with
   | Some k => Orm.get_object_or_404 k queryset
   | None => raise Py.Http404
   end)%orm.

(** [perform_create(serializer)]: [serializer.save(user=self.request.user)] *)
Definition perform_create (request_user : Z)
    (validated_data : list (string * field_value)) : M (Z * Movie.t) :=
  Serializers.create request_user
    (Serializers.save_kwargs validated_data [("user"%string, FUser request_user)]).

Definition create (request_user : Z) (req : request) : M response :=
  (validated_data <-
     is_valid (Serializers.to_internal_value false
                 (get_serializer_class create_) (data req)) ;;
   movie <- perform_create request_user validated_data ;;
   ret (Response 201 (MovieObj movie)))%orm.

Definition retrieve (request_user : Z) (req : request) (pk : string)
    : M response :=
  (instance <- get_object request_user req pk ;;
   ret (Response 200 (MovieObj instance)))%orm.

(** [update] and, with [partial], [partial_update]. *)
Definition update (partial : bool) (request_user : Z) (req : request)
    (pk : string) : M response :=
  (instance <- get_object request_user req pk ;;
   validated_data <-
     is_valid (Serializers.to_internal_value partial
                 (get_serializer_class update_) (data req)) ;;
   movie <- Serializers.update request_user instance validated_data ;;
   ret (Response 200 (MovieObj movie)))%orm.

(** [destroy]: the row goes, and with it its rows of the junction table. *)
Definition destroy (request_user : Z) (req : request) (pk : string)
    : M response :=
  (instance <- get_object request_user req pk ;;
   db <- get_db ;;
   put_db (MkDB (delete instance.1 (movies db)) (genres db)
                (filter (λ j, j.1 ≠ instance.1) (movie_genres db))
                (movie_seq db) (genre_seq db) (urandom_calls db)) ;;;
   ret (Response 204 NoBody))%orm.

(** [upload_image(request, pk)] *)
Definition upload_image (request_user : Z) (req : request) (pk : string)
    : M response :=
  (movie <- get_object request_user req pk ;;
   match Serializers.to_internal_value false
           (get_serializer_class upload_image_) (data req) with
   | Some validated_data =>
       saved <- Serializers.movie_save movie.1
                  (Serializers.setattrs validated_data movie.2) ;;
       ret (Response 200 (MovieObj saved))
   | None => ret (Response 400 Errors)
   end)%orm.

Definition list (request_user : Z) (req : request) : M response :=
  (queryset <- get_queryset request_user req ;;
   ret (Response 200 (Movies queryset)))%orm.

End with_framework.
End MovieViewSet.

(** The [genres] parameter of a request is absent, empty, or a list of
    integers: the cases in which [get_queryset] does not raise. *)
Definition genres_filter_ok (req : request) : Prop :=
  match Py.dict_get "genres" (query_params req) with
  | Some (String c s) => is_Some (mapM Py.int (Py.split "," (String c s)))
  | _ => True
  end.

#[global] Instance genres_filter_ok_dec req : Decision (genres_filter_ok req).
Proof.
  unfold genres_filter_ok.
  destruct (Py.dict_get "genres" (query_params req)) as [[|c s]|]; apply _.
Defined.

Module GenreViewSet.
Section with_framework.
Context `{!Framework}.

(** [get_queryset()] *)
Definition get_queryset (request_user : Z) : M (list (Z * Genre.t)) :=
  (db <- get_db ;;
   ret (Orm.order_by_name_desc
          (Orm.filter_genre_user request_user (Orm.all (genres db)))))%orm.

Definition get_object (request_user : Z) (pk : string) : M (Z * Genre.t) :=
  (queryset <- get_queryset request_user ;;
   match Py.int pk with
   | Some k => Orm.get_object_or_404 k queryset
   | None => raise Py.Http404
   end)%orm.

Definition update (partial : bool) (request_user : Z) (req : request)
    (pk : string) : M response :=
  (instance <- get_object request_user pk ;;
   validated_data <-
     is_valid (Serializers.to_internal_value partial
                 Serializers.GenreSerializer_fields (data req)) ;;
   genre <- Serializers.genre_update instance validated_data ;;
   ret (Response 200 (GenreObj genre)))%orm.

Definition destroy (request_user : Z) (pk : string) : M response :=
  (instance <- get_object request_user pk ;;
   db <- get_db ;;
   put_db (MkDB (movies db) (delete instance.1 (genres db))
                (filter (λ j, j.2 ≠ instance.1) (movie_genres db))
                (movie_seq db) (genre_seq db) (urandom_calls db)) ;;;
   ret (Response 204 NoBody))%orm.

Definition list (request_user : Z) : M response :=
  (queryset <- get_queryset request_user ;;
   ret (Response 200 (Genres queryset)))%orm.

End with_framework.
End GenreViewSet.

(** ** [movie/urls.py] *)
Module Urls.

Inductive viewset := MovieViews | GenreViews.

(** [router.register('movies', views.MovieViewSet)] and
    [router.register('tags', views.GenreViewSet)] *)
Definition router : list (string * viewset) :=
  [ ("movies"%string, MovieViews); ("tags"%string, GenreViews) ].

Inductive route :=
| ListRoute
| DetailRoute (pk : string)
| UploadImageRoute (pk : string).

(** A lookup value in a URL: not empty, without a dot (and, being one
    segment of the path, without a slash). *)
Definition lookup_ok (pk : string) : bool :=
  negb (String.eqb pk "") && (Py.rfind "." pk =? -1).

(** The routes the router generates for one registration, against the
    segments of a path; every route ends in a slash. *)
Definition match_route (reg : string * viewset) (segments : list string)
    : option (viewset * route) :=
  match segments with
  | [p; e] =>
      if String.eqb p reg.1 && String.eqb e "" then Some (reg.2, ListRoute)
      else None
  | [p; pk; e] =>
      if String.eqb p reg.1 && lookup_ok pk && String.eqb e ""
      then Some (reg.2, DetailRoute pk) else None
  | [p; pk; a; e] =>
      match reg.2 with
      | MovieViews =>
          if String.eqb p reg.1 && lookup_ok pk
             && String.eqb a "upload-image" && String.eqb e ""
          then Some (reg.2, UploadImageRoute pk) else None
      | GenreViews => None
      end
  | _ => None
  end.

Fixpoint resolve_in (regs : list (string * viewset)) (segments : list string)
    : option (viewset * route) :=
  match regs with
  | [] => None
  | reg :: regs' =>
      match match_route reg segments with
      | Some r => Some r
      | None => resolve_in regs' segments
      end
  end.

Definition resolve (path : string) : option (viewset * route) :=
  resolve_in router (Py.split "/" path).

(** The action a method is bound to on a route of a view set; the genre view
    set has the list, update and destroy mixins only. *)
Definition action_of (v : viewset) (r : route) (m : http_method) : option action :=
  match v, r, m with
  | MovieViews, ListRoute, GET => Some list_
  | MovieViews, ListRoute, POST => Some create_
  | MovieViews, DetailRoute _, GET => Some retrieve
  | MovieViews, DetailRoute _, PUT => Some update_
  | MovieViews, DetailRoute _, PATCH => Some partial_update
  | MovieViews, DetailRoute _, DELETE => Some destroy
  | MovieViews, UploadImageRoute _, POST => Some upload_image_
  | GenreViews, ListRoute, GET => Some list_
  | GenreViews, DetailRoute _, PUT => Some update_
  | GenreViews, DetailRoute _, PATCH => Some partial_update
  | GenreViews, DetailRoute _, DELETE => Some destroy
  | _, _, _ => None
  end.

Definition route_pk (r : route) : string :=
  match r with
  | ListRoute => ""
  | DetailRoute pk | UploadImageRoute pk => pk
  end.

Section with_framework.
Context `{!Framework}.

Definition view (v : viewset) (a : action) (u : Z) (req : request) (pk : string)
    : M response :=
  match v, a with
  | MovieViews, list_ => MovieViewSet.list u req
  | MovieViews, create_ => MovieViewSet.create u req
  | MovieViews, retrieve => MovieViewSet.retrieve u req pk
  | MovieViews, update_ => MovieViewSet.update false u req pk
  | MovieViews, partial_update => MovieViewSet.update true u req pk
  | MovieViews, destroy => MovieViewSet.destroy u req pk
  | MovieViews, upload_image_ => MovieViewSet.upload_image u req pk
  | GenreViews, list_ => GenreViewSet.list u
  | GenreViews, update_ => GenreViewSet.update false u req pk
  | GenreViews, partial_update => GenreViewSet.update true u req pk
  | GenreViews, destroy => GenreViewSet.destroy u pk
  | GenreViews, _ => ret (Response 405 Errors)
  end.

(** One request through URL resolution, token authentication, the method
    table and the view. *)
Definition handle (req : request) : DB → response * DB :=
  λ db,
    match resolve (path req) with
    | None => (Response 404 Errors, db)
    | Some (v, r) =>
        match user req with
        | None => (Response 401 Errors, db)
        | Some u =>
            match action_of v r (method req) with
            | None => (Response 405 Errors, db)
            | Some a => run_view (view v a u req (route_pk r)) db
            end
        end
    end.

End with_framework.
End Urls.

(** ** A small instance of the framework, and the states of the examples *)

Definition example_date (s : string) : option date :=
  match Py.split "-" s with
  | [y; m; d] =>
      y ← Py.digits y 0 false; m ← Py.digits m 0 false; d ← Py.digits d 0 false;
      Some (Date y m d)
  | _ => None
  end.

#[global] Instance example_framework : Framework := {|
  CharField max_length allow_blank v :=
    match v with
    | VStr s =>
        let s := Py.strip s in
        if (negb allow_blank && String.eqb s "")
           || from_option (λ n, Nat.ltb n (String.length s)) false max_length
        then None else Some s
    | _ => None
    end;
  IntegerField v :=
    match v with
    | VInt n => Some n
    | VStr s => Py.int s
    | _ => None
    end;
  DateField v :=
    match v with
    | VStr s => example_date s
    | _ => None
    end;
  ImageField v :=
    match v with
    | VFile filename content =>
        if String.eqb content "" then None else Some filename
    | _ => None
    end;
  urandom n := Z.of_nat n
|}.

Definition empty_db : DB := MkDB ∅ ∅ ∅ 1 1 0.

(** The database after a sequence of requests. *)
Definition run_requests `{!Framework} (reqs : list request) (db : DB) : DB :=
  fold_left (λ db r, (Urls.handle r db).2) reqs db.

Definition descriptor (name : string) : value := VDict [("name"%string, VStr name)].

(** Three movies of user 1 (keys 1 to 3) and one of user 2 (key 4); genres
    1 Adventure and 2 Sci-Fi of user 1, genre 3 Adventure of user 2. *)
Definition sample_requests : list request :=
  [ Request POST "movies/" (Some 1) []
      [ ("title", VStr "Black Adam"); ("running_time_minutes", VInt 120);
        ("genres", VList [descriptor "Adventure"]) ];
    Request POST "movies/" (Some 1) []
      [ ("title", VStr "Avengers"); ("running_time_minutes", VInt 180);
        ("genres", VList [descriptor "Adventure"; descriptor "Sci-Fi"]) ];
    Request POST "movies/" (Some 1) []
      [ ("title", VStr "Holidays"); ("running_time_minutes", VInt 90) ];
    Request POST "movies/" (Some 2) []
      [ ("title", VStr "Other"); ("running_time_minutes", VInt 60);
        ("genres", VList [descriptor "Adventure"]) ] ]%string.

Definition sample_db : DB := run_requests sample_requests empty_db.

(** User 1 then renames genre 2 to the name of genre 1. *)
Definition rename_request : request :=
  Request PATCH "tags/2/" (Some 1) [] [("name", VStr "Adventure")]%string.

Definition renamed_db : DB := run_requests [rename_request] sample_db.

(** Requests of the examples. *)
Definition movie_row (u : Z) (title : string) (minutes : Z) : Movie.t :=
  Movie.Build u title "" minutes None "" "" NoImage.

Definition list_request (genres : string) : request :=
  Request GET "movies/" (Some 1) [("genres"%string, genres)] [].

Definition delete_request (genres : list (string * string)) : request :=
  Request DELETE "movies/4/" (Some 1) genres [].

Definition genres_update_request (names : list string) : request :=
  Request PATCH "movies/2/" (Some 1) []
    [("genres"%string, VList (descriptor <$> names))].

(** ** Vocabulary of the statements *)

(** [r] is the one genre row that the lookup with the user and the descriptor matches. *)
Definition only_match (db : DB) (u : Z) (nm : option string)
    (r : Z * Genre.t) : Prop :=
  ∀ x, genres db !! x.1 = Some x.2 ∧ Orm.genre_matches u nm x ↔ x = r.

(** The genres attached to movie [k] are exactly the genre rows matched by
    one of the descriptors [ds]. *)
Definition attached_ok (u k : Z) (ds : list (option string)) (db : DB) : Prop :=
  ∀ g, (k, g) ∈ movie_genres db ↔
       ∃ row d, genres db !! g = Some row ∧ d ∈ ds ∧
                Orm.genre_matches u d (g, row).

(** The answer to a request for a movie that is not the user's. *)
Definition not_own_answer (req : request) : response :=
  if decide (genres_filter_ok req) then Response 404 Errors
  else Response 500 NoBody.

Ltac unfold_orm := unfold bind, ret, raise, get_db, put_db in *.

(** ** Vocabulary of the further properties *)

(** The state is consistent: keys lie below the counters, every row of the
    junction table joins an existing movie to an existing genre of the same
    owner, and no stored movie holds an upload that was never saved. *)
Definition db_consistent (db : DB) : Prop :=
  (∀ k, is_Some (movies db !! k) → k < movie_seq db) ∧
  genres_wf db ∧
  (∀ m g, (m, g) ∈ movie_genres db →
          ∃ mr gr, movies db !! m = Some mr ∧ genres db !! g = Some gr ∧
                   Genre.user gr = Movie.user mr) ∧
  (∀ k m f, movies db !! k = Some m → Movie.image m ≠ Uploaded f).

(** What belongs to users other than [u] in [db] is the same in [db']:
    their movies, their genres and the genres of their movies. *)
Definition kept_for_others (u : Z) (db db' : DB) : Prop :=
  (∀ k m, movies db !! k = Some m → Movie.user m ≠ u →
          movies db' !! k = Some m) ∧
  (∀ k g, genres db !! k = Some g → Genre.user g ≠ u →
          genres db' !! k = Some g) ∧
  (∀ m g mr, (m, g) ∈ movie_genres db → movies db !! m = Some mr →
             Movie.user mr ≠ u → (m, g) ∈ movie_genres db').

Definition step_inv (u : Z) (db0 db : DB) : Prop :=
  db_consistent db ∧ kept_for_others u db0 db.

(** The image attribute after saving, with the random bytes [rnd]. *)
Definition saved_image (rnd : Z) (i : image_ref) : image_ref :=
  match i with
  | Uploaded f => Stored (movie_image_file_path rnd f)
  | _ => i
  end.

(** Among the genres of [u] no two records have the same name. *)
Definition unique_names (u : Z) (db : DB) : Prop :=
  ∀ g1 g2 r1 r2, genres db !! g1 = Some r1 → genres db !! g2 = Some r2 →
                 Genre.user r1 = u → Genre.user r2 = u →
                 Genre.name r1 = Genre.name r2 → g1 = g2.

(** From [db] to [db'] only genres of [u] and attachments of movie [k] were
    added: genre rows stay as they are, a new row is a genre of [u] with the
    name of a descriptor of [ds] that no genre of [u] had, a new attachment
    joins [k] to a genre of [u], and the movies are the same. *)
Definition only_added (u k : Z) (ds : list (option string)) (db db' : DB)
    : Prop :=
  (∀ g row, genres db !! g = Some row → genres db' !! g = Some row) ∧
  (∀ g row, genres db' !! g = Some row →
     genres db !! g = Some row ∨
     (Genre.user row = u ∧
      (∃ d, d ∈ ds ∧ Genre.name row = default EmptyString d) ∧
      ∀ g0 row0, genres db !! g0 = Some row0 → Genre.user row0 = u →
                 Genre.name row0 ≠ Genre.name row)) ∧
  (∀ j, j ∈ movie_genres db → j ∈ movie_genres db') ∧
  (∀ j, j ∈ movie_genres db' →
     j ∈ movie_genres db ∨
     (j.1 = k ∧ ∃ row, genres db' !! j.2 = Some row ∧ Genre.user row = u)) ∧
  movies db' = movies db ∧ movie_seq db' = movie_seq db.

(** [getattr(movie, attr)] on the columns of a movie, as the tests read them
    back. *)
Definition getattr (attr : string) (m : Movie.t) : option field_value :=
  if String.eqb attr "user" then Some (FUser (Movie.user m))
  else if String.eqb attr "title" then Some (FStr (Movie.title m))
  else if String.eqb attr "description" then Some (FStr (Movie.description m))
  else if String.eqb attr "running_time_minutes"
       then Some (FInt (Movie.running_time_minutes m))
  else if String.eqb attr "release_date" then Some (FDate (Movie.release_date m))
  else if String.eqb attr "age_restriction"
       then Some (FStr (Movie.age_restriction m))
  else if String.eqb attr "link" then Some (FStr (Movie.link m))
  else if String.eqb attr "image" then Some (FImage (Movie.image m))
  else None.

(** A validated value has the type of its field. *)
Definition has_type (ty : field_type) (v : field_value) : Prop :=
  match ty, v with
  | TChar _ _, FStr _ | TInteger, FInt _ | TDate, FDate _
  | TImage, FImage _ | TGenres, FGenres _ => True
  | _, _ => False
  end.

(** [attr] with [v] is an assignment to a column: reading the column after
    the assignment gives [v]. *)
Definition column_value (attr : string) (v : field_value) : Prop :=
  ∀ m, getattr attr (Serializers.setattr attr v m) = Some v.

(** An outcome of a view run from [db] that writes only on success: a
    success answer, or a client-error answer or exception with the state as
    it was. *)
Definition writes_on_success_only (db : DB) (out : result response * DB)
    : Prop :=
  match out with
  | (Ok r, db') =>
      status r = 200 ∨ status r = 201 ∨ status r = 204 ∨
      ((status r = 400 ∨ status r = 405) ∧ db' = db)
  | (Raise e, db') => e = Py.Http404 ∨ e = Py.ValidationError → db' = db
  end.

(** ** The text of integers

    The clients of the API build the [genres] parameter from keys, as the
    tests do with [f'{genre1.id},{genre2.id}']. *)
Module PyStr.

Definition digit_char (d : Z) : ascii := ascii_of_nat (Z.to_nat (48 + d)).

(** The decimal digits of [n], most significant first, before [acc]. *)
Fixpoint of_nonneg_fuel (fuel : nat) (n : Z) (acc : string) : string :=
  match fuel with
  | O => acc
  | S fuel' =>
      let acc' := String (digit_char (n mod 10)) acc in
      if n <? 10 then acc' else of_nonneg_fuel fuel' (n / 10) acc'
  end.

Definition of_nonneg (n : Z) : string :=
  of_nonneg_fuel (S (Z.to_nat (Z.log2 n))) n EmptyString.

(** [str(n)] *)
Definition of_int (n : Z) : string :=
  if n <? 0 then String "-" (of_nonneg (- n)) else of_nonneg n.

(** [sep.join(parts)] for a one-character separator. *)
Fixpoint join (sep : ascii) (parts : list string) : string :=
  match parts with
  | [] => EmptyString
  | p :: ps =>
      match ps with
      | [] => p
      | _ => String.append p (String sep (join sep ps))
      end
  end.

End PyStr.

(** From [db] to [db'] the genre endpoints have added nothing: the movies
    and the key counters are the same, every genre record of [db'] was a
    record of [db] under the same key and has the same owner, and every
    attachment of [db'] was one of [db]. *)
Definition nothing_added (db db' : DB) : Prop :=
  movies db' = movies db ∧ movie_seq db' = movie_seq db ∧
  genre_seq db' = genre_seq db ∧
  (∀ k g', genres db' !! k = Some g' →
           ∃ g, genres db !! k = Some g ∧ Genre.user g' = Genre.user g) ∧
  (∀ j, j ∈ movie_genres db' → j ∈ movie_genres db).

(** ** Vocabulary of the image path *)

(** [dir], [stem] and [e] cut the file name [p] at its extension: [p] is
    [dir], then [stem], then a dot and [e], where [dir] is empty or ends with
    the separator, [stem] has no separator and holds a character other than
    the dot, and [e] has neither a dot nor a separator. *)
Definition ext_split (p dir stem e : string) : Prop :=
  p = String.append dir (String.append stem (String "." e)) ∧
  (dir = EmptyString ∨ Py.endswith "/" dir = true) ∧
  Py.contains "/" stem = false ∧
  (∃ c, Py.contains c stem = true ∧ c ≠ "."%char) ∧
  Py.contains "." e = false ∧ Py.contains "/" e = false.

(** The bits of a version-4 identifier that are not random: the variant,
    bits 62 and 63, and the version, bits 76 to 79. *)
Definition uuid4_fixed (i : Z) : bool :=
  ((62 <=? i) && (i <=? 63)) || ((76 <=? i) && (i <=? 79)).

Definition is_hex (c : ascii) : bool :=
  Py.is_digit c || ((97 <=? Py.code c) && (Py.code c <=? 102)).

Fixpoint all_hex (s : string) : bool :=
  match s with
  | EmptyString => true
  | String c s' => is_hex c && all_hex s'
  end.

(** The text of a version-4 identifier: lower-case hexadecimal digits in
    groups of 8, 4, 4, 4 and 12 between dashes, the third group starting with
    the version 4 and the fourth with the variant, one of 8, 9, a and b. *)
Definition uuid4_text (s : string) : Prop :=
  ∃ a b c v d e,
    s = String.append a (String "-" (String.append b (String "-"
          (String "4" (String.append c (String "-"
             (String v (String.append d (String "-" e))))))))) ∧
    String.length a = 8%nat ∧ String.length b = 4%nat ∧
    String.length c = 3%nat ∧ String.length d = 3%nat ∧
    String.length e = 12%nat ∧
    all_hex a = true ∧ all_hex b = true ∧ all_hex c = true ∧
    all_hex d = true ∧ all_hex e = true ∧
    v ∈ ["8"; "9"; "a"; "b"]%char.

(** * Properties *)

(** ** The builtins on examples *)

Example int_examples :
  (Py.int " 12 ", Py.int "-3", Py.int "1_000", Py.int "abc", Py.int "",
   Py.int "1__0", Py.int "+", Py.int "007")
  = (Some 12, Some (-3), Some 1000, None, None, None, None, Some 7).
Proof. reflexivity. Qed.

(** The separators 28 to 31 are stripped by [str.strip] and not skipped by
    [int()]; the no-break space 160 is skipped by both. *)
Example int_space_examples :
  (Py.int (String (ascii_of_nat 28) "1"), Py.int (String (ascii_of_nat 31) "1"),
   Py.int (String (ascii_of_nat 160) "1"), Py.int (String (ascii_of_nat 9) "1"),
   Py.int (String "1" (String (ascii_of_nat 133) "")),
   Py.int (String "-" (String " " "1")),
   Py.strip (String (ascii_of_nat 28) "1"))
  = (None, None, Some 1, Some 1, Some 1, None, "1"%string).
Proof. reflexivity. Qed.

Example split_examples :
  (Py.split "," "1,2", Py.split "," "", Py.split "," "1,,2", Py.split "," "3,")
  = (["1"; "2"], [""], ["1"; ""; "2"], ["3"; ""])%string.
Proof. reflexivity. Qed.

Example splitext_examples :
  (PosixPath.splitext "poster.jpg", PosixPath.splitext ".bashrc",
   PosixPath.splitext "a.b/c", PosixPath.splitext "x.tar.gz",
   PosixPath.splitext "..x", PosixPath.splitext "dir/.hidden.png")
  = (("poster", ".jpg"), (".bashrc", ""), ("a.b/c", ""), ("x.tar", ".gz"),
     ("..x", ""), ("dir/.hidden", ".png"))%string.
Proof. reflexivity. Qed.

Example path_example :
  movie_image_file_path 0 "poster.jpg"
  = "uploads/movie/00000000-0000-4000-8000-000000000000.jpg"%string.
Proof. reflexivity. Qed.


(** ** Text and paths *)

Section rfind.
Variable c : ascii.

Lemma rfind_from_cases s i last :
  Py.rfind_from c s i last = last ∨ i ≤ Py.rfind_from c s i last.
Proof.
  revert i last. induction s as [|d s IH]; intros i last; simpl; [by left|].
  destruct (IH (i + 1) (if Ascii.eqb d c then i else last)) as [->|?];
    [|right; lia].
  destruct (Ascii.eqb d c); [right; lia | by left].
Qed.

(** Behind the last occurrence there is no occurrence. *)
Lemma rfind_from_drop s i last (n : nat) :
  last < i → Py.rfind_from c s i last < i + Z.of_nat n →
  Py.contains c (Py.drop n s) = false.
Proof.
  revert i last n. induction s as [|d s IH]; intros i last n Hl Hr.
  { by destruct n. }
  simpl in Hr. destruct n as [|n]; simpl.
  - destruct (Ascii.eqb d c) eqn:Hd.
    + destruct (rfind_from_cases s (i + 1) i); lia.
    + simpl. rewrite <-(IH (i + 1) last 0%nat); [by destruct s|lia|lia].
  - apply (IH (i + 1) (if Ascii.eqb d c then i else last)); [|lia].
    destruct (Ascii.eqb d c); lia.
Qed.

(** At the index found stands the character. *)
Lemma rfind_from_at s i last :
  last < i → i ≤ Py.rfind_from c s i last →
  ∃ e, Py.drop (Z.to_nat (Py.rfind_from c s i last - i)) s = String c e.
Proof.
  revert i last. induction s as [|d s IH]; intros i last Hl Hr; simpl in *.
  { lia. }
  set (last' := if Ascii.eqb d c then i else last) in *.
  destruct (rfind_from_cases s (i + 1) last') as [Heq|Hge].
  - rewrite Heq in *. unfold last' in *.
    destruct (Ascii.eqb d c) eqn:Hd; [|lia].
    apply Ascii.eqb_eq in Hd as ->. rewrite Z.sub_diag. simpl. eauto.
  - destruct (IH (i + 1) last') as [e He]; [|done|].
    { unfold last'. destruct (Ascii.eqb d c); lia. }
    exists e. rewrite <-He.
    replace (Z.to_nat (Py.rfind_from c s (i + 1) last' - i))
      with (S (Z.to_nat (Py.rfind_from c s (i + 1) last' - (i + 1)))) by lia.
    done.
Qed.

End rfind.

Lemma take_drop n s : String.append (Py.take n s) (Py.drop n s) = s.
Proof.
  revert s. induction n as [|n IH]; intros [|d s]; try done.
  change (String d (String.append (Py.take n s) (Py.drop n s)) = String d s).
  by rewrite IH.
Qed.

Lemma drop_S n s d e : Py.drop n s = String d e → Py.drop (S n) s = e.
Proof.
  revert s. induction n as [|n IH]; intros [|a s] H; simpl in *;
    try discriminate.
  - by destruct s; inversion H.
  - by apply IH.
Qed.

(** [splitext] cuts the name in two; the extension is empty, or a dot
    followed by characters that are neither a dot nor a slash. *)
Lemma splitext_spec p :
  String.append (PosixPath.splitext p).1 (PosixPath.splitext p).2 = p ∧
  ((PosixPath.splitext p).2 = EmptyString ∨
   ∃ e, (PosixPath.splitext p).2 = String "." e ∧
        Py.contains "." e = false ∧ Py.contains "/" e = false).
Proof.
  unfold PosixPath.splitext.
  destruct (_ && _) eqn:Hc; simpl.
  - split; [apply take_drop|right].
    apply andb_true_iff in Hc as [Hgt _]. apply Z.gtb_lt in Hgt.
    assert (-1 ≤ Py.rfind "/" p) as Hsep.
    { unfold Py.rfind. destruct (rfind_from_cases "/" p 0 (-1)); lia. }
    destruct (rfind_from_at "." p 0 (-1)) as [e He]; [lia|unfold Py.rfind in *; lia|].
    rewrite Z.sub_0_r in He. exists e. split; [done|]. split.
    + rewrite <-(drop_S _ _ _ _ He).
      apply (rfind_from_drop "." p 0 (-1)); unfold Py.rfind in *; lia.
    + assert (Py.contains "/" (String "." e) = false) as Hs; [|done].
      rewrite <-He. apply (rfind_from_drop "/" p 0 (-1)); unfold Py.rfind in *; lia.
  - split; [|by left]. clear Hc.
    induction p as [|a p IH]; [done|].
    change (String a (String.append p "") = String a p). by rewrite IH.
Qed.

Lemma hex_digit_not_sep n : 0 ≤ n < 16 → Uuid.hex_digit n ≠ "/"%char.
Proof.
  intros Hn.
  assert (n = 0 ∨ n = 1 ∨ n = 2 ∨ n = 3 ∨ n = 4 ∨ n = 5 ∨ n = 6 ∨ n = 7 ∨
          n = 8 ∨ n = 9 ∨ n = 10 ∨ n = 11 ∨ n = 12 ∨ n = 13 ∨ n = 14 ∨ n = 15)
    as H by lia.
  repeat (destruct H as [->|H]; [discriminate|]). by subst.
Qed.

Lemma uuid_str_head u :
  ∃ rest, Uuid.str u = String (Uuid.hex_digit (Z.land (Z.shiftr u 124) 15)) rest.
Proof. eexists. reflexivity. Qed.

Lemma uuid_str_length u : String.length (Uuid.str u) = 36%nat.
Proof. reflexivity. Qed.

Lemma uuid_str_not_absolute u ext :
  Py.startswith "/" (String.append (Uuid.str u) ext) = false.
Proof.
  destruct (uuid_str_head u) as [rest ->].
  change (Ascii.eqb (Uuid.hex_digit (Z.land (u ≫ 124) 15)) "/" = false).
  apply Ascii.eqb_neq, hex_digit_not_sep.
  change 15 with (Z.ones 4). rewrite Z.land_ones by lia.
  apply Z.mod_pos_bound. lia.
Qed.

(** ** The extension that [splitext] cuts *)

Section rfind_append.
Variable c : ascii.

Lemma rfind_from_app a b i last :
  Py.rfind_from c (String.append a b) i last
  = Py.rfind_from c b (i + Z.of_nat (String.length a)) (Py.rfind_from c a i last).
Proof.
  revert i last. induction a as [|d a IH]; intros i last.
  - simpl. f_equal. lia.
  - change (Py.rfind_from c (String.append a b) (i + 1)
              (if Ascii.eqb d c then i else last)
            = Py.rfind_from c b (i + Z.of_nat (S (String.length a)))
                (Py.rfind_from c a (i + 1) (if Ascii.eqb d c then i else last))).
    rewrite IH. f_equal. lia.
Qed.

Lemma rfind_from_absent s i last :
  Py.contains c s = false → Py.rfind_from c s i last = last.
Proof.
  revert i last. induction s as [|d s IH]; intros i last Hc; [done|].
  simpl in *. apply orb_false_iff in Hc as [-> Hc]. by apply IH.
Qed.

Lemma rfind_from_endswith s i last :
  Py.endswith c s = true →
  Py.rfind_from c s i last = i + Z.of_nat (String.length s) - 1.
Proof.
  revert i last. induction s as [|d s IH]; intros i last He; [done|].
  destruct s as [|d' s].
  - simpl in *. rewrite He. lia.
  - change (Py.endswith c (String d' s) = true) in He.
    change (Py.rfind_from c (String d' s) (i + 1)
              (if Ascii.eqb d c then i else last)
            = i + Z.of_nat (S (String.length (String d' s))) - 1).
    rewrite IH by done. lia.
Qed.

Lemma contains_app a b :
  Py.contains c (String.append a b) = Py.contains c a || Py.contains c b.
Proof.
  induction a as [|d a IH]; [done|].
  change (Ascii.eqb d c || Py.contains c (String.append a b)
          = Ascii.eqb d c || Py.contains c a || Py.contains c b).
  rewrite IH. by rewrite orb_assoc.
Qed.

Lemma endswith_contains s : Py.endswith c s = true → Py.contains c s = true.
Proof.
  induction s as [|d s IH]; [done|]. destruct s as [|d' s].
  - simpl. intros ->. done.
  - intros He. change (Py.endswith c (String d' s) = true) in He.
    change (Ascii.eqb d c || Py.contains c (String d' s) = true).
    rewrite IH by done. apply orb_true_r.
Qed.

End rfind_append.

Lemma str_drop_app a b : Py.drop (String.length a) (String.append a b) = b.
Proof. induction a as [|d a IH]; [by destruct b|done]. Qed.

Lemma string_get_shift a p i :
  String.get (S i) (String a p) = String.get i p.
Proof. done. Qed.

Lemma has_non_dot_shift a p i n :
  PosixPath.has_non_dot (String a p) (S i) n = PosixPath.has_non_dot p i n.
Proof.
  revert i. induction n as [|n IH]; intros i; [done|].
  simpl PosixPath.has_non_dot. rewrite IH. done.
Qed.

Lemma has_non_dot_app dir q n :
  PosixPath.has_non_dot (String.append dir q) (String.length dir) n
  = PosixPath.has_non_dot q 0 n.
Proof.
  induction dir as [|d dir IH]; [done|].
  change (PosixPath.has_non_dot (String d (String.append dir q))
            (S (String.length dir)) n = PosixPath.has_non_dot q 0 n).
  by rewrite has_non_dot_shift.
Qed.

Lemma has_non_dot_stem stem rest c :
  Py.contains c stem = true → c ≠ "."%char →
  PosixPath.has_non_dot (String.append stem rest) 0 (String.length stem) = true.
Proof.
  induction stem as [|d stem IH]; intros Hc Hne; [done|].
  change (PosixPath.has_non_dot (String d (String.append stem rest)) 0
            (S (String.length stem)) = true).
  simpl PosixPath.has_non_dot.
  destruct (Ascii.eqb d ".") eqn:Hd; [|done]. simpl.
  rewrite has_non_dot_shift. apply IH; [|done].
  simpl in Hc. apply orb_true_iff in Hc as [Hc|Hc]; [|done].
  apply Ascii.eqb_eq in Hc, Hd. congruence.
Qed.

(** A name cut at its extension: what [splitext] returns. *)
Lemma splitext_of_split p dir stem e :
  ext_split p dir stem e → (PosixPath.splitext p).2 = String "." e.
Proof.
  intros (-> & Hdir & Hstem & (c & Hc & Hne) & He1 & He2).
  assert (Py.contains "/" (String.append stem (String "." e)) = false) as Hns.
  { rewrite contains_app, Hstem. simpl. by rewrite He2. }
  assert (Py.rfind "/" (String.append dir (String.append stem (String "." e)))
          = Z.of_nat (String.length dir) - 1) as Hsep.
  { unfold Py.rfind. rewrite rfind_from_app, rfind_from_absent by done.
    destruct Hdir as [->|Hd]; [done|].
    rewrite rfind_from_endswith by done. lia. }
  assert (Py.rfind "." (String.append dir (String.append stem (String "." e)))
          = Z.of_nat (String.length dir) + Z.of_nat (String.length stem))
    as Hdot.
  { unfold Py.rfind. rewrite !rfind_from_app. simpl.
    rewrite rfind_from_absent by done. lia. }
  unfold PosixPath.splitext. rewrite Hsep, Hdot.
  replace (Z.to_nat (Z.of_nat (String.length dir) - 1 + 1))
    with (String.length dir) by lia.
  replace (Z.to_nat (Z.of_nat (String.length dir)
                     + Z.of_nat (String.length stem)
                     - (Z.of_nat (String.length dir) - 1 + 1)))
    with (String.length stem) by lia.
  rewrite has_non_dot_app, (has_non_dot_stem stem _ c) by done.
  destruct (Z.gtb_spec (Z.of_nat (String.length dir)
                        + Z.of_nat (String.length stem))
              (Z.of_nat (String.length dir) - 1)) as [_|?]; [|lia].
  simpl.
  replace (Z.to_nat (Z.of_nat (String.length dir)
                     + Z.of_nat (String.length stem)))
    with (String.length dir + String.length stem)%nat by lia.
  clear. induction dir as [|d dir IH]; [exact (str_drop_app stem _)|done].
Qed.

Lemma str_drop_drop a b s : Py.drop a (Py.drop b s) = Py.drop (b + a) s.
Proof.
  revert s. induction b as [|b IH]; intros s; [done|].
  destruct s as [|d s]; [by destruct a|]. apply IH.
Qed.

Lemma drop_lt n s c e : Py.drop n s = String c e → (n < String.length s)%nat.
Proof.
  revert s. induction n as [|n IH]; intros [|d s] H; simpl in *;
    try discriminate; [lia|]. apply IH in H. lia.
Qed.

Lemma take_S_endswith n s c e :
  Py.drop n s = String c e → Py.endswith c (Py.take (S n) s) = true.
Proof.
  revert s. induction n as [|n IH]; intros [|d s] H; simpl in H;
    try discriminate.
  - injection H as -> ->. simpl. destruct e; apply Ascii.eqb_refl.
  - pose proof (IH s H) as Ht.
    change (Py.take (S (S n)) (String d s)) with (String d (Py.take (S n) s)).
    destruct (Py.take (S n) s) eqn:E; [done|]. done.
Qed.

Lemma contains_take c k s :
  Py.contains c (Py.take k s) = true → Py.contains c s = true.
Proof.
  revert s. induction k as [|k IH]; intros [|d s]; try done.
  simpl. intros [->|H]%orb_true_iff; [done|].
  rewrite (IH s H). apply orb_true_r.
Qed.

Lemma get_drop i p c :
  String.get i p = Some c → ∃ rest, Py.drop i p = String c rest.
Proof.
  revert p. induction i as [|i IH]; intros [|d p] H; simpl in *;
    try discriminate.
  - injection H as ->. by eauto.
  - by apply IH.
Qed.

Lemma get_none i p : String.get i p = None → (String.length p ≤ i)%nat.
Proof.
  revert p. induction i as [|i IH]; intros [|d p] H; simpl in *;
    try discriminate; try lia.
  apply IH in H. lia.
Qed.

Lemma has_non_dot_witness p n :
  ∀ i, PosixPath.has_non_dot p i n = true → (i + n ≤ String.length p)%nat →
       ∃ c, Py.contains c (Py.take n (Py.drop i p)) = true ∧ c ≠ "."%char.
Proof.
  induction n as [|n IH]; intros i Hnd Hlen; [done|].
  simpl in Hnd. destruct (String.get i p) as [c|] eqn:Hget.
  2:{ apply get_none in Hget. lia. }
  destruct (get_drop _ _ _ Hget) as [rest Hrest]. rewrite Hrest.
  destruct (Ascii.eqb c ".") eqn:Hc; simpl in Hnd.
  - destruct (IH (S i) Hnd) as (c' & Hc' & Hne); [lia|].
    exists c'. split; [|done]. rewrite (drop_S _ _ _ _ Hrest) in Hc'.
    simpl. rewrite Hc'. apply orb_true_r.
  - exists c. split; [simpl; by rewrite Ascii.eqb_refl|].
    by apply Ascii.eqb_neq.
Qed.

(** An extension that [splitext] returns comes from a cut of the name. *)
Lemma splitext_split p :
  (PosixPath.splitext p).2 = EmptyString ∨
  ∃ dir stem e, ext_split p dir stem e ∧
                (PosixPath.splitext p).2 = String "." e.
Proof.
  destruct (splitext_spec p) as [_ [?|(e & Hext & He1 & He2)]]; [by left|].
  right. revert Hext. unfold PosixPath.splitext.
  destruct (_ && _) eqn:Hc; [|done]. simpl. intros Hext.
  apply andb_true_iff in Hc as [Hgt Hnd]. apply Z.gtb_lt in Hgt.
  assert (-1 ≤ Py.rfind "/" p) as Hsep.
  { unfold Py.rfind. destruct (rfind_from_cases "/" p 0 (-1)); lia. }
  set (ns := Z.to_nat (Py.rfind "/" p + 1)) in *.
  set (nd := Z.to_nat (Py.rfind "." p)) in *.
  assert (Z.to_nat (Py.rfind "." p - (Py.rfind "/" p + 1)) = (nd - ns)%nat)
    as Hn by lia.
  rewrite Hn in Hnd.
  assert (nd < String.length p)%nat as Hlen by by eapply drop_lt.
  exists (Py.take ns p), (Py.take (nd - ns) (Py.drop ns p)), e.
  split; [|done]. split; [|split; [|split; [|split; [|done]]]].
  - rewrite <-Hext. replace nd with (ns + (nd - ns))%nat at 2 by lia.
    by rewrite <-str_drop_drop, !take_drop.
  - destruct (decide (Py.rfind "/" p = -1)) as [Heq|Hne].
    + left. unfold ns. by rewrite Heq.
    + right. destruct (rfind_from_at "/" p 0 (-1)) as [e' He'];
        [lia|unfold Py.rfind in *; lia|].
      rewrite Z.sub_0_r in He'. apply take_S_endswith in He'.
      replace ns with (S (Z.to_nat (Py.rfind_from "/" p 0 (-1))));
        [done|unfold ns, Py.rfind; unfold Py.rfind in Hne, Hsep; lia].
  - destruct (Py.contains "/" (Py.take (nd - ns) (Py.drop ns p))) eqn:E;
      [|done].
    apply contains_take in E. rewrite <-E.
    apply (rfind_from_drop "/" p 0 (-1)); unfold ns, Py.rfind in *; lia.
  - apply has_non_dot_witness; [done|lia].
Qed.

(** ** The identifier *)

(** The bits of a version-4 identifier: the variant is [10], the version is
    [0100], and every other bit below 128 is the random bit. *)
Lemma uuid4_testbit rnd i :
  0 ≤ i < 128 →
  Z.testbit (Uuid.uuid4 rnd) i
  = if uuid4_fixed i then (i =? 63) || (i =? 78) else Z.testbit rnd i.
Proof.
  intros Hi. unfold Uuid.uuid4. cbv zeta.
  rewrite Z.lor_spec, Z.land_spec, Z.lor_spec, Z.land_spec.
  rewrite !Z.lnot_spec, !Z.shiftl_spec by lia.
  generalize (Z.testbit rnd i). intros b.
  assert (forallb (λ i,
            forallb (λ b,
              Bool.eqb
                ((b && negb (Z.testbit 49152 (i - 48)) || Z.testbit 32768 (i - 48))
                 && negb (Z.testbit 61440 (i - 64)) || Z.testbit 4 (i - 76))
                (if uuid4_fixed i then (i =? 63) || (i =? 78) else b))
              [true; false])
            (seqZ 0 128) = true) as Hall by (vm_compute; reflexivity).
  rewrite forallb_forall in Hall.
  specialize (Hall i). rewrite <-list_elem_of_In, elem_of_seqZ in Hall.
  specialize (Hall ltac:(lia)). rewrite forallb_forall in Hall.
  specialize (Hall b). apply Bool.eqb_prop, Hall.
  destruct b; [left|right; left]; reflexivity.
Qed.

Lemma nibble_bounds u k : 0 ≤ Z.land (Z.shiftr u k) 15 < 16.
Proof.
  change 15 with (Z.ones 4). rewrite Z.land_ones by lia.
  apply Z.mod_pos_bound. lia.
Qed.

Lemma nibble_testbit u k r :
  0 ≤ k → 0 ≤ r < 4 →
  Z.testbit (Z.land (Z.shiftr u k) 15) r = Z.testbit u (r + k).
Proof.
  intros Hk Hr. rewrite Z.land_spec, Z.shiftr_spec by lia.
  assert (Z.testbit 15 r = true) as ->; [|apply andb_true_r].
  assert (r = 0 ∨ r = 1 ∨ r = 2 ∨ r = 3) as [->|[->|[->| ->]]] by lia; done.
Qed.

Lemma hex_digit_cases n :
  0 ≤ n < 16 →
  n = 0 ∨ n = 1 ∨ n = 2 ∨ n = 3 ∨ n = 4 ∨ n = 5 ∨ n = 6 ∨ n = 7 ∨
  n = 8 ∨ n = 9 ∨ n = 10 ∨ n = 11 ∨ n = 12 ∨ n = 13 ∨ n = 14 ∨ n = 15.
Proof. lia. Qed.

Lemma hex_digit_inj a b :
  0 ≤ a < 16 → 0 ≤ b < 16 → Uuid.hex_digit a = Uuid.hex_digit b → a = b.
Proof.
  intros Ha Hb.
  assert (∀ n, 0 ≤ n < 16 →
               Py.code (Uuid.hex_digit n) = if n <? 10 then 48 + n else 87 + n)
    as Hcode.
  { intros n Hn.
    destruct (hex_digit_cases n Hn) as
      [->|[->|[->|[->|[->|[->|[->|[->|[->|[->|[->|[->|[->|[->|[->| ->]]]]]]]]]]]]]]];
      reflexivity. }
  intros Heq. apply (f_equal Py.code) in Heq.
  rewrite !Hcode in Heq by done.
  destruct (Z.ltb_spec a 10), (Z.ltb_spec b 10); lia.
Qed.

Lemma hex_digit_is_hex n : 0 ≤ n < 16 → is_hex (Uuid.hex_digit n) = true.
Proof.
  intros Hn.
  destruct (hex_digit_cases n Hn) as
    [->|[->|[->|[->|[->|[->|[->|[->|[->|[->|[->|[->|[->|[->|[->| ->]]]]]]]]]]]]]]];
    reflexivity.
Qed.

Lemma hex_length n u : String.length (Uuid.hex n u) = n.
Proof. induction n as [|n IH]; [done|]. simpl. by rewrite IH. Qed.

(** Equal digit texts have equal nibbles. *)
Lemma hex_inj n u v :
  Uuid.hex n u = Uuid.hex n v →
  ∀ j, (j < n)%nat →
       Z.land (Z.shiftr u (4 * Z.of_nat j)) 15
       = Z.land (Z.shiftr v (4 * Z.of_nat j)) 15.
Proof.
  induction n as [|n IH]; intros Heq j Hj; [lia|].
  change (String (Uuid.hex_digit (Z.land (Z.shiftr u (4 * Z.of_nat n)) 15))
            (Uuid.hex n u)
          = String (Uuid.hex_digit (Z.land (Z.shiftr v (4 * Z.of_nat n)) 15))
              (Uuid.hex n v)) in Heq.
  injection Heq as Hd Hrest.
  destruct (decide (j = n)) as [->|Hne].
  - apply hex_digit_inj; [apply nibble_bounds..|done].
  - apply IH; [done|lia].
Qed.

Lemma hex_testbit n u v i :
  Uuid.hex n u = Uuid.hex n v → 0 ≤ i < 4 * Z.of_nat n →
  Z.testbit u i = Z.testbit v i.
Proof.
  intros Heq Hi.
  pose proof (hex_inj n u v Heq (Z.to_nat (i / 4))) as Hn.
  assert (i = i mod 4 + 4 * Z.of_nat (Z.to_nat (i / 4))) as Hdiv.
  { rewrite Z2Nat.id by (apply Z.div_pos; lia).
    pose proof (Z.div_mod i 4). lia. }
  rewrite Hdiv.
  rewrite <-!nibble_testbit by (try apply Z.mod_pos_bound; lia).
  rewrite Hn; [done|].
  apply Nat2Z.inj_lt. rewrite Z2Nat.id by (apply Z.div_pos; lia).
  apply Z.div_lt_upper_bound; lia.
Qed.

(** The text of an identifier determines its 32 digits. *)
Lemma uuid_str_digits h1 h2 :
  String.length h1 = 32%nat → String.length h2 = 32%nat →
  String.append (Py.slice 0 8 h1)
    (String "-" (String.append (Py.slice 8 12 h1)
      (String "-" (String.append (Py.slice 12 16 h1)
        (String "-" (String.append (Py.slice 16 20 h1)
          (String "-" (Py.drop 20 h1))))))))
  = String.append (Py.slice 0 8 h2)
      (String "-" (String.append (Py.slice 8 12 h2)
        (String "-" (String.append (Py.slice 12 16 h2)
          (String "-" (String.append (Py.slice 16 20 h2)
            (String "-" (Py.drop 20 h2)))))))) →
  h1 = h2.
Proof.
  intros H1 H2.
  do 32 (destruct h1 as [|? h1]; [discriminate H1|]).
  destruct h1; [|discriminate H1].
  do 32 (destruct h2 as [|? h2]; [discriminate H2|]).
  destruct h2; [|discriminate H2].
  clear H1 H2. cbn. intros Heq. injection Heq as <-. by repeat f_equal.
Qed.

Lemma uuid_str_inj u v : Uuid.str u = Uuid.str v → Uuid.hex 32 u = Uuid.hex 32 v.
Proof.
  unfold Uuid.str. cbv zeta. apply uuid_str_digits; apply hex_length.
Qed.

Lemma append_inj_length a b x y :
  String.length a = String.length b →
  String.append a x = String.append b y → a = b ∧ x = y.
Proof.
  revert b. induction a as [|c a IH]; intros [|d b] Hlen Heq;
    try discriminate Hlen; [done|].
  change (String c (String.append a x) = String d (String.append b y)) in Heq.
  injection Heq as -> Heq. injection Hlen as Hlen.
  destruct (IH b Hlen Heq) as [-> ->]. done.
Qed.

Lemma all_hex_hex n u : all_hex (Uuid.hex n u) = true.
Proof.
  induction n as [|n IH]; [done|].
  change (is_hex (Uuid.hex_digit (Z.land (Z.shiftr u (4 * Z.of_nat n)) 15))
          && all_hex (Uuid.hex n u) = true).
  by rewrite hex_digit_is_hex, IH by apply nibble_bounds.
Qed.

Lemma uuid4_version rnd : Z.land (Z.shiftr (Uuid.uuid4 rnd) 76) 15 = 4.
Proof.
  assert (∀ x, 0 ≤ x < 16 → Z.testbit x 0 = false → Z.testbit x 1 = false →
               Z.testbit x 2 = true → Z.testbit x 3 = false → x = 4) as Hx.
  { intros x Hr.
    destruct (hex_digit_cases x Hr) as
      [->|[->|[->|[->|[->|[->|[->|[->|[->|[->|[->|[->|[->|[->|[->| ->]]]]]]]]]]]]]]];
      vm_compute; congruence. }
  apply Hx; [apply nibble_bounds|..];
    rewrite nibble_testbit, uuid4_testbit by lia; reflexivity.
Qed.

Lemma uuid4_variant rnd :
  Z.land (Z.shiftr (Uuid.uuid4 rnd) 60) 15 ∈ [8; 9; 10; 11].
Proof.
  assert (∀ x, 0 ≤ x < 16 → Z.testbit x 2 = false → Z.testbit x 3 = true →
               x ∈ [8; 9; 10; 11]) as Hx.
  { intros x Hr.
    destruct (hex_digit_cases x Hr) as
      [->|[->|[->|[->|[->|[->|[->|[->|[->|[->|[->|[->|[->|[->|[->| ->]]]]]]]]]]]]]]];
      vm_compute; try congruence; intros _ _;
      repeat first [by left | right]. }
  apply Hx; [apply nibble_bounds|..];
    rewrite nibble_testbit, uuid4_testbit by lia; reflexivity.
Qed.

(** The digits in their groups. *)
Lemma uuid4_text_digits h v :
  String.length h = 32%nat → all_hex h = true →
  String.get 12 h = Some "4"%char → String.get 16 h = Some v →
  v ∈ ["8"; "9"; "a"; "b"]%char →
  uuid4_text
    (String.append (Py.slice 0 8 h)
      (String "-" (String.append (Py.slice 8 12 h)
        (String "-" (String.append (Py.slice 12 16 h)
          (String "-" (String.append (Py.slice 16 20 h)
            (String "-" (Py.drop 20 h))))))))).
Proof.
  intros Hlen Hhex H4 Hv Hin.
  do 32 (destruct h as [|? h]; [discriminate Hlen|]).
  destruct h; [|discriminate Hlen]. clear Hlen.
  cbn in H4, Hv. injection H4 as ->. injection Hv as ->.
  cbn in Hhex. repeat (apply andb_true_iff in Hhex as [? Hhex]).
  eexists _, _, _, _, _, _. split; [cbn; reflexivity|].
  do 5 (split; [reflexivity|]).
  do 5 (split; [cbn; repeat (apply andb_true_iff; split); done|]).
  done.
Qed.

Lemma uuid4_text_str rnd : uuid4_text (Uuid.str (Uuid.uuid4 rnd)).
Proof.
  unfold Uuid.str. cbv zeta.
  apply (uuid4_text_digits _
           (Uuid.hex_digit (Z.land (Z.shiftr (Uuid.uuid4 rnd) 60) 15))).
  - apply hex_length.
  - apply all_hex_hex.
  - change (Some (Uuid.hex_digit (Z.land (Z.shiftr (Uuid.uuid4 rnd) 76) 15))
            = Some "4"%char).
    by rewrite uuid4_version.
  - reflexivity.
  - pose proof (uuid4_variant rnd) as Hv.
    repeat (apply elem_of_cons in Hv as [->|Hv]; [repeat first [by left | right]|]).
    by apply not_elem_of_nil in Hv.
Qed.

Lemma path_shape rnd filename :
  movie_image_file_path rnd filename
  = String.append "uploads/movie/"
      (String.append (Uuid.str (Uuid.uuid4 rnd))
         (PosixPath.splitext filename).2).
Proof.
  unfold movie_image_file_path, PosixPath.join.
  change (fold_left PosixPath.join_step ?l ?a)
    with (PosixPath.join_step (PosixPath.join_step a "movie")
            (String.append (Uuid.str (Uuid.uuid4 rnd))
               (PosixPath.splitext filename).2)).
  change (PosixPath.join_step "uploads" "movie") with "uploads/movie"%string.
  unfold PosixPath.join_step. by rewrite uuid_str_not_absolute.
Qed.

(** Equal paths come from the same random bits and the same extension. *)
Lemma path_inj rnd filename rnd' filename' :
  movie_image_file_path rnd' filename' = movie_image_file_path rnd filename →
  (∀ i, 0 ≤ i < 128 → uuid4_fixed i = false →
        Z.testbit rnd' i = Z.testbit rnd i) ∧
  (PosixPath.splitext filename').2 = (PosixPath.splitext filename).2.
Proof.
  rewrite !path_shape. intros Heq.
  apply append_inj_length in Heq as [_ Heq]; [|done].
  apply append_inj_length in Heq as [Hid Hext];
    [|by rewrite !uuid_str_length].
  split; [|done]. intros i Hi Hfree.
  pose proof (hex_testbit 32 _ _ i (uuid_str_inj _ _ Hid) ltac:(lia)) as Hbit.
  by rewrite !uuid4_testbit, Hfree in Hbit.
Qed.

(** C9: for every file name the generated path is the fixed prefix
    [uploads/movie/], then the identifier made from the random bytes, then
    the extension of the original name; no other shape is produced.  The
    identifier is the text of a version-4 identifier, 36 characters, and it
    carries the random bits: every bit of the 128 outside the six version and
    variant bits is the random bit, so two paths are equal only when the
    random bytes agree on all these 122 bits and the extensions are equal.
    The extension is the original one: when the name ends in a dot and
    characters without dot and slash, with a character other than the dot
    between the last slash and that dot, the extension is that dot and these
    characters, and otherwise it is empty.  Saving an upload draws the next
    random bytes for its path. *)
Theorem movie_image_file_path_shape `{!Framework} (rnd : Z)
    (filename : string) :
  let ext := (PosixPath.splitext filename).2 in
  let id := Uuid.str (Uuid.uuid4 rnd) in
  movie_image_file_path rnd filename
    = String.append "uploads/movie/" (String.append id ext) ∧
  String.length id = 36%nat ∧
  uuid4_text id ∧
  (∀ i, 0 ≤ i < 128 → uuid4_fixed i = false →
        Z.testbit (Uuid.uuid4 rnd) i = Z.testbit rnd i) ∧
  (∀ rnd' filename',
     movie_image_file_path rnd' filename' = movie_image_file_path rnd filename →
     (∀ i, 0 ≤ i < 128 → uuid4_fixed i = false →
           Z.testbit rnd' i = Z.testbit rnd i) ∧
     (PosixPath.splitext filename').2 = ext) ∧
  (∃ root, filename = String.append root ext) ∧
  (ext = EmptyString ∨
   ∃ e, ext = String "." e ∧
        Py.contains "." e = false ∧ Py.contains "/" e = false) ∧
  (∀ dir stem e, ext_split filename dir stem e → ext = String "." e) ∧
  (ext = EmptyString ∨
   ∃ dir stem e, ext_split filename dir stem e ∧ ext = String "." e) ∧
  (∀ m db, Movie.image m = Uploaded filename →
     ∃ m' db', Serializers.pre_save m db = (Ok m', db') ∧
       Movie.image m'
       = Stored (movie_image_file_path (urandom (urandom_calls db)) filename) ∧
       urandom_calls db' = S (urandom_calls db)).
Proof.
  intros ext id. destruct (splitext_spec filename) as [Hcut Hext].
  split; [apply path_shape|]. split; [apply uuid_str_length|].
  split; [apply uuid4_text_str|]. split.
  { intros i Hi Hfree. by rewrite uuid4_testbit, Hfree. }
  split; [intros rnd' filename'; apply path_inj|].
  split; [by eexists|]. split; [done|].
  split; [intros dir stem e; apply splitext_of_split|].
  split; [apply splitext_split|].
  intros m db Hm. unfold Serializers.pre_save. rewrite Hm.
  eexists _, _. split; [reflexivity|]. split; reflexivity.
Qed.

Example path_examples :
  movie_image_file_path 0 "poster.jpg"
  = "uploads/movie/00000000-0000-4000-8000-000000000000.jpg"%string ∧
  movie_image_file_path (2 ^ 128 - 1) "a/b.c/photo.final.PNG"
  = "uploads/movie/ffffffff-ffff-4fff-bfff-ffffffffffff.PNG"%string ∧
  movie_image_file_path 1 ".hidden"
  = "uploads/movie/00000000-0000-4000-8000-000000000001"%string ∧
  movie_image_file_path 1 "poster.jpg" ≠ movie_image_file_path 0 "poster.jpg".
Proof.
  do 3 (split; [vm_compute; reflexivity|]).
  intros H. vm_compute in H. discriminate H.
Qed.

(** ** Query sets *)

Lemma elem_of_all {T} (t : gmap Z T) (r : Z * T) :
  r ∈ Orm.all t ↔ t !! r.1 = Some r.2.
Proof. destruct r. apply elem_of_map_to_list. Qed.

Lemma elem_of_order_by_id_desc {T} (qs : list (Z * T)) r :
  r ∈ Orm.order_by_id_desc qs ↔ r ∈ qs.
Proof. unfold Orm.order_by_id_desc. by rewrite merge_sort_Permutation. Qed.

Lemma elem_of_filter_genres_id_in rel ids (qs : list (Z * Movie.t)) r :
  r ∈ Orm.filter_genres_id_in rel ids qs ↔
  r ∈ qs ∧ ∃ g, g ∈ ids ∧ (r.1, g) ∈ rel.
Proof.
  unfold Orm.filter_genres_id_in. rewrite list_elem_of_bind. split.
  - intros (x & Hr & Hx). apply list_elem_of_bind in Hr as (j & Hr & Hj).
    case_decide as Hd; [|by apply not_elem_of_nil in Hr].
    apply list_elem_of_singleton in Hr as ->. destruct Hd as [H1 H2].
    split; [done|]. exists j.2. split; [done|].
    apply elem_of_elements in Hj. rewrite <-H1. by destruct j.
  - intros (Hr & g & Hg & Hrel). exists r. split; [|done].
    apply list_elem_of_bind. exists (r.1, g). split.
    + rewrite decide_True by done. by apply list_elem_of_singleton.
    + by apply elem_of_elements.
Qed.

(** The rows of a table have distinct keys. *)
Lemma NoDup_keys {T} (t : gmap Z T) (l : list (Z * T)) :
  NoDup l → (∀ r, r ∈ l → t !! r.1 = Some r.2) → NoDup l.*1.
Proof.
  intros Hnd Hin. apply NoDup_fmap_2_strong; [|done].
  intros [k1 x1] [k2 x2] H1%Hin H2%Hin ?; simplify_eq/=. done.
Qed.

Section movie_queries.
Context `{!Framework}.

(** The three ways through [get_queryset]. *)
Lemma get_queryset_no_filter u req db :
  Py.dict_get "genres" (query_params req) = None ∨
  Py.dict_get "genres" (query_params req) = Some EmptyString →
  MovieViewSet.get_queryset u req db
  = (Ok (Orm.distinct (Orm.order_by_id_desc
           (Orm.filter_movie_user u (Orm.all (movies db))))), db).
Proof.
  intros Hg. unfold MovieViewSet.get_queryset, bind, get_db, ret.
  by destruct Hg as [-> | ->].
Qed.

Lemma get_queryset_filter u req db s ids :
  Py.dict_get "genres" (query_params req) = Some s → s ≠ EmptyString →
  mapM Py.int (Py.split "," s) = Some ids →
  MovieViewSet.get_queryset u req db
  = (Ok (Orm.distinct (Orm.order_by_id_desc
           (Orm.filter_movie_user u
              (Orm.filter_genres_id_in (movie_genres db) ids
                 (Orm.all (movies db)))))), db).
Proof.
  intros Hg Hs Hids.
  unfold MovieViewSet.get_queryset, MovieViewSet._params_to_ints,
    bind, get_db, ret.
  rewrite Hg. destruct s as [|c s]; [done|]. by rewrite Hids.
Qed.

Lemma get_queryset_value_error u req db s :
  Py.dict_get "genres" (query_params req) = Some s → s ≠ EmptyString →
  mapM Py.int (Py.split "," s) = None →
  MovieViewSet.get_queryset u req db = (Raise Py.ValueError, db).
Proof.
  intros Hg Hs Hids.
  unfold MovieViewSet.get_queryset, MovieViewSet._params_to_ints,
    bind, get_db, ret, raise.
  rewrite Hg. destruct s as [|c s]; [done|]. by rewrite Hids.
Qed.

(** Whatever the filter, a query set that is returned holds rows of the
    movie table owned by the requesting user, each once, and the database is
    as before. *)
Lemma get_queryset_sound u req db l db' :
  MovieViewSet.get_queryset u req db = (Ok l, db') →
  db' = db ∧ NoDup l ∧
  ∀ r, r ∈ l → movies db !! r.1 = Some r.2 ∧ Movie.user r.2 = u.
Proof.
  intros Hq.
  assert (∃ qs, (∀ r, r ∈ qs → r ∈ Orm.all (movies db)) ∧ db' = db ∧
    l = Orm.distinct (Orm.order_by_id_desc (Orm.filter_movie_user u qs)))
    as (qs & Hqs & -> & ->).
  { destruct (Py.dict_get "genres" (query_params req)) as [s|] eqn:Hg.
    - destruct (decide (s = EmptyString)) as [->|Hs].
      + rewrite get_queryset_no_filter in Hq by auto. simplify_eq. eauto.
      + destruct (mapM Py.int (Py.split "," s)) as [ids|] eqn:Hids.
        * rewrite (get_queryset_filter _ _ _ s ids) in Hq by done.
          simplify_eq. eexists; split; [|done].
          by intros r [? _]%elem_of_filter_genres_id_in.
        * by rewrite (get_queryset_value_error _ _ _ s) in Hq.
    - rewrite get_queryset_no_filter in Hq by auto. simplify_eq. eauto. }
  split; [done|]. split; [apply NoDup_remove_dups|].
  intros r Hr. unfold Orm.distinct, Orm.filter_movie_user in Hr.
  rewrite elem_of_remove_dups, elem_of_order_by_id_desc, list_elem_of_filter in Hr.
  destruct Hr as [Hu Hr].
  split; [by apply elem_of_all, Hqs|done].
Qed.

End movie_queries.

(** ** Listing movies *)

(** C1: whatever the database and the query parameters, every movie in the
    listing returned to user [u] is a row of the movie table whose owner is
    [u]; a movie of another owner is not in it, with or without a genre
    filter. *)
Theorem movie_list_only_own `{!Framework} (u : Z) (req : request) (db db' : DB)
    (resp : response) :
  MovieViewSet.list u req db = (Ok resp, db') →
  ∃ l, resp = Response 200 (Movies l) ∧ db' = db ∧
       (∀ r, r ∈ l → Movie.user r.2 = u ∧ movies db !! r.1 = Some r.2) ∧
       (∀ k m, movies db !! k = Some m → Movie.user m ≠ u → (k, m) ∉ l).
Proof.
  unfold MovieViewSet.list, bind, ret. intros Hl.
  destruct (MovieViewSet.get_queryset u req db) as [[l|e] db1] eqn:Hq;
    [|done].
  apply get_queryset_sound in Hq as (-> & _ & Hown). simplify_eq.
  exists l. split; [done|]. split; [done|]. split.
  - intros r Hr. by destruct (Hown r Hr).
  - intros k m _ Hne Hin. by destruct (Hown _ Hin).
Qed.

(** C6: with a genre filter that parses to the identifiers [ids], the
    listing holds exactly the movies of the user that are related to at
    least one genre whose identifier is among [ids]; no entry and no key
    occurs twice. *)
Theorem movie_list_genre_filter `{!Framework} (u : Z) (req : request) (db : DB)
    (s : string) (ids : list Z) :
  Py.dict_get "genres" (query_params req) = Some s →
  mapM Py.int (Py.split "," s) = Some ids →
  ∃ l, MovieViewSet.list u req db = (Ok (Response 200 (Movies l)), db) ∧
       NoDup l ∧ NoDup l.*1 ∧
       ∀ k m, (k, m) ∈ l ↔
              movies db !! k = Some m ∧ Movie.user m = u ∧
              ∃ g, g ∈ ids ∧ (k, g) ∈ movie_genres db.
Proof.
  intros Hg Hids.
  assert (s ≠ EmptyString) as Hs by (by intros ->).
  pose proof (get_queryset_filter u req db s ids Hg Hs Hids) as Hq.
  eexists. split; [|split; [|split]].
  - unfold MovieViewSet.list, bind, ret. by rewrite Hq.
  - apply NoDup_remove_dups.
  - apply get_queryset_sound in Hq as (_ & Hnd & Hown).
    apply (NoDup_keys (movies db)); [done|]. intros r Hr. by apply Hown.
  - intros k m. unfold Orm.distinct, Orm.filter_movie_user.
    rewrite elem_of_remove_dups, elem_of_order_by_id_desc, list_elem_of_filter,
      elem_of_filter_genres_id_in, elem_of_all. simpl. tauto.
Qed.

(** C10: a [genres] parameter that is present but empty is treated as no
    filter: the request succeeds with the same listing as a request without
    the parameter, which is all movies of the user. *)
Theorem movie_list_empty_genres_param `{!Framework} (u : Z) (req : request)
    (db : DB) :
  Py.dict_get "genres" (query_params req) = Some EmptyString →
  ∃ l, MovieViewSet.list u req db = (Ok (Response 200 (Movies l)), db) ∧
       (∀ req', Py.dict_get "genres" (query_params req') = None →
                MovieViewSet.list u req' db
                = (Ok (Response 200 (Movies l)), db)) ∧
       NoDup l ∧
       ∀ k m, (k, m) ∈ l ↔ movies db !! k = Some m ∧ Movie.user m = u.
Proof.
  intros Hg. eexists. split; [|split; [|split]].
  - unfold MovieViewSet.list, bind, ret.
    rewrite get_queryset_no_filter by auto. done.
  - intros req' Hg'. unfold MovieViewSet.list, bind, ret.
    rewrite get_queryset_no_filter by auto. done.
  - apply NoDup_remove_dups.
  - intros k m. unfold Orm.distinct, Orm.filter_movie_user.
    rewrite elem_of_remove_dups, elem_of_order_by_id_desc, list_elem_of_filter,
      elem_of_all. simpl. tauto.
Qed.

(** C7, as the code has it: when the [genres] parameter is not empty and one
    of its comma-separated parts is no integer, the listing raises
    [ValueError]; no handler turns it into a validation response, so the
    request ends as a server error (status 500) and the database is as
    before.  The parameter is neither ignored nor answered with status 400. *)
Theorem movie_list_bad_genre_token `{!Framework} (u : Z) (req : request)
    (db : DB) (s tok : string) :
  Py.dict_get "genres" (query_params req) = Some s → s ≠ EmptyString →
  tok ∈ Py.split "," s → Py.int tok = None →
  MovieViewSet.list u req db = (Raise Py.ValueError, db) ∧
  run_view (MovieViewSet.list u req) db = (Response 500 NoBody, db) ∧
  (path req = "movies/"%string → method req = GET → user req = Some u →
   Urls.handle req db = (Response 500 NoBody, db)).
Proof.
  intros Hg Hs Htok Hint.
  assert (mapM Py.int (Py.split "," s) = None) as Hids.
  { apply mapM_None, Exists_exists. eauto. }
  assert (MovieViewSet.list u req db = (Raise Py.ValueError, db)) as Hl.
  { unfold MovieViewSet.list, bind.
    by rewrite (get_queryset_value_error u req db s). }
  split; [done|].
  assert (run_view (MovieViewSet.list u req) db = (Response 500 NoBody, db))
    as Hrun by (unfold run_view; by rewrite Hl).
  split; [done|]. intros Hp Hm Hu.
  unfold Urls.handle. rewrite Hp, Hu, Hm. exact Hrun.
Qed.

(** ** Genres: routes and listing *)

#[global] Instance name_desc_total : Total Orm.name_desc.
Proof.
  intros x y. unfold Orm.name_desc.
  destruct (total String.le (Genre.name x.2) (Genre.name y.2)); auto.
Qed.

#[global] Instance name_desc_trans : Transitive Orm.name_desc.
Proof. intros x y z Hxy Hyz. unfold Orm.name_desc in *. by etrans. Qed.

Lemma split_app sep s rest :
  Py.contains sep s = false →
  Py.split sep (String.append s (String sep rest)) = s :: Py.split sep rest.
Proof.
  induction s as [|c s IH]; intros Hc.
  - change (Py.split sep (String sep rest) = EmptyString :: Py.split sep rest).
    simpl. by rewrite Ascii.eqb_refl.
  - simpl in Hc. apply orb_false_iff in Hc as [Hc1 Hc2].
    change (Py.split sep (String c (String.append s (String sep rest)))
            = String c s :: Py.split sep rest).
    simpl. rewrite Hc1, IH by done. done.
Qed.

Lemma resolve_detail prefix v pk :
  Py.contains "/" prefix = false → Py.contains "/" pk = false →
  Urls.lookup_ok pk = true →
  Urls.match_route (prefix, v)
    (Py.split "/" (String.append prefix (String "/" (String.append pk "/"))))
  = Some (v, Urls.DetailRoute pk).
Proof.
  intros Hp Hpk Hok. rewrite split_app by done.
  change (String.append pk "/") with (String.append pk (String "/" "")).
  rewrite split_app by done. simpl.
  by rewrite String.eqb_refl, Hok.
Qed.

(** C8, as the code has it: the router registers the genre views under
    [tags]: the list is at GET [tags/], update and delete are at PUT, PATCH
    and DELETE [tags/<id>/].  The list holds all and only the genres of the
    requesting user, each once, in descending order of name. *)
Theorem genres_exposed_at_tags `{!Framework} (u : Z) (db : DB)
    (qp : list (string * string)) (d : list (string * value)) :
  Urls.resolve "tags/" = Some (Urls.GenreViews, Urls.ListRoute) ∧
  Urls.action_of Urls.GenreViews Urls.ListRoute GET = Some list_ ∧
  (∀ pk, Py.contains "/" pk = false → Urls.lookup_ok pk = true →
     Urls.resolve (String.append "tags/" (String.append pk "/"))
       = Some (Urls.GenreViews, Urls.DetailRoute pk) ∧
     Urls.action_of Urls.GenreViews (Urls.DetailRoute pk) PUT = Some update_ ∧
     Urls.action_of Urls.GenreViews (Urls.DetailRoute pk) PATCH
       = Some partial_update ∧
     Urls.action_of Urls.GenreViews (Urls.DetailRoute pk) DELETE
       = Some destroy) ∧
  ∃ l, Urls.handle (Request GET "tags/" (Some u) qp d) db
         = (Response 200 (Genres l), db) ∧
       NoDup l ∧
       (∀ k g, (k, g) ∈ l ↔ genres db !! k = Some g ∧ Genre.user g = u) ∧
       StronglySorted Orm.name_desc l.
Proof.
  split; [done|]. split; [done|]. split.
  - intros pk Hpk Hok. split; [|done].
    unfold Urls.resolve, Urls.router.
    change (String.append "tags/" (String.append pk "/"))
      with (String.append "tags" (String "/" (String.append pk "/"))).
    unfold Urls.resolve_in.
    rewrite (resolve_detail "tags" Urls.GenreViews pk) by done.
    rewrite split_app by done.
    change (String.append pk "/") with (String.append pk (String "/" "")).
    rewrite split_app by done. done.
  - eexists. split; [reflexivity|]. split; [|split].
    + unfold Orm.order_by_name_desc. rewrite merge_sort_Permutation.
      apply NoDup_filter, NoDup_map_to_list.
    + intros k g. unfold Orm.order_by_name_desc, Orm.filter_genre_user.
      rewrite merge_sort_Permutation, list_elem_of_filter, elem_of_all.
      simpl. tauto.
    + apply StronglySorted_merge_sort; apply _.
Qed.

(** ** Looking up one instance *)

Lemma filter_key_unique {T} (k : Z) (qs : list (Z * T)) :
  NoDup qs.*1 →
  filter (λ r, r.1 = k) qs = [] ∨ ∃ x, filter (λ r, r.1 = k) qs = [(k, x)].
Proof.
  induction qs as [|[k' x] qs IH]; intros Hnd; [by left|].
  apply NoDup_cons in Hnd as [Hk' Hnd]. rewrite filter_cons. simpl.
  destruct (decide (k' = k)) as [->|Hne]; [|by apply IH].
  right. exists x. f_equal.
  destruct (filter (λ r, r.1 = k) qs) as [|[k2 x2] t] eqn:Hf; [done|].
  assert ((k2, x2) ∈ filter (λ r, r.1 = k) qs) as Hin by (rewrite Hf; left).
  apply list_elem_of_filter in Hin as [Hk Hin]. simpl in Hk. subst k2.
  destruct Hk'. apply list_elem_of_fmap. by exists (k, x2).
Qed.

(** The lookup on a query set with distinct keys: the row with the key, or the
    not-found exception; the database is not touched. *)
Lemma orm_get_found {T} (k : Z) (x : T) (qs : list (Z * T)) db :
  NoDup qs.*1 → (k, x) ∈ qs → Orm.get_object_or_404 k qs db = (Ok (k, x), db).
Proof.
  intros Hnd Hin. unfold Orm.get_object_or_404.
  assert ((k, x) ∈ filter (λ r, r.1 = k) qs) as Hf
    by (by apply list_elem_of_filter).
  destruct (filter_key_unique k qs Hnd) as [Hnil|[y Hy]].
  - rewrite Hnil in Hf. by apply not_elem_of_nil in Hf.
  - rewrite Hy in Hf |- *. by apply list_elem_of_singleton in Hf as <-.
Qed.

Lemma orm_get_missing {T} (k : Z) (qs : list (Z * T)) db :
  (∀ x, (k, x) ∉ qs) → Orm.get_object_or_404 k qs db = (Raise Py.Http404, db).
Proof.
  intros Hno. unfold Orm.get_object_or_404.
  destruct (filter (λ r, r.1 = k) qs) as [|[k2 x2] t] eqn:Hf; [done|].
  assert ((k2, x2) ∈ filter (λ r, r.1 = k) qs) as Hin by (rewrite Hf; left).
  apply list_elem_of_filter in Hin as [Hk Hin]. simpl in Hk. subst k2.
  by destruct (Hno x2).
Qed.

Lemma orm_get_inv {T} (k : Z) (qs : list (Z * T)) db r db' :
  Orm.get_object_or_404 k qs db = (Ok r, db') → db' = db ∧ r ∈ qs ∧ r.1 = k.
Proof.
  unfold Orm.get_object_or_404, ret, raise.
  destruct (filter (λ r, r.1 = k) qs) as [|y [|z t]] eqn:Hf; intros Hg;
    simplify_eq.
  assert (r ∈ filter (λ r, r.1 = k) qs) as Hin by (rewrite Hf; left).
  apply list_elem_of_filter in Hin as [Hk Hin]. done.
Qed.

Section movie_detail.
Context `{!Framework}.

Lemma genres_filter_ok_queryset u req db :
  genres_filter_ok req →
  ∃ l, MovieViewSet.get_queryset u req db = (Ok l, db).
Proof.
  unfold genres_filter_ok. intros Hok.
  destruct (Py.dict_get "genres" (query_params req)) as [[|c s]|] eqn:Hg.
  - rewrite get_queryset_no_filter by auto. eauto.
  - destruct Hok as [ids Hids].
    rewrite (get_queryset_filter u req db _ ids) by done. eauto.
  - rewrite get_queryset_no_filter by auto. eauto.
Qed.

Lemma genres_filter_bad_queryset u req db :
  ¬ genres_filter_ok req →
  MovieViewSet.get_queryset u req db = (Raise Py.ValueError, db).
Proof.
  unfold genres_filter_ok. intros Hbad.
  destruct (Py.dict_get "genres" (query_params req)) as [[|c s]|] eqn:Hg;
    [by destruct Hbad| |by destruct Hbad].
  apply (get_queryset_value_error u req db (String c s)); [done..|].
  destruct (mapM _ _) eqn:Hm; [|done]. destruct Hbad. by eexists.
Qed.

Lemma get_object_inv u req pk db r db' :
  MovieViewSet.get_object u req pk db = (Ok r, db') →
  db' = db ∧ Py.int pk = Some r.1 ∧ movies db !! r.1 = Some r.2 ∧
  Movie.user r.2 = u.
Proof.
  unfold MovieViewSet.get_object, bind, raise. intros Hg.
  destruct (MovieViewSet.get_queryset u req db) as [[l|e] db1] eqn:Hq;
    [|done].
  apply get_queryset_sound in Hq as (-> & _ & Hown).
  destruct (Py.int pk) as [k|]; [|done].
  apply orm_get_inv in Hg as (-> & Hin & <-).
  by destruct (Hown r Hin).
Qed.

(** The lookup of a movie that is absent or owned by someone else. *)
Lemma get_object_not_own u req pk db :
  (∀ k m, Py.int pk = Some k → movies db !! k = Some m → Movie.user m ≠ u) →
  MovieViewSet.get_object u req pk db
  = (Raise (if decide (genres_filter_ok req)
            then Py.Http404 else Py.ValueError), db).
Proof.
  intros Hno. unfold MovieViewSet.get_object, bind, raise.
  case_decide as Hok.
  - destruct (genres_filter_ok_queryset u req db Hok) as [l Hq]. rewrite Hq.
    apply get_queryset_sound in Hq as (_ & _ & Hown).
    destruct (Py.int pk) as [k|] eqn:Hpk; [|done].
    apply orm_get_missing. intros m Hin. destruct (Hown _ Hin) as [Hm Hu].
    by apply (Hno k m).
  - by rewrite genres_filter_bad_queryset.
Qed.

(** Looking up never writes. *)
Lemma get_queryset_state u req db :
  (MovieViewSet.get_queryset u req db).2 = db.
Proof.
  destruct (decide (genres_filter_ok req)) as [Hok|Hbad].
  - destruct (genres_filter_ok_queryset u req db Hok) as [l ->]. done.
  - by rewrite genres_filter_bad_queryset.
Qed.

Lemma orm_get_state {T} k (qs : list (Z * T)) db :
  (Orm.get_object_or_404 k qs db).2 = db.
Proof. unfold Orm.get_object_or_404. by destruct (filter _ qs) as [|? [|? ?]]. Qed.

Lemma get_object_state u req pk db :
  (MovieViewSet.get_object u req pk db).2 = db.
Proof.
  unfold MovieViewSet.get_object, bind.
  pose proof (get_queryset_state u req db) as Hq.
  destruct (MovieViewSet.get_queryset u req db) as [[l|e] db1];
    simpl in Hq; subst db1; [|done].
  destruct (Py.int pk); [apply orm_get_state|done].
Qed.

End movie_detail.

(** ** Detail, update and delete of a movie that is not the user's *)

(** C3, as the code has it: when no movie with the key of the URL is owned
    by the user (there is none, or it is someone else's), retrieve, update,
    partial update and delete all give the same answer and leave the database
    as it is: status 404, or status 500 when the [genres] parameter of the
    request is not empty and does not parse as integers.  The answer is the
    same whether the movie is absent or someone else's, and it is never 403. *)
Theorem movie_detail_not_found `{!Framework} (u : Z) (req : request)
    (pk : string) (db : DB) :
  (∀ k m, Py.int pk = Some k → movies db !! k = Some m → Movie.user m ≠ u) →
  run_view (MovieViewSet.retrieve u req pk) db = (not_own_answer req, db) ∧
  run_view (MovieViewSet.update false u req pk) db = (not_own_answer req, db) ∧
  run_view (MovieViewSet.update true u req pk) db = (not_own_answer req, db) ∧
  run_view (MovieViewSet.destroy u req pk) db = (not_own_answer req, db) ∧
  (genres_filter_ok req → not_own_answer req = Response 404 Errors) ∧
  status (not_own_answer req) ≠ 403.
Proof.
  intros Hno.
  pose proof (get_object_not_own u req pk db Hno) as Hg.
  unfold run_view, MovieViewSet.retrieve, MovieViewSet.update,
    MovieViewSet.destroy, bind, not_own_answer.
  rewrite Hg. by case_decide.
Qed.

(** X15: the genre views look up instances the same way: update, partial
    update and delete of a genre that does not exist or is owned by another
    user are answered with 404, whatever the payload, and write nothing. *)
Lemma genre_detail_not_found `{!Framework} (u : Z) (req : request)
    (pk : string) (db : DB) :
  (∀ k g, Py.int pk = Some k → genres db !! k = Some g → Genre.user g ≠ u) →
  run_view (GenreViewSet.update false u req pk) db = (Response 404 Errors, db) ∧
  run_view (GenreViewSet.update true u req pk) db = (Response 404 Errors, db) ∧
  run_view (GenreViewSet.destroy u pk) db = (Response 404 Errors, db).
Proof.
  intros Hno.
  assert (GenreViewSet.get_object u pk db = (Raise Py.Http404, db)) as Hg.
  { unfold GenreViewSet.get_object, GenreViewSet.get_queryset, bind, get_db,
      ret, raise.
    destruct (Py.int pk) as [k|] eqn:Hpk; [|done].
    apply orm_get_missing. intros g.
    unfold Orm.order_by_name_desc, Orm.filter_genre_user.
    rewrite merge_sort_Permutation, list_elem_of_filter, elem_of_all.
    intros [Hu Hin]. by apply (Hno k g). }
  unfold run_view, GenreViewSet.update, GenreViewSet.destroy, bind.
  by rewrite Hg.
Qed.

(** ** The owner of a movie *)

Lemma bind_run {A B} (m : M A) (f : A → M B) db :
  bind m f db = match m db with
                | (Ok a, db') => f a db'
                | (Raise e, db') => (Raise e, db')
                end.
Proof. done. Qed.

Section owner.
Context `{!Framework}.

Lemma run_validation_key partial f data kv :
  Serializers.run_validation partial f data = Some (Some kv) →
  kv.1 = field_name f ∧ read_only f = false.
Proof.
  unfold Serializers.run_validation.
  destruct (read_only f); [done|]. intros Hv. split; [|done].
  destruct (Py.dict_get (field_name f) data) as [v|].
  - destruct v; try (destruct (Serializers.field_to_internal _ _ _);
      by simplify_eq/=).
    destruct (allow_null f); [|done].
    destruct (Serializers.null_value _); by simplify_eq/=.
  - destruct partial; [done|]. by destruct (required f).
Qed.

(** Validated data has keys of declared writable fields only. *)
Lemma to_internal_value_keys partial fields data vd kv :
  Serializers.to_internal_value partial fields data = Some vd → kv ∈ vd →
  ∃ f, f ∈ fields ∧ read_only f = false ∧ kv.1 = field_name f.
Proof.
  revert vd. induction fields as [|f fs IH]; intros vd Hv Hin; simpl in Hv.
  { simplify_eq. by apply not_elem_of_nil in Hin. }
  destruct (Serializers.run_validation partial f data) as [r|] eqn:Hr;
    [|done].
  destruct (Serializers.to_internal_value partial fs data) as [rest|];
    [|done].
  simplify_eq. apply elem_of_app in Hin as [Hin|Hin].
  - destruct r as [kv'|]; [|by apply not_elem_of_nil in Hin].
    apply list_elem_of_singleton in Hin as ->.
    apply run_validation_key in Hr as [? ?]. exists f. split; [left|done].
  - destruct (IH rest eq_refl Hin) as (f' & ? & ? & ?).
    exists f'. split; [by right|done].
Qed.

(** [user] is not a field of the movie serializers. *)
Lemma movie_validated_no_user partial data vd kv :
  Serializers.to_internal_value partial
    Serializers.MovieDetailSerializer_fields data = Some vd →
  kv ∈ vd → kv.1 ≠ "user"%string.
Proof.
  intros Hv Hin.
  destruct (to_internal_value_keys _ _ _ _ _ Hv Hin) as (f & Hf & _ & ->).
  unfold Serializers.MovieDetailSerializer_fields,
    Serializers.MovieSerializer_fields in Hf. simpl in Hf.
  repeat (apply elem_of_cons in Hf as [->|Hf]; [done|]).
  by apply not_elem_of_nil in Hf.
Qed.

Lemma setattr_user attr v m :
  attr ≠ "user"%string →
  Movie.user (Serializers.setattr attr v m) = Movie.user m.
Proof.
  intros Hne. unfold Serializers.setattr.
  destruct v; repeat case_match; try reflexivity.
  match goal with H : String.eqb attr _ = true |- _ =>
    by apply String.eqb_eq in H end.
Qed.

Lemma setattrs_user vd m :
  (∀ kv, kv ∈ vd → kv.1 ≠ "user"%string) →
  Movie.user (Serializers.setattrs vd m) = Movie.user m.
Proof.
  unfold Serializers.setattrs. revert m.
  induction vd as [|kv vd IH]; intros m Hk; [done|]. simpl.
  rewrite IH by (intros; apply Hk; by right).
  apply setattr_user, Hk. left.
Qed.

(** When every [user] entry carries [u], the row ends up owned by [u]. *)
Lemma setattrs_user_to u kw m :
  (∀ kv, kv ∈ kw → kv.1 = "user"%string → kv.2 = FUser u) →
  Movie.user m = u → Movie.user (Serializers.setattrs kw m) = u.
Proof.
  unfold Serializers.setattrs. revert m.
  induction kw as [|kv kw IH]; intros m Hk Hm; [done|]. simpl.
  apply IH; [intros; apply Hk; [by right|done]|].
  destruct (decide (kv.1 = "user"%string)) as [Heq|Hne].
  - rewrite (Hk kv) by (done || left). by rewrite Heq.
  - by rewrite setattr_user.
Qed.

Lemma elem_of_dict_del {V} k (d : list (string * V)) kv :
  kv ∈ Py.dict_del k d ↔ kv.1 ≠ k ∧ kv ∈ d.
Proof. unfold Py.dict_del. by rewrite list_elem_of_filter. Qed.

Lemma dict_get_snoc {V} k (v : V) d : Py.dict_get k (d ++ [(k, v)]) = Some v.
Proof.
  induction d as [|[k' v'] d IH]; simpl.
  - by rewrite String.eqb_refl.
  - by rewrite IH.
Qed.

(** Saving stores an upload and changes nothing else. *)
Lemma pre_save_spec m db :
  ∃ m' n, Serializers.pre_save m db
          = (Ok m', MkDB (movies db) (genres db) (movie_genres db)
                         (movie_seq db) (genre_seq db) n) ∧
          Movie.user m' = Movie.user m.
Proof.
  destruct db. unfold Serializers.pre_save. simpl.
  destruct (Movie.image m); eexists _, _; (split; [reflexivity|done]).
Qed.

(** Find-or-create-and-attach and clearing leave the movie table alone. *)
Lemma get_or_create_genres_movies u ds k db :
  movies (Serializers._get_or_create_genres u ds k db).2 = movies db.
Proof.
  unfold Serializers._get_or_create_genres. revert db.
  induction ds as [|d ds IH]; intros db; [done|]. simpl. unfold_orm.
  unfold Orm.genre_get_or_create, Orm.genre_create, Orm.genres_add.
  destruct (filter _ _) as [|r [|r' t]]; simpl; [|..|done];
    by rewrite IH.
Qed.

Lemma serializers_update_movies u inst vd db k m :
  movies db !! inst.1 = Some inst.2 →
  (∀ kv, kv ∈ vd → kv.1 ≠ "user"%string) →
  movies db !! k = Some m →
  ∃ m', movies (Serializers.update u inst vd db).2 !! k = Some m' ∧
        Movie.user m' = Movie.user m.
Proof.
  intros Hinst Hvd Hk. unfold Serializers.update, Py.dict_pop.
  set (vd' := Py.dict_del "genres" vd).
  set (step := match Py.dict_get "genres" vd with
               | Some (FGenres ds) =>
                   (Orm.genres_clear inst.1 ;;;
                    Serializers._get_or_create_genres u ds inst.1)%orm
               | _ => ret tt
               end).
  assert (movies (step db).2 = movies db) as Hstep.
  { unfold step. destruct (Py.dict_get "genres" vd) as [[]|]; try done.
    unfold bind, Orm.genres_clear. by rewrite get_or_create_genres_movies. }
  unfold bind at 1. destruct (step db) as [[[]|e] db1]; simpl in Hstep;
    [|exists m; simpl; by rewrite Hstep].
  unfold Serializers.movie_save. unfold_orm.
  destruct (pre_save_spec (Serializers.setattrs vd' inst.2) db1)
    as (m' & n & -> & Hu). simpl.
  destruct (decide (k = inst.1)) as [->|Hne].
  - exists m'. rewrite lookup_insert_eq. split; [done|].
    rewrite Hu, setattrs_user; [congruence|].
    intros kv [_ Hin]%elem_of_dict_del. by apply Hvd.
  - exists m. by rewrite lookup_insert_ne, Hstep.
Qed.

Lemma serializers_create_movies u vd db :
  let kw := Serializers.save_kwargs vd [("user"%string, FUser u)] in
  (movies (Serializers.create u kw db).2 = movies db ∧
   ∃ e, (Serializers.create u kw db).1 = Raise e) ∨
  (∃ k m, movies (Serializers.create u kw db).2 = <[k := m]> (movies db) ∧
          Movie.user m = u ∧
          ∀ r, (Serializers.create u kw db).1 = Ok r → r = (k, m)).
Proof.
  intros kw. unfold Serializers.create, Py.dict_pop.
  set (kw' := Py.dict_del "genres" kw).
  set (ds := match Py.dict_get "genres" kw with
             | Some (FGenres ds) => ds
             | _ => []
             end).
  assert (kw' = Py.dict_del "genres" (Py.dict_del "user" vd)
                ++ [("user"%string, FUser u)]) as Hkw.
  { unfold kw', kw, Serializers.save_kwargs, Py.dict_set. simpl.
    unfold Py.dict_del at 1. by rewrite filter_app. }
  assert (Py.dict_get "user" kw' = Some (FUser u)) as Hget
    by (rewrite Hkw; apply dict_get_snoc).
  assert (∀ kv, kv ∈ kw' → kv.1 = "user"%string → kv.2 = FUser u) as Hall.
  { rewrite Hkw. intros kv [Hin|Hin]%elem_of_app Hkey.
    - apply elem_of_dict_del in Hin as [_ Hin].
      by apply elem_of_dict_del in Hin as [? _].
    - by apply list_elem_of_singleton in Hin as ->. }
  clearbody kw' ds. clear Hkw.
  unfold bind at 1. unfold Serializers.movie_create. rewrite Hget.
  destruct (Py.dict_get "running_time_minutes" kw') as [[]|];
    try (left; split; [done|by eexists]).
  unfold_orm.
  match goal with |- context [Serializers.pre_save ?x db] =>
    destruct (pre_save_spec x db) as (m' & c & -> & Hu) end.
  simpl. right. exists (movie_seq db), m'.
  rewrite (setattrs_user_to u) in Hu by done.
  match goal with |- context [Serializers._get_or_create_genres u ds ?k ?d] =>
    pose proof (get_or_create_genres_movies u ds k d) as Hg;
    destruct (Serializers._get_or_create_genres u ds k d) as [[[]|e] db2]
  end; simpl in *; (split; [done|]); split; try done.
  by intros r [= <-].
Qed.

End owner.

(** C2: an update request, full or partial and whatever its payload (a
    [user] entry included), leaves every movie of the table in place with the
    owner it had; a create request only adds a movie owned by the requesting
    user, whatever [user] the payload names, and the movie it answers with
    is that row. *)
Theorem movie_owner_fixed `{!Framework} (u : Z) (req : request) (pk : string)
    (partial : bool) (db : DB) :
  (∀ k m, movies db !! k = Some m →
     ∃ m', movies (MovieViewSet.update partial u req pk db).2 !! k = Some m' ∧
           Movie.user m' = Movie.user m) ∧
  (∀ k m', movies (MovieViewSet.create u req db).2 !! k = Some m' →
     movies db !! k = Some m' ∨ Movie.user m' = u) ∧
  (∀ r db', MovieViewSet.create u req db = (Ok r, db') →
     ∃ k m, r = Response 201 (MovieObj (k, m)) ∧ Movie.user m = u ∧
            movies db' !! k = Some m).
Proof.
  split; [|split].
  - intros k m Hk. unfold MovieViewSet.update. unfold bind at 1.
    pose proof (get_object_state u req pk db) as Hst.
    destruct (MovieViewSet.get_object u req pk db) as [[inst|e] db1] eqn:Hg;
      simpl in Hst; subst db1; [|by exists m].
    apply get_object_inv in Hg as (_ & _ & Hinst & _).
    unfold bind at 1, is_valid.
    destruct (Serializers.to_internal_value _ _ _) as [vd|] eqn:Hv;
      [|by exists m].
    unfold ret at 1. unfold bind at 1.
    destruct (serializers_update_movies u inst vd db k m Hinst) as (m' & ? & ?);
      [intros kv Hkv; by apply (movie_validated_no_user _ _ _ _ Hv Hkv)|done|].
    exists m'. by destruct (Serializers.update u inst vd db) as [[?|?] ?].
  - intros k m' Hk. unfold MovieViewSet.create, is_valid in Hk.
    unfold bind at 1 in Hk.
    destruct (Serializers.to_internal_value _ _ _) as [vd|]; [|by left].
    unfold ret at 1, bind at 1, MovieViewSet.perform_create in Hk.
    destruct (serializers_create_movies u vd db)
      as [[Hm _]|(k0 & m0 & Hm & Hu & _)];
      destruct (Serializers.create _ _ db) as [[?|?] ?]; simpl in *;
      rewrite Hm in Hk; auto.
    all: destruct (decide (k = k0)) as [->|];
      [rewrite lookup_insert_eq in Hk; simplify_eq; by right
      |rewrite lookup_insert_ne in Hk by done; by left].
  - intros r db' Hc. unfold MovieViewSet.create, is_valid in Hc.
    unfold bind at 1 in Hc.
    destruct (Serializers.to_internal_value _ _ _) as [vd|]; [|done].
    unfold ret at 1, bind at 1, MovieViewSet.perform_create in Hc.
    destruct (serializers_create_movies u vd db)
      as [[_ [e He]]|(k0 & m0 & Hm & Hu & Hr)];
      destruct (Serializers.create _ _ db) as [[[k1 m1]|?] ?]; simpl in *;
      simplify_eq.
    specialize (Hr _ eq_refl). unfold ret in Hc. simplify_eq.
    exists k0, m0. rewrite Hm, lookup_insert_eq. done.
Qed.

(** ** Genre reconciliation *)

Lemma elem_of_matching db u nm (r : Z * Genre.t) :
  r ∈ filter (Orm.genre_matches u nm) (Orm.all (genres db)) ↔
  genres db !! r.1 = Some r.2 ∧ Orm.genre_matches u nm r.
Proof. rewrite list_elem_of_filter, elem_of_all. tauto. Qed.

(** A list without repetition whose members with [P] are exactly [r]. *)
Lemma filter_unique {A} (P : A → Prop) `{!∀ x, Decision (P x)} (l : list A) r :
  NoDup l → (∀ x, x ∈ l ∧ P x ↔ x = r) → filter P l = [r].
Proof.
  intros Hnd Hr.
  assert (NoDup (filter P l)) as Hnd' by by apply NoDup_filter.
  assert (∀ x, x ∈ filter P l ↔ x = r) as Hin.
  { intros x. rewrite list_elem_of_filter, <-Hr. tauto. }
  destruct (filter P l) as [|a [|b t]].
  - by destruct (not_elem_of_nil r); apply Hin.
  - f_equal. apply Hin. left.
  - assert (a = r) as -> by (apply Hin; left).
    assert (b = r) as -> by (apply Hin; right; left).
    apply NoDup_cons in Hnd' as [Hnot _]. destruct Hnot. left.
Qed.

Lemma get_or_create_found u nm db r :
  only_match db u nm r → Orm.genre_get_or_create u nm db = (Ok r, db).
Proof.
  intros Hr. unfold Orm.genre_get_or_create.
  rewrite (filter_unique _ _ r); [done|apply NoDup_map_to_list|].
  intros x. rewrite elem_of_all. apply Hr.
Qed.

(** With no matching row a row is created, which is then the only match. *)
Lemma get_or_create_new u nm db :
  (∀ x, genres db !! x.1 = Some x.2 → ¬ Orm.genre_matches u nm x) →
  ∃ g db', Orm.genre_get_or_create u nm db = (Ok g, db') ∧
           Orm.genre_create u nm db = (Ok g, db') ∧
           only_match db' u nm g ∧ movie_genres db' = movie_genres db.
Proof.
  intros Hno. eexists _, _. split; [|split; [reflexivity|split; [|done]]].
  - unfold Orm.genre_get_or_create.
    destruct (filter _ _) as [|x t] eqn:Hf; [done|].
    assert (x ∈ filter (Orm.genre_matches u nm) (Orm.all (genres db)))
      as [? ?]%elem_of_matching by (rewrite Hf; left).
    by destruct (Hno x).
  - simpl. intros [k g]. simpl. split.
    + intros [Hk Hm]. destruct (decide (k = genre_seq db)) as [->|Hne].
      * rewrite lookup_insert_eq in Hk. by simplify_eq.
      * rewrite lookup_insert_ne in Hk by done. by destruct (Hno (k, g)).
    + intros [= -> ->]. rewrite lookup_insert_eq. split; [done|].
      unfold Orm.genre_matches. simpl. split; [done|]. by destruct nm.
Qed.

(** One descriptor through [_get_or_create_genres] when the genre is there. *)
Lemma reconcile_found u nm movie db r :
  only_match db u nm r →
  Serializers._get_or_create_genres u [nm] movie db
  = (Ok tt, MkDB (movies db) (genres db)
                 ({[ (movie, r.1) ]} ∪ movie_genres db)
                 (movie_seq db) (genre_seq db) (urandom_calls db)).
Proof.
  intros Hr. unfold Serializers._get_or_create_genres. simpl. unfold_orm.
  by rewrite (get_or_create_found u nm db r).
Qed.

(** C4, as the code has it: when at most one genre record has the name and
    the owner beforehand, running find-or-create-and-attach twice with the
    same name descriptor succeeds both times, the second run changes nothing,
    and afterwards exactly one genre record has that name and owner and
    exactly one row attaches such a genre to the movie. *)
Theorem genre_reconciliation_idempotent (u movie : Z) (nm : string) (db : DB) :
  (length (filter (Orm.genre_matches u (Some nm)) (Orm.all (genres db)))
   ≤ 1)%nat →
  ∃ g db1,
    Serializers._get_or_create_genres u [Some nm] movie db = (Ok tt, db1) ∧
    Serializers._get_or_create_genres u [Some nm] movie db1 = (Ok tt, db1) ∧
    (∀ x, genres db1 !! x.1 = Some x.2 ∧ Genre.name x.2 = nm ∧
          Genre.user x.2 = u ↔ x = g) ∧
    (∀ gid, ((movie, gid) ∈ movie_genres db1 ∧
             ∃ row, genres db1 !! gid = Some row ∧ Genre.name row = nm ∧
                    Genre.user row = u) ↔ gid = g.1).
Proof.
  intros Hone.
  assert (∃ g db0, Orm.genre_get_or_create u (Some nm) db = (Ok g, db0) ∧
                   only_match db0 u (Some nm) g ∧
                   movie_genres db0 = movie_genres db) as (g & db0 & Hgoc & Hg & Hrel).
  { destruct (filter (Orm.genre_matches u (Some nm)) (Orm.all (genres db)))
      as [|r [|r' t]] eqn:Hf; [| |simpl in Hone; lia].
    - destruct (get_or_create_new u (Some nm) db) as (g & db0 & ? & _ & ? & ?).
      { intros x Hx Hm.
        assert (x ∈ filter (Orm.genre_matches u (Some nm)) (Orm.all (genres db)))
          as Hin by by apply elem_of_matching.
        rewrite Hf in Hin. by apply not_elem_of_nil in Hin. }
      by exists g, db0.
    - exists r, db. split; [|split; [|done]].
      + unfold Orm.genre_get_or_create. by rewrite Hf.
      + intros x. rewrite <-elem_of_matching, Hf. apply list_elem_of_singleton. }
  set (db1 := MkDB (movies db0) (genres db0) ({[ (movie, g.1) ]} ∪ movie_genres db0)
                   (movie_seq db0) (genre_seq db0) (urandom_calls db0)).
  assert (only_match db1 u (Some nm) g) as Hg1 by done.
  exists g, db1. split; [|split; [|split]].
  - unfold Serializers._get_or_create_genres. simpl. unfold_orm.
    by rewrite Hgoc.
  - rewrite (reconcile_found u (Some nm) movie db1 g Hg1). f_equal.
    unfold db1. simpl. f_equal.
    by rewrite (assoc_L (∪)), (idemp_L (∪)).
  - intros x. rewrite <-(Hg1 x). unfold Orm.genre_matches. simpl. tauto.
  - intros gid. split.
    + intros (_ & row & Hrow & Hn & Hu).
      assert ((gid, row) = g) as <-; [|done].
      apply Hg1. unfold Orm.genre_matches. done.
    + intros ->. split; [by apply elem_of_union_l, elem_of_singleton|].
      destruct (Hg1 g) as [_ [Hrow [Hu Hn]]]; [done|].
      exists g.2. done.
Qed.

(** ** Genres on update *)

Lemma dict_get_elem {V} k (d : list (string * V)) v :
  Py.dict_get k d = Some v → (k, v) ∈ d.
Proof.
  induction d as [|[k' v'] d IH]; simpl; [done|].
  destruct (Py.dict_get k d) as [w|].
  - intros [= ->]. right. by apply IH.
  - destruct (String.eqb k' k) eqn:E; [|done].
    apply String.eqb_eq in E as ->. intros [= ->]. left.
Qed.

Lemma dict_get_app {V} k (a b : list (string * V)) :
  Py.dict_get k (a ++ b)
  = match Py.dict_get k b with Some v => Some v | None => Py.dict_get k a end.
Proof.
  induction a as [|[k' v'] a IH]; simpl.
  - by destruct (Py.dict_get k b).
  - rewrite IH. by destruct (Py.dict_get k b).
Qed.

Lemma get_or_create_ok u nm db g db0 :
  Orm.genre_get_or_create u nm db = (Ok g, db0) →
  only_match db0 u nm g ∧ movie_genres db0 = movie_genres db ∧
  (db0 = db ∨
   (g.1 = genre_seq db ∧ genres db0 = <[g.1 := g.2]> (genres db) ∧
    genre_seq db0 = g.1 + 1)).
Proof.
  unfold Orm.genre_get_or_create.
  destruct (filter _ _) as [|r [|r' t]] eqn:Hf; [| |done].
  - intros Hc.
    destruct (get_or_create_new u nm db) as (g' & db' & _ & Hc' & Hm & Hrel).
    { intros x Hx Hmx.
      assert (x ∈ filter (Orm.genre_matches u nm) (Orm.all (genres db)))
        as Hin by by apply elem_of_matching.
      rewrite Hf in Hin. by apply not_elem_of_nil in Hin. }
    rewrite Hc in Hc'. simplify_eq. split; [done|]. split; [done|].
    right. unfold Orm.genre_create in Hc. by simplify_eq.
  - intros [= <- <-]. split; [|by auto].
    intros x. rewrite <-elem_of_matching, Hf. apply list_elem_of_singleton.
Qed.

Section reconcile.
Context `{!Framework}.

Lemma reconcile_inv u k ds :
  ∀ done db db',
    genres_wf db → attached_ok u k done db →
    Serializers._get_or_create_genres u ds k db = (Ok tt, db') →
    genres_wf db' ∧ attached_ok u k (done ++ ds) db' ∧
    ∀ k' g, k' ≠ k → (k', g) ∈ movie_genres db' ↔ (k', g) ∈ movie_genres db.
Proof.
  unfold Serializers._get_or_create_genres.
  induction ds as [|d ds IH]; intros done db db' Hwf Hatt Hrun.
  { unfold for_each, ret in Hrun. simplify_eq. by rewrite app_nil_r. }
  simpl in Hrun. unfold bind at 1 in Hrun. unfold bind at 1 in Hrun.
  destruct (Orm.genre_get_or_create u d db) as [[g|e] db0] eqn:Hgoc; [|done].
  apply get_or_create_ok in Hgoc as (Hg & Hrel & Hdb0).
  unfold Orm.genres_add in Hrun.
  match type of Hrun with for_each _ _ ?d1 = _ => set (db1 := d1) in * end.
  assert (∀ x row, genres db !! x = Some row →
                   genres db0 !! x = Some row) as Hkeep.
  { intros x row Hx. destruct Hdb0 as [->|(Hk & -> & _)]; [done|].
    rewrite lookup_insert_ne; [done|].
    intros <-. specialize (Hwf g.1 (mk_is_Some _ _ Hx)). lia. }
  apply (IH (done ++ [d])) in Hrun as (Hwf' & Hatt' & Hfr).
  - split; [done|]. split; [by rewrite <-(assoc_L (++)) in Hatt'|].
    intros k' x Hne. rewrite Hfr by done. unfold db1. simpl.
    rewrite elem_of_union, elem_of_singleton, Hrel.
    split; [intros [[= ? ?]|?]; [done|done]|by right].
  - intros x Hx. unfold db1 in *. simpl in *.
    destruct Hdb0 as [->|(Hk & Hins & ->)]; [by apply Hwf|].
    rewrite Hins in Hx. destruct (decide (x = g.1)) as [->|Hne]; [lia|].
    rewrite lookup_insert_ne in Hx by done. specialize (Hwf x Hx). lia.
  - intros x. unfold db1. simpl.
    rewrite elem_of_union, elem_of_singleton, Hrel. split.
    + intros [[= ->]|Hin].
      * destruct (Hg g) as [_ [Hrow Hm]]; [done|].
        exists g.2, d. split; [done|]. split; [|by destruct g].
        apply elem_of_app. right. left.
      * apply Hatt in Hin as (row & d0 & Hrow & Hd0 & Hm).
        exists row, d0. split; [by apply Hkeep|].
        split; [apply elem_of_app; by left|done].
    + intros (row & d0 & Hrow & [Hd0|Hd0]%elem_of_app & Hm).
      * destruct Hdb0 as [->|(Hk & Hins & _)].
        { right. apply Hatt. by exists row, d0. }
        rewrite Hins in Hrow.
        destruct (decide (x = g.1)) as [->|Hne]; [by left|].
        rewrite lookup_insert_ne in Hrow by done.
        right. apply Hatt. by exists row, d0.
      * apply list_elem_of_singleton in Hd0 as ->. left.
        assert ((x, row) = g) as <-; [|done]. by apply Hg.
Qed.

Lemma movie_save_relation k m db :
  movie_genres (Serializers.movie_save k m db).2 = movie_genres db ∧
  genres (Serializers.movie_save k m db).2 = genres db ∧
  ∃ r, (Serializers.movie_save k m db).1 = Ok r.
Proof.
  unfold Serializers.movie_save. unfold_orm.
  destruct (pre_save_spec m db) as (m' & n & -> & _). simpl. eauto.
Qed.

Lemma to_internal_value_app partial fs1 fs2 data vd :
  Serializers.to_internal_value partial (fs1 ++ fs2) data = Some vd →
  ∃ vd1 vd2, Serializers.to_internal_value partial fs1 data = Some vd1 ∧
             Serializers.to_internal_value partial fs2 data = Some vd2 ∧
             vd = vd1 ++ vd2.
Proof.
  revert vd. induction fs1 as [|f fs1 IH]; intros vd Hv; simpl in *.
  { by exists [], vd. }
  destruct (Serializers.run_validation partial f data) as [r|]; [|done].
  destruct (Serializers.to_internal_value partial (fs1 ++ fs2) data)
    as [rest|]; [|done].
  destruct (IH rest eq_refl) as (vd1 & vd2 & -> & -> & ->).
  simplify_eq. eexists _, _. split; [done|]. split; [done|].
  by rewrite (assoc_L (++)).
Qed.

Lemma to_internal_value_get_none partial fields data vd k :
  Serializers.to_internal_value partial fields data = Some vd →
  (∀ f, f ∈ fields → field_name f ≠ k) → Py.dict_get k vd = None.
Proof.
  intros Hv Hk. destruct (Py.dict_get k vd) as [v|] eqn:Hget; [|done].
  apply dict_get_elem in Hget.
  destruct (to_internal_value_keys _ _ _ _ _ Hv Hget) as (f & Hf & _ & Hn).
  by destruct (Hk f Hf).
Qed.

(** What validation makes of the [genres] key of a payload. *)
Lemma validated_genres partial data vd :
  Serializers.to_internal_value partial
    Serializers.MovieDetailSerializer_fields data = Some vd →
  match Py.dict_get "genres" data with
  | None => Py.dict_get "genres" vd = None
  | Some v => ∃ l ds, v = VList l ∧
                      mapM (Serializers.genre_descriptor partial) l = Some ds ∧
                      Py.dict_get "genres" vd = Some (FGenres ds)
  end.
Proof.
  intros Hv. unfold Serializers.MovieDetailSerializer_fields in Hv.
  apply to_internal_value_app in Hv as (vd12 & vd3 & Hv12 & Hv3 & ->).
  change Serializers.MovieSerializer_fields
    with (take 5 Serializers.MovieSerializer_fields
          ++ [Field "genres" TGenres false false false]) in Hv12.
  apply to_internal_value_app in Hv12 as (vd1 & vd2 & Hv1 & Hv2 & ->).
  assert (Py.dict_get "genres" vd3 = None) as H3.
  { apply (to_internal_value_get_none _ _ _ _ _ Hv3). intros f Hf.
    repeat (apply elem_of_cons in Hf as [->|Hf]; [done|]).
    by apply not_elem_of_nil in Hf. }
  assert (Py.dict_get "genres" vd1 = None) as H1.
  { apply (to_internal_value_get_none _ _ _ _ _ Hv1). intros f Hf. simpl in Hf.
    repeat (apply elem_of_cons in Hf as [->|Hf]; [done|]).
    by apply not_elem_of_nil in Hf. }
  rewrite !dict_get_app, H3, H1.
  simpl in Hv2. unfold Serializers.run_validation in Hv2. simpl in Hv2.
  destruct (Py.dict_get "genres" data) as [v|].
  - destruct v as [| | | |l| |]; try done. simpl in Hv2.
    destruct (mapM (Serializers.genre_descriptor partial) l) as [ds|] eqn:Hm;
      [|done].
    cbn in Hv2. simplify_eq. by exists l, ds.
  - by destruct partial; simplify_eq.
Qed.

End reconcile.

Section update_genres.
Context `{!Framework}.

Lemma serializers_update_genres_absent u inst vd db :
  Py.dict_get "genres" vd = None →
  movie_genres (Serializers.update u inst vd db).2 = movie_genres db.
Proof.
  intros Hg. unfold Serializers.update, Py.dict_pop. rewrite Hg.
  unfold bind at 1, ret at 1. apply movie_save_relation.
Qed.

Lemma serializers_update_genres_given u inst vd ds db :
  Py.dict_get "genres" vd = Some (FGenres ds) →
  let s := (Orm.genres_clear inst.1 ;;;
            Serializers._get_or_create_genres u ds inst.1)%orm db in
  movie_genres (Serializers.update u inst vd db).2 = movie_genres s.2 ∧
  genres (Serializers.update u inst vd db).2 = genres s.2 ∧
  (∀ r, (Serializers.update u inst vd db).1 = Ok r → s.1 = Ok tt).
Proof.
  intros Hg s. unfold Serializers.update, Py.dict_pop. rewrite Hg.
  rewrite !(bind_run (bind _ _)). fold s.
  destruct s as [[[]|e] db1]; simpl; [|done].
  destruct (movie_save_relation inst.1
              (Serializers.setattrs (Py.dict_del "genres" vd) inst.2) db1)
    as (? & ? & _). done.
Qed.

Lemma view_update_run u req pk partial db inst vd :
  MovieViewSet.get_object u req pk db = (Ok inst, db) →
  Serializers.to_internal_value partial
    Serializers.MovieDetailSerializer_fields (data req) = Some vd →
  MovieViewSet.update partial u req pk db
  = match Serializers.update u inst vd db with
    | (Ok m, d) => (Ok (Response 200 (MovieObj m)), d)
    | (Raise e, d) => (Raise e, d)
    end.
Proof.
  intros Hobj Hv. unfold MovieViewSet.update.
  rewrite bind_run, Hobj, bind_run. unfold is_valid.
  change (MovieViewSet.get_serializer_class update_)
    with Serializers.MovieDetailSerializer_fields.
  rewrite Hv. unfold ret at 1. by rewrite bind_run.
Qed.

(** C5: an update whose payload has no [genres] key leaves the relation
    between movies and genres as it is.  An update of the user's movie whose
    valid payload has the key clears the genres of the movie and then runs
    find-or-create-and-attach over the descriptors: with the empty list the
    movie ends with no genre, and when the update succeeds the genres of the
    movie are exactly the user's genre records matched by a descriptor, the
    genres of other movies being untouched. *)
Theorem update_replaces_genres (u : Z) (req : request) (pk : string)
    (partial : bool) (db : DB) :
  let db' := (MovieViewSet.update partial u req pk db).2 in
  (Py.dict_get "genres" (data req) = None →
   movie_genres db' = movie_genres db) ∧
  (∀ v inst vd,
     Py.dict_get "genres" (data req) = Some v →
     MovieViewSet.get_object u req pk db = (Ok inst, db) →
     Serializers.to_internal_value partial
       Serializers.MovieDetailSerializer_fields (data req) = Some vd →
     ∃ l ds,
       v = VList l ∧
       mapM (Serializers.genre_descriptor partial) l = Some ds ∧
       movie_genres db'
       = movie_genres ((Orm.genres_clear inst.1 ;;;
            Serializers._get_or_create_genres u ds inst.1)%orm db).2 ∧
       (l = [] → ∀ g, (inst.1, g) ∉ movie_genres db') ∧
       (genres_wf db →
        ∀ r, (MovieViewSet.update partial u req pk db).1 = Ok r →
             attached_ok u inst.1 ds db' ∧
             ∀ k g, k ≠ inst.1 →
                    (k, g) ∈ movie_genres db' ↔ (k, g) ∈ movie_genres db)).
Proof.
  intros db'. split.
  - intros Hnone. unfold db', MovieViewSet.update. unfold bind at 1.
    pose proof (get_object_state u req pk db) as Hst.
    destruct (MovieViewSet.get_object u req pk db) as [[inst|e] db1];
      simpl in Hst; subst db1; [|done].
    unfold bind at 1, is_valid.
    destruct (Serializers.to_internal_value _ _ _) as [vd|] eqn:Hv; [|done].
    unfold ret at 1, bind at 1.
    apply validated_genres in Hv. rewrite Hnone in Hv.
    pose proof (serializers_update_genres_absent u inst vd db Hv) as Hu.
    by destruct (Serializers.update u inst vd db) as [[?|?] ?].
  - intros v inst vd Hsome Hobj Hv.
    pose proof (validated_genres _ _ _ Hv) as Hvg. rewrite Hsome in Hvg.
    destruct Hvg as (l & ds & -> & Hds & Hget). exists l, ds.
    destruct (serializers_update_genres_given u inst vd ds db Hget)
      as (Hrel & Hgen & Hok).
    set (s := (Orm.genres_clear inst.1 ;;;
               Serializers._get_or_create_genres u ds inst.1)%orm db) in *.
    assert (movie_genres db' = movie_genres s.2 ∧ genres db' = genres s.2 ∧
            ∀ r, (MovieViewSet.update partial u req pk db).1 = Ok r →
                 s.1 = Ok tt) as (Hrel' & Hgen' & Hok').
    { unfold db'. rewrite (view_update_run u req pk partial db inst vd) by done.
      destruct (Serializers.update u inst vd db) as [[?|?] ?];
        simpl in Hrel, Hgen, Hok |- *; (split; [done|split; [done|]]);
        [eauto|done]. }
    split; [done|]. split; [done|]. split; [done|]. split.
    + intros Hl g. rewrite Hl in Hds.
      change (Some [] = Some ds) in Hds.
      assert (ds = []) as Hnil by congruence.
      rewrite Hrel'. unfold s. rewrite Hnil.
      unfold bind, Orm.genres_clear. simpl.
      rewrite elem_of_filter. simpl. tauto.
    + intros Hwf r Hr. specialize (Hok' r Hr).
      unfold s, bind in Hok', Hrel', Hgen'. unfold Orm.genres_clear in *.
      match type of Hok' with
        (Serializers._get_or_create_genres u ds ?k ?d).1 = _ =>
          destruct (Serializers._get_or_create_genres u ds k d)
            as [[[]|e] db1] eqn:Hrun; [|done];
          apply (reconcile_inv u k ds [] d) in Hrun as (_ & Hatt & Hfr)
      end; [| done |].
      * simpl in *. split.
        { intros g. rewrite Hrel', Hgen'. apply Hatt. }
        intros k g Hne. rewrite Hrel', Hfr by done. simpl.
        rewrite elem_of_filter. simpl. tauto.
      * intros g. simpl. rewrite elem_of_filter. simpl. split; [tauto|].
        intros (? & ? & _ & Hin & _). by apply not_elem_of_nil in Hin.
Qed.

End update_genres.

(** ** The statements on the example database *)

Lemma movie_list_only_own_witness :
  MovieViewSet.list 1 (list_request "1,2") sample_db
  = (Ok (Response 200 (Movies [ (2, movie_row 1 "Avengers" 180);
                                (1, movie_row 1 "Black Adam" 120) ])),
     sample_db) ∧
  ∃ l, Response 200 (Movies [ (2, movie_row 1 "Avengers" 180);
                              (1, movie_row 1 "Black Adam" 120) ])
       = Response 200 (Movies l) ∧ sample_db = sample_db ∧
       (∀ r, r ∈ l → Movie.user r.2 = 1 ∧ movies sample_db !! r.1 = Some r.2) ∧
       (∀ k m, movies sample_db !! k = Some m → Movie.user m ≠ 1 → (k, m) ∉ l).
Proof.
  assert (MovieViewSet.list 1 (list_request "1,2") sample_db
          = (Ok (Response 200 (Movies [ (2, movie_row 1 "Avengers" 180);
                                        (1, movie_row 1 "Black Adam" 120) ])),
             sample_db)) as H by (vm_compute; reflexivity).
  split; [exact H|].
  exact (movie_list_only_own 1 (list_request "1,2") sample_db sample_db _ H).
Defined.

Lemma movie_list_genre_filter_witness :
  Py.dict_get "genres" (query_params (list_request "1,2")) = Some "1,2"%string ∧
  mapM Py.int (Py.split "," "1,2") = Some [1; 2] ∧
  ∃ l, MovieViewSet.list 1 (list_request "1,2") sample_db
       = (Ok (Response 200 (Movies l)), sample_db) ∧
       NoDup l ∧ NoDup l.*1 ∧
       ∀ k m, (k, m) ∈ l ↔
              movies sample_db !! k = Some m ∧ Movie.user m = 1 ∧
              ∃ g, g ∈ [1; 2] ∧ (k, g) ∈ movie_genres sample_db.
Proof.
  assert (Py.dict_get "genres" (query_params (list_request "1,2"))
          = Some "1,2"%string) as H1 by reflexivity.
  assert (mapM Py.int (Py.split "," "1,2") = Some [1; 2]) as H2
    by (vm_compute; reflexivity).
  split; [exact H1|]. split; [exact H2|].
  exact (movie_list_genre_filter 1 (list_request "1,2") sample_db "1,2" [1; 2]
           H1 H2).
Defined.

Lemma movie_list_empty_genres_param_witness :
  Py.dict_get "genres" (query_params (list_request "")) = Some EmptyString ∧
  ∃ l, MovieViewSet.list 1 (list_request "") sample_db
       = (Ok (Response 200 (Movies l)), sample_db) ∧
       (∀ req', Py.dict_get "genres" (query_params req') = None →
                MovieViewSet.list 1 req' sample_db
                = (Ok (Response 200 (Movies l)), sample_db)) ∧
       NoDup l ∧
       ∀ k m, (k, m) ∈ l ↔ movies sample_db !! k = Some m ∧ Movie.user m = 1.
Proof.
  assert (Py.dict_get "genres" (query_params (list_request ""))
          = Some EmptyString) as H1 by reflexivity.
  split; [exact H1|].
  exact (movie_list_empty_genres_param 1 (list_request "") sample_db H1).
Defined.

Lemma movie_list_bad_genre_token_witness :
  Py.dict_get "genres" (query_params (list_request "1,abc"))
    = Some "1,abc"%string ∧
  "1,abc"%string ≠ EmptyString ∧
  "abc"%string ∈ Py.split "," "1,abc" ∧
  Py.int "abc" = None ∧
  MovieViewSet.list 1 (list_request "1,abc") sample_db
    = (Raise Py.ValueError, sample_db) ∧
  run_view (MovieViewSet.list 1 (list_request "1,abc")) sample_db
    = (Response 500 NoBody, sample_db) ∧
  (path (list_request "1,abc") = "movies/"%string →
   method (list_request "1,abc") = GET →
   user (list_request "1,abc") = Some 1 →
   Urls.handle (list_request "1,abc") sample_db
   = (Response 500 NoBody, sample_db)).
Proof.
  assert (Py.dict_get "genres" (query_params (list_request "1,abc"))
          = Some "1,abc"%string) as H1 by reflexivity.
  assert ("1,abc"%string ≠ EmptyString) as H2 by discriminate.
  assert ("abc"%string ∈ Py.split "," "1,abc") as H3
    by (vm_compute; right; left).
  assert (Py.int "abc" = None) as H4 by reflexivity.
  split; [exact H1|]. split; [exact H2|]. split; [exact H3|].
  split; [exact H4|].
  exact (movie_list_bad_genre_token 1 (list_request "1,abc") sample_db
           "1,abc" "abc" H1 H2 H3 H4).
Defined.

(** A token with one of the separators 28 to 31 before the digit is no
    integer for [int()]: the list request ends with status 500, and so does
    the delete of another user's movie with that filter. *)
Example separator_token_examples :
  Py.int (String (ascii_of_nat 28) "1") = None ∧
  Urls.handle (list_request (String (ascii_of_nat 28) "1")) sample_db
  = (Response 500 NoBody, sample_db) ∧
  Urls.handle
    (delete_request [("genres"%string, String (ascii_of_nat 28) "1")]) sample_db
  = (Response 500 NoBody, sample_db).
Proof. repeat split; vm_compute; reflexivity. Qed.

(** C7 as stated fails: a list request with [genres=abc] ends with status
    500, not with the validation status 400. *)
Lemma movie_list_bad_genre_token_not_400 :
  status (Urls.handle (list_request "abc") sample_db).1 = 500 ∧
  status (Urls.handle (list_request "abc") sample_db).1 ≠ 400.
Proof. split; [vm_compute; reflexivity|vm_compute; discriminate]. Qed.

Lemma sample_db_movie_4 :
  ∀ k m, Py.int "4" = Some k → movies sample_db !! k = Some m →
         Movie.user m ≠ 1.
Proof.
  intros k m Hk Hm. change (Some 4 = Some k) in Hk. injection Hk as <-.
  assert (movies sample_db !! 4 = Some (movie_row 2 "Other" 60)) as H
    by (vm_compute; reflexivity).
  rewrite H in Hm. injection Hm as <-. simpl. lia.
Defined.

Lemma movie_detail_not_found_witness :
  (∀ k m, Py.int "4" = Some k → movies sample_db !! k = Some m →
          Movie.user m ≠ 1) ∧
  run_view (MovieViewSet.destroy 1 (delete_request []) "4") sample_db
    = (Response 404 Errors, sample_db) ∧
  run_view (MovieViewSet.destroy 1 (delete_request [("genres", "x")]%string) "4")
    sample_db = (Response 500 NoBody, sample_db).
Proof.
  split; [exact sample_db_movie_4|]. split.
  - exact (proj1 (proj2 (proj2 (proj2
      (movie_detail_not_found 1 (delete_request []) "4" sample_db
         sample_db_movie_4))))).
  - exact (proj1 (proj2 (proj2 (proj2
      (movie_detail_not_found 1 (delete_request [("genres", "x")]%string) "4"
         sample_db sample_db_movie_4))))).
Defined.

(** C3 as stated fails: user 1 deleting movie 4 of user 2 with a [genres]
    parameter that is no integer is answered with status 500, not 404. *)
Lemma movie_detail_bad_filter_not_404 :
  movies sample_db !! 4 = Some (movie_row 2 "Other" 60) ∧
  Urls.handle (delete_request [("genres", "x")]%string) sample_db
    = (Response 500 NoBody, sample_db) ∧
  status (Urls.handle (delete_request [("genres", "x")]%string) sample_db).1
    ≠ 404.
Proof.
  split; [vm_compute; reflexivity|].
  split; [vm_compute; reflexivity|vm_compute; discriminate].
Qed.

Lemma genre_reconciliation_idempotent_witness :
  (length (filter (Orm.genre_matches 1 (Some "Adventure"%string))
             (Orm.all (genres sample_db))) ≤ 1)%nat ∧
  ∃ g db1,
    Serializers._get_or_create_genres 1 [Some "Adventure"%string] 3 sample_db
      = (Ok tt, db1) ∧
    Serializers._get_or_create_genres 1 [Some "Adventure"%string] 3 db1
      = (Ok tt, db1) ∧
    (∀ x, genres db1 !! x.1 = Some x.2 ∧ Genre.name x.2 = "Adventure"%string ∧
          Genre.user x.2 = 1 ↔ x = g) ∧
    (∀ gid, ((3, gid) ∈ movie_genres db1 ∧
             ∃ row, genres db1 !! gid = Some row ∧
                    Genre.name row = "Adventure"%string ∧
                    Genre.user row = 1) ↔ gid = g.1).
Proof.
  assert (length (filter (Orm.genre_matches 1 (Some "Adventure"%string))
                    (Orm.all (genres sample_db))) ≤ 1)%nat as H
    by (vm_compute; lia).
  split; [exact H|].
  exact (genre_reconciliation_idempotent 1 3 "Adventure" sample_db H).
Defined.

(** C4 as stated fails: after user 1 renamed genre 2 to Adventure there are
    two Adventure records of user 1; running find-or-create-and-attach with
    that name raises both times and leaves the two records, and the request
    that supplies the name ends with status 500. *)
Lemma genre_reconciliation_duplicates :
  let run := Serializers._get_or_create_genres 1 [Some "Adventure"%string] 1 in
  (run renamed_db).1 = Raise Py.MultipleObjectsReturned ∧
  (run (run renamed_db).2).1 = Raise Py.MultipleObjectsReturned ∧
  length (filter (Orm.genre_matches 1 (Some "Adventure"%string))
            (Orm.all (genres (run (run renamed_db).2).2))) = 2%nat ∧
  status (Urls.handle
            (Request PATCH "movies/1/" (Some 1) []
               [("genres"%string, VList [descriptor "Adventure"])])
            renamed_db).1 = 500.
Proof. repeat split; vm_compute; reflexivity. Qed.

(** C8 as stated fails: nothing is routed at [genres]. *)
Lemma genres_path_not_routed :
  Urls.resolve "genres/" = None ∧ Urls.resolve "genres" = None ∧
  Urls.resolve "/genres" = None ∧ Urls.resolve "genres/1/" = None ∧
  Urls.handle (Request GET "genres/" (Some 1) [] []) sample_db
    = (Response 404 Errors, sample_db).
Proof. repeat split; vm_compute; reflexivity. Qed.

Lemma sample_db_genres_wf : genres_wf sample_db.
Proof.
  intros k [g Hg]. apply elem_of_map_to_list in Hg.
  assert (map_to_list (genres sample_db)
          = [ (3, Genre.Build "Adventure" 2); (2, Genre.Build "Sci-Fi" 1);
              (1, Genre.Build "Adventure" 1) ]) as E
    by (vm_compute; reflexivity).
  assert (genre_seq sample_db = 4) as -> by (vm_compute; reflexivity).
  rewrite E in Hg.
  repeat (apply elem_of_cons in Hg as [Hg|Hg]; [injection Hg as -> _; lia|]).
  destruct (not_elem_of_nil _ Hg).
Defined.

Lemma update_replaces_genres_witness :
  let req := genres_update_request ["Drama"%string] in
  Py.dict_get "genres" (data req) = Some (VList [descriptor "Drama"]) ∧
  MovieViewSet.get_object 1 req "2" sample_db
    = (Ok (2, movie_row 1 "Avengers" 180), sample_db) ∧
  Serializers.to_internal_value true
    Serializers.MovieDetailSerializer_fields (data req)
    = Some [("genres"%string, FGenres [Some "Drama"%string])] ∧
  genres_wf sample_db ∧
  (MovieViewSet.update true 1 req "2" sample_db).1
    = Ok (Response 200 (MovieObj (2, movie_row 1 "Avengers" 180))) ∧
  attached_ok 1 2 [Some "Drama"%string]
    (MovieViewSet.update true 1 req "2" sample_db).2 ∧
  (∀ k g, k ≠ 2 →
     (k, g) ∈ movie_genres (MovieViewSet.update true 1 req "2" sample_db).2 ↔
     (k, g) ∈ movie_genres sample_db).
Proof.
  intros req.
  assert (Py.dict_get "genres" (data req) = Some (VList [descriptor "Drama"]))
    as H1 by reflexivity.
  assert (MovieViewSet.get_object 1 req "2" sample_db
          = (Ok (2, movie_row 1 "Avengers" 180), sample_db)) as H2
    by (vm_compute; reflexivity).
  assert (Serializers.to_internal_value true
            Serializers.MovieDetailSerializer_fields (data req)
          = Some [("genres"%string, FGenres [Some "Drama"%string])]) as H3
    by (vm_compute; reflexivity).
  assert ((MovieViewSet.update true 1 req "2" sample_db).1
          = Ok (Response 200 (MovieObj (2, movie_row 1 "Avengers" 180))))
    as H5 by (vm_compute; reflexivity).
  split; [exact H1|]. split; [exact H2|]. split; [exact H3|].
  split; [exact sample_db_genres_wf|]. split; [exact H5|].
  destruct (update_replaces_genres 1 req "2" true sample_db) as [_ HB].
  destruct (HB _ _ _ H1 H2 H3) as (l & ds & Hl & Hds & _ & _ & Hok).
  injection Hl as <-.
  assert (ds = [Some "Drama"%string]) as -> by (vm_compute in Hds; congruence).
  exact (Hok sample_db_genres_wf _ H5).
Defined.

Lemma genres_exposed_at_tags_witness :
  Urls.resolve "tags/2/" = Some (Urls.GenreViews, Urls.DetailRoute "2") ∧
  Urls.handle (Request GET "tags/" (Some 1) [] []) sample_db
  = (Response 200 (Genres [ (2, Genre.Build "Sci-Fi" 1);
                            (1, Genre.Build "Adventure" 1) ]), sample_db).
Proof.
  destruct (genres_exposed_at_tags 1 sample_db [] [])
    as (_ & _ & Hdetail & _).
  split; [|vm_compute; reflexivity].
  destruct (Hdetail "2") as [H _]; [reflexivity|reflexivity|exact H].
Defined.

(** The tests [test_update_user_returns_error] and [test_clear_movie_genres]
    on the example database. *)
Example update_user_ignored :
  let req := Request PATCH "movies/1/" (Some 1) [] [("user"%string, VInt 2)] in
  Movie.user <$> movies (Urls.handle req sample_db).2 !! 1 = Some 1 ∧
  status (Urls.handle req sample_db).1 = 200.
Proof. split; vm_compute; reflexivity. Qed.

Example clear_movie_genres :
  let req := genres_update_request [] in
  status (Urls.handle req sample_db).1 = 200 ∧
  elements (movie_genres (Urls.handle req sample_db).2) = [(1, 1); (4, 3)].
Proof. split; vm_compute; reflexivity. Qed.

(** * Further properties *)

(** ** Consistency of the state and what a request may touch *)

Lemma kept_for_others_refl u db : kept_for_others u db db.
Proof. by repeat split. Qed.

Lemma step_inv_start u db : db_consistent db → step_inv u db db.
Proof. intros H. split; [done|apply kept_for_others_refl]. Qed.

(** Attaching a genre to a movie of the same owner. *)
Lemma step_inv_add u db0 db k g mr gr :
  step_inv u db0 db →
  movies db !! k = Some mr → genres db !! g = Some gr →
  Genre.user gr = Movie.user mr →
  step_inv u db0 (MkDB (movies db) (genres db) ({[ (k, g) ]} ∪ movie_genres db)
                       (movie_seq db) (genre_seq db) (urandom_calls db)).
Proof.
  intros [(Hm & Hg & Hj & Hi) (Km & Kg & Kj)] Hk Hgr Hu.
  split; [split; [done|split; [done|split; [|done]]]|split; [done|split; [done|]]];
    simpl.
  - intros m' g' [Heq%elem_of_singleton|Hin]%elem_of_union; [|by apply Hj].
    injection Heq as -> ->. by exists mr, gr.
  - intros m' g' mr' Hin Hm' Hne. apply elem_of_union_r. by eapply Kj.
Qed.

(** Removing rows of the junction table that do not belong to movies of
    other users. *)
Lemma step_inv_filter u db0 db (P : Z * Z → Prop) `{!∀ j, Decision (P j)} :
  step_inv u db0 db →
  (∀ j mr, j ∈ movie_genres db → movies db !! j.1 = Some mr →
           Movie.user mr ≠ u → P j) →
  step_inv u db0 (MkDB (movies db) (genres db) (filter P (movie_genres db))
                       (movie_seq db) (genre_seq db) (urandom_calls db)).
Proof.
  intros [(Hm & Hg & Hj & Hi) (Km & Kg & Kj)] HP.
  split; [split; [done|split; [done|split; [|done]]]|split; [done|split; [done|]]];
    simpl.
  - intros m' g' [_ Hin]%elem_of_filter. by apply Hj.
  - intros m' g' mr' Hin Hm' Hne. apply elem_of_filter.
    assert ((m', g') ∈ movie_genres db) as Hin' by by eapply Kj.
    split; [|done]. apply (HP (m', g') mr'); [done| |done]. by apply Km.
Qed.

(** A new movie under the next key. *)
Lemma step_inv_movie_new u db0 db m n :
  step_inv u db0 db → (∀ f, Movie.image m ≠ Uploaded f) →
  step_inv u db0 (MkDB (<[movie_seq db := m]> (movies db)) (genres db)
                       (movie_genres db) (movie_seq db + 1) (genre_seq db) n).
Proof.
  intros [(Hm & Hg & Hj & Hi) (Km & Kg & Kj)] Him.
  assert (movies db !! movie_seq db = None) as Hfresh.
  { destruct (movies db !! movie_seq db) eqn:E; [|done].
    specialize (Hm _ (mk_is_Some _ _ E)). lia. }
  split; [split; [|split; [done|split]]|split; [|split; [done|done]]]; simpl.
  - intros k [x Hx]. destruct (decide (k = movie_seq db)) as [->|Hne]; [lia|].
    rewrite lookup_insert_ne in Hx by done. specialize (Hm k (mk_is_Some _ _ Hx)).
    lia.
  - intros m' g' Hin. destruct (Hj m' g' Hin) as (mr & gr & Hmr & Hgr & Hu).
    exists mr, gr. split; [|done]. rewrite lookup_insert_ne; [done|].
    intros <-. congruence.
  - intros k m' f. destruct (decide (k = movie_seq db)) as [->|Hne].
    + rewrite lookup_insert_eq. intros [= <-]. apply Him.
    + rewrite lookup_insert_ne by done. apply Hi.
  - intros k m' Hk Hne. rewrite lookup_insert_ne; [by apply Km|].
    intros <-. specialize (Km _ _ Hk Hne). congruence.
Qed.

(** A movie of [u] replaced by a row of the same owner. *)
Lemma step_inv_movie_set u db0 db k mr m n :
  step_inv u db0 db → movies db !! k = Some mr →
  Movie.user mr = u → Movie.user m = u → (∀ f, Movie.image m ≠ Uploaded f) →
  step_inv u db0 (MkDB (<[k := m]> (movies db)) (genres db)
                       (movie_genres db) (movie_seq db) (genre_seq db) n).
Proof.
  intros [(Hm & Hg & Hj & Hi) (Km & Kg & Kj)] Hk Hmr Hmu Him.
  split; [split; [|split; [done|split]]|split; [|split; [done|done]]]; simpl.
  - intros k' [x Hx]. destruct (decide (k' = k)) as [->|Hne].
    + by apply Hm.
    + rewrite lookup_insert_ne in Hx by done. by apply Hm.
  - intros m' g' Hin. destruct (Hj m' g' Hin) as (mr' & gr & Hmr' & Hgr & Hu).
    destruct (decide (m' = k)) as [->|Hne].
    + exists m, gr. rewrite lookup_insert_eq. split; [done|]. split; [done|].
      congruence.
    + exists mr', gr. by rewrite lookup_insert_ne.
  - intros k' m' f. destruct (decide (k' = k)) as [->|Hne].
    + rewrite lookup_insert_eq. intros [= <-]. apply Him.
    + rewrite lookup_insert_ne by done. apply Hi.
  - intros k' m' Hk' Hne. rewrite lookup_insert_ne; [by apply Km|].
    intros <-. specialize (Km _ _ Hk' Hne). congruence.
Qed.

(** A movie of [u] deleted together with its rows of the junction table. *)
Lemma step_inv_movie_delete u db0 db k mr :
  step_inv u db0 db → movies db !! k = Some mr → Movie.user mr = u →
  step_inv u db0 (MkDB (delete k (movies db)) (genres db)
                       (filter (λ j, j.1 ≠ k) (movie_genres db))
                       (movie_seq db) (genre_seq db) (urandom_calls db)).
Proof.
  intros [(Hm & Hg & Hj & Hi) (Km & Kg & Kj)] Hk Hmr.
  split; [split; [|split; [done|split]]|split; [|split; [done|]]]; simpl.
  - intros k' [x Hx]. apply lookup_delete_Some in Hx as [_ Hx]. by apply Hm.
  - intros m' g' [Hne Hin]%elem_of_filter. simpl in Hne.
    destruct (Hj m' g' Hin) as (mr' & gr & Hmr' & Hgr & Hu).
    exists mr', gr. by rewrite lookup_delete_ne.
  - intros k' m' f [_ Hx]%lookup_delete_Some. by eapply Hi.
  - intros k' m' Hk' Hne. rewrite lookup_delete_ne; [by apply Km|].
    intros <-. specialize (Km _ _ Hk' Hne). congruence.
  - intros m' g' mr' Hin Hm' Hne. apply elem_of_filter. simpl.
    split; [|by eapply Kj]. intros ->. specialize (Km _ _ Hm' Hne). congruence.
Qed.

(** A new genre of [u] under the next key. *)
Lemma step_inv_genre_new u db0 db nm :
  step_inv u db0 db →
  step_inv u db0 (MkDB (movies db)
                       (<[genre_seq db := Genre.Build nm u]> (genres db))
                       (movie_genres db) (movie_seq db) (genre_seq db + 1)
                       (urandom_calls db)).
Proof.
  intros [(Hm & Hg & Hj & Hi) (Km & Kg & Kj)].
  assert (genres db !! genre_seq db = None) as Hfresh.
  { destruct (genres db !! genre_seq db) eqn:E; [|done].
    specialize (Hg _ (mk_is_Some _ _ E)). lia. }
  split; [split; [done|split; [|split; [|done]]]|split; [done|split; [|done]]];
    simpl.
  - intros k [x Hx]. simpl in *.
    destruct (decide (k = genre_seq db)) as [->|Hne]; [lia|].
    rewrite lookup_insert_ne in Hx by done. specialize (Hg k (mk_is_Some _ _ Hx)).
    lia.
  - intros m' g' Hin. destruct (Hj m' g' Hin) as (mr & gr & Hmr & Hgr & Hu).
    exists mr, gr. split; [done|]. split; [|done].
    rewrite lookup_insert_ne; [done|]. intros <-. congruence.
  - intros k g Hk Hne. rewrite lookup_insert_ne; [by apply Kg|].
    intros <-. specialize (Kg _ _ Hk Hne). congruence.
Qed.

(** A genre of [u] replaced by a row of the same owner. *)
Lemma step_inv_genre_set u db0 db k gr nm :
  step_inv u db0 db → genres db !! k = Some gr → Genre.user gr = u →
  step_inv u db0 (MkDB (movies db) (<[k := Genre.Build nm u]> (genres db))
                       (movie_genres db) (movie_seq db) (genre_seq db)
                       (urandom_calls db)).
Proof.
  intros [(Hm & Hg & Hj & Hi) (Km & Kg & Kj)] Hk Hgr.
  split; [split; [done|split; [|split; [|done]]]|split; [done|split; [|done]]];
    simpl.
  - intros k' [x Hx]. simpl in *. destruct (decide (k' = k)) as [->|Hne].
    + by apply Hg.
    + rewrite lookup_insert_ne in Hx by done. by apply Hg.
  - intros m' g' Hin. destruct (Hj m' g' Hin) as (mr & gr' & Hmr & Hgr' & Hu).
    destruct (decide (g' = k)) as [->|Hne].
    + exists mr, (Genre.Build nm u). rewrite lookup_insert_eq.
      split; [done|]. split; [done|]. simpl. congruence.
    + exists mr, gr'. by rewrite lookup_insert_ne.
  - intros k' g Hk' Hne. rewrite lookup_insert_ne; [by apply Kg|].
    intros <-. specialize (Kg _ _ Hk' Hne). congruence.
Qed.

(** A genre of [u] deleted together with its rows of the junction table. *)
Lemma step_inv_genre_delete u db0 db k gr :
  step_inv u db0 db → genres db !! k = Some gr → Genre.user gr = u →
  step_inv u db0 (MkDB (movies db) (delete k (genres db))
                       (filter (λ j, j.2 ≠ k) (movie_genres db))
                       (movie_seq db) (genre_seq db) (urandom_calls db)).
Proof.
  intros [(Hm & Hg & Hj & Hi) (Km & Kg & Kj)] Hk Hgr.
  split; [split; [done|split; [|split; [|done]]]|split; [done|split]]; simpl.
  - intros k' [x Hx]. simpl in *. apply lookup_delete_Some in Hx as [_ Hx].
    by apply Hg.
  - intros m' g' [Hne Hin]%elem_of_filter. simpl in Hne.
    destruct (Hj m' g' Hin) as (mr & gr' & Hmr & Hgr' & Hu).
    exists mr, gr'. by rewrite lookup_delete_ne.
  - intros k' g Hk' Hne. rewrite lookup_delete_ne; [by apply Kg|].
    intros <-. specialize (Kg _ _ Hk' Hne). congruence.
  - intros m' g' mr' Hin Hm' Hne. apply elem_of_filter. simpl.
    assert ((m', g') ∈ movie_genres db) as Hin' by by eapply Kj.
    split; [|done]. intros ->.
    destruct (Hj m' k Hin') as (mr & gr' & Hmr & Hgr' & Hu).
    specialize (Km _ _ Hm' Hne). congruence.
Qed.

Section step_operations.
Context `{!Framework}.

(** Saving changes the image attribute only, and leaves no upload behind. *)
Lemma pre_save_full m db :
  ∃ n, Serializers.pre_save m db
       = (Ok (Movie.Build (Movie.user m) (Movie.title m) (Movie.description m)
                (Movie.running_time_minutes m) (Movie.release_date m)
                (Movie.age_restriction m) (Movie.link m)
                (saved_image (urandom (urandom_calls db)) (Movie.image m))),
          MkDB (movies db) (genres db) (movie_genres db)
               (movie_seq db) (genre_seq db) n).
Proof.
  destruct db, m as [? ? ? ? ? ? ? i]. unfold Serializers.pre_save. simpl.
  destruct i; by eexists.
Qed.

Lemma saved_image_stored rnd i f : saved_image rnd i ≠ Uploaded f.
Proof. by destruct i. Qed.

Lemma movie_save_inv u db0 db k mr m :
  step_inv u db0 db → movies db !! k = Some mr → Movie.user mr = u →
  Movie.user m = u →
  step_inv u db0 (Serializers.movie_save k m db).2.
Proof.
  intros Hinv Hk Hmr Hm. unfold Serializers.movie_save. unfold_orm.
  destruct (pre_save_full m db) as [n ->]. simpl.
  apply (step_inv_movie_set u db0 db k mr); try done.
  intros f. apply saved_image_stored.
Qed.

Lemma reconcile_step_inv u db0 k mr ds :
  ∀ db, step_inv u db0 db → movies db !! k = Some mr → Movie.user mr = u →
        step_inv u db0 (Serializers._get_or_create_genres u ds k db).2.
Proof.
  unfold Serializers._get_or_create_genres.
  induction ds as [|d ds IH]; intros db Hinv Hk Hmr; [done|].
  simpl. rewrite bind_run, bind_run. unfold Orm.genre_get_or_create.
  destruct (filter (Orm.genre_matches u d) (Orm.all (genres db)))
    as [|r [|r' t]] eqn:Hf; [| |done].
  - unfold Orm.genre_create, Orm.genres_add. simpl. apply IH; [|done|done].
    pose proof (step_inv_genre_new u db0 db (default EmptyString d) Hinv) as H1.
    apply (step_inv_add u db0 _ k (genre_seq db) mr
             (Genre.Build (default EmptyString d) u) H1); simpl; [done| |done].
    by rewrite lookup_insert_eq.
  - unfold Orm.genres_add. simpl. apply IH; [|done|done].
    assert (r ∈ filter (Orm.genre_matches u d) (Orm.all (genres db)))
      as [Hrow [Hu _]]%elem_of_matching by (rewrite Hf; left).
    apply (step_inv_add u db0 db k r.1 mr r.2 Hinv); [done|done|congruence].
Qed.

Lemma serializers_update_inv u db0 db inst vd :
  step_inv u db0 db → movies db !! inst.1 = Some inst.2 →
  Movie.user inst.2 = u → (∀ kv, kv ∈ vd → kv.1 ≠ "user"%string) →
  step_inv u db0 (Serializers.update u inst vd db).2.
Proof.
  intros Hinv Hk Hu Hvd. unfold Serializers.update, Py.dict_pop.
  set (step := match Py.dict_get "genres" vd with
               | Some (FGenres ds) =>
                   (Orm.genres_clear inst.1 ;;;
                    Serializers._get_or_create_genres u ds inst.1)%orm
               | _ => ret tt
               end).
  assert (step_inv u db0 (step db).2 ∧ movies (step db).2 = movies db)
    as [Hinv1 Hmov].
  { unfold step. destruct (Py.dict_get "genres" vd) as [[]|]; try done.
    rewrite bind_run. unfold Orm.genres_clear.
    split; [|by rewrite get_or_create_genres_movies].
    apply (reconcile_step_inv u db0 inst.1 inst.2); [|done|done].
    apply step_inv_filter; [done|]. intros j mr' _ Hj Hne Heq.
    rewrite Heq in Hj. congruence. }
  rewrite bind_run. destruct (step db) as [[[]|e] db1]; simpl in Hinv1, Hmov;
    [|done].
  apply (movie_save_inv u db0 db1 inst.1 inst.2); [done|by rewrite Hmov|done|].
  rewrite setattrs_user; [done|].
  intros kv [_ Hin]%elem_of_dict_del. by apply Hvd.
Qed.

Lemma create_kwargs_user u vd :
  let kw := Py.dict_del "genres"
              (Serializers.save_kwargs vd [("user"%string, FUser u)]) in
  Py.dict_get "user" kw = Some (FUser u) ∧
  ∀ kv, kv ∈ kw → kv.1 = "user"%string → kv.2 = FUser u.
Proof.
  intros kw.
  assert (kw = Py.dict_del "genres" (Py.dict_del "user" vd)
               ++ [("user"%string, FUser u)]) as ->.
  { unfold kw, Serializers.save_kwargs, Py.dict_set. simpl.
    unfold Py.dict_del at 1. by rewrite filter_app. }
  split; [apply dict_get_snoc|].
  intros kv [Hin|Hin]%elem_of_app Hkey.
  - apply elem_of_dict_del in Hin as [_ Hin].
    by apply elem_of_dict_del in Hin as [? _].
  - by apply list_elem_of_singleton in Hin as ->.
Qed.

Lemma serializers_create_inv u db0 db vd :
  step_inv u db0 db →
  step_inv u db0
    (Serializers.create u
       (Serializers.save_kwargs vd [("user"%string, FUser u)]) db).2.
Proof.
  intros Hinv. unfold Serializers.create, Py.dict_pop.
  destruct (create_kwargs_user u vd) as [Hget Hall].
  set (kw' := Py.dict_del "genres" _) in *.
  set (ds := match Py.dict_get "genres" _ with
             | Some (FGenres ds) => ds
             | _ => []
             end).
  clearbody kw' ds.
  rewrite bind_run. unfold Serializers.movie_create. rewrite Hget.
  destruct (Py.dict_get "running_time_minutes" kw') as [[]|]; try done.
  rewrite bind_run.
  match goal with
    |- context [Serializers.pre_save (Serializers.setattrs kw' ?row) db] =>
      destruct (pre_save_full (Serializers.setattrs kw' row) db) as [c ->];
      pose proof (setattrs_user_to u kw' row Hall eq_refl) as Hux
  end.
  rewrite bind_run. unfold get_db at 1. rewrite bind_run. unfold put_db at 1.
  unfold ret at 1. rewrite bind_run. simpl.
  match goal with
    |- context [Serializers._get_or_create_genres u ds ?k ?d] =>
      match d with
      | MkDB (<[?k := ?m]> _) _ _ _ _ _ =>
          assert (step_inv u db0 (Serializers._get_or_create_genres u ds k d).2)
            as Hfin;
          [apply (reconcile_step_inv u db0 k m);
           [apply step_inv_movie_new; [done|intros f; apply saved_image_stored]
           |simpl; by rewrite lookup_insert_eq|done]|];
          by destruct (Serializers._get_or_create_genres u ds k d) as [[[]|?] ?]
      end
  end.
Qed.

End step_operations.

Lemma bind_inv {A B} (P : DB → Prop) (m : M A) (f : A → M B) db :
  P (m db).2 →
  (∀ a db', m db = (Ok a, db') → P db' → P (f a db').2) →
  P (bind m f db).2.
Proof.
  intros H1 H2. rewrite bind_run.
  destruct (m db) as [[a|e] db'] eqn:E; [by apply H2|done].
Qed.

Section step_views.
Context `{!Framework}.

Lemma is_valid_inv validated vd db db' :
  is_valid validated db = (Ok vd, db') → validated = Some vd ∧ db' = db.
Proof. unfold is_valid. destruct validated; intros [= <- <-]; done. Qed.

Lemma is_valid_state validated db : (is_valid validated db).2 = db.
Proof. by destruct validated. Qed.

Lemma genre_get_object_state u pk db :
  (GenreViewSet.get_object u pk db).2 = db.
Proof.
  unfold GenreViewSet.get_object, GenreViewSet.get_queryset.
  rewrite !bind_run. unfold get_db, ret. simpl.
  destruct (Py.int pk); [apply orm_get_state|done].
Qed.

Lemma genre_get_object_inv u pk db r db' :
  GenreViewSet.get_object u pk db = (Ok r, db') →
  db' = db ∧ Py.int pk = Some r.1 ∧ genres db !! r.1 = Some r.2 ∧
  Genre.user r.2 = u.
Proof.
  unfold GenreViewSet.get_object, GenreViewSet.get_queryset.
  rewrite !bind_run. unfold get_db, ret. simpl.
  destruct (Py.int pk) as [k|]; [|done]. intros Hg.
  apply orm_get_inv in Hg as (-> & Hin & <-).
  unfold Orm.order_by_name_desc, Orm.filter_genre_user in Hin.
  rewrite merge_sort_Permutation, list_elem_of_filter, elem_of_all in Hin.
  by destruct Hin.
Qed.

(** Validated data of the image serializer has no [user] key either. *)
Lemma image_validated_no_user partial data vd kv :
  Serializers.to_internal_value partial
    Serializers.RecipeImageSerializer_fields data = Some vd →
  kv ∈ vd → kv.1 ≠ "user"%string.
Proof.
  intros Hv Hin.
  destruct (to_internal_value_keys _ _ _ _ _ Hv Hin) as (f & Hf & _ & ->).
  unfold Serializers.RecipeImageSerializer_fields in Hf.
  repeat (apply elem_of_cons in Hf as [->|Hf]; [done|]).
  by apply not_elem_of_nil in Hf.
Qed.

(** Every view keeps the state consistent and leaves alone what belongs to
    other users. *)
Lemma view_inv v a u req pk db0 db :
  step_inv u db0 db → step_inv u db0 (Urls.view v a u req pk db).2.
Proof.
  intros Hinv. destruct v, a; simpl.
  - (* list *)
    unfold MovieViewSet.list. apply bind_inv; [|done].
    by rewrite get_queryset_state.
  - (* create *)
    unfold MovieViewSet.create. apply bind_inv; [by rewrite is_valid_state|].
    intros vd db' [_ ->]%is_valid_inv _. apply bind_inv; [|done].
    by apply serializers_create_inv.
  - (* retrieve *)
    unfold MovieViewSet.retrieve. apply bind_inv; [|done].
    by rewrite get_object_state.
  - (* update *)
    unfold MovieViewSet.update. apply bind_inv; [by rewrite get_object_state|].
    intros inst db' (-> & _ & Hk & Hu)%get_object_inv _.
    apply bind_inv; [by rewrite is_valid_state|].
    intros vd db' [Hv ->]%is_valid_inv _. apply bind_inv; [|done].
    apply serializers_update_inv; [done..|].
    intros kv Hkv. by apply (movie_validated_no_user _ _ _ _ Hv Hkv).
  - (* partial update *)
    unfold MovieViewSet.update. apply bind_inv; [by rewrite get_object_state|].
    intros inst db' (-> & _ & Hk & Hu)%get_object_inv _.
    apply bind_inv; [by rewrite is_valid_state|].
    intros vd db' [Hv ->]%is_valid_inv _. apply bind_inv; [|done].
    apply serializers_update_inv; [done..|].
    intros kv Hkv. by apply (movie_validated_no_user _ _ _ _ Hv Hkv).
  - (* destroy *)
    unfold MovieViewSet.destroy. apply bind_inv; [by rewrite get_object_state|].
    intros inst db' (-> & _ & Hk & Hu)%get_object_inv _.
    unfold get_db, put_db, ret. rewrite !bind_run. simpl.
    by apply (step_inv_movie_delete u db0 db inst.1 inst.2).
  - (* upload image *)
    unfold MovieViewSet.upload_image.
    apply bind_inv; [by rewrite get_object_state|].
    intros inst db' (-> & _ & Hk & Hu)%get_object_inv _.
    destruct (Serializers.to_internal_value _ _ _) as [vd|] eqn:Hv; [|done].
    apply bind_inv; [|done].
    apply (movie_save_inv u db0 db inst.1 inst.2); [done..|].
    rewrite setattrs_user; [done|].
    intros kv Hkv. by apply (image_validated_no_user _ _ _ _ Hv Hkv).
  - (* genre list *)
    done.
  - done.
  - done.
  - (* genre update *)
    unfold GenreViewSet.update.
    apply bind_inv; [by rewrite genre_get_object_state|].
    intros inst db' (-> & _ & Hk & Hu)%genre_get_object_inv _.
    apply bind_inv; [by rewrite is_valid_state|].
    intros vd db' [Hv ->]%is_valid_inv _. apply bind_inv; [|done].
    unfold Serializers.genre_update, get_db, put_db, ret. rewrite !bind_run.
    simpl. destruct inst as [k [nm gu]]. simpl in *. subst gu.
    destruct (Py.dict_get "name" vd) as [[]|];
      by apply (step_inv_genre_set u db0 db k (Genre.Build nm u)).
  - (* genre partial update *)
    unfold GenreViewSet.update.
    apply bind_inv; [by rewrite genre_get_object_state|].
    intros inst db' (-> & _ & Hk & Hu)%genre_get_object_inv _.
    apply bind_inv; [by rewrite is_valid_state|].
    intros vd db' [Hv ->]%is_valid_inv _. apply bind_inv; [|done].
    unfold Serializers.genre_update, get_db, put_db, ret. rewrite !bind_run.
    simpl. destruct inst as [k [nm gu]]. simpl in *. subst gu.
    destruct (Py.dict_get "name" vd) as [[]|];
      by apply (step_inv_genre_set u db0 db k (Genre.Build nm u)).
  - (* genre destroy *)
    unfold GenreViewSet.destroy.
    apply bind_inv; [by rewrite genre_get_object_state|].
    intros inst db' (-> & _ & Hk & Hu)%genre_get_object_inv _.
    unfold get_db, put_db, ret. rewrite !bind_run. simpl.
    by apply (step_inv_genre_delete u db0 db inst.1 inst.2).
  - done.
Qed.

Lemma run_view_state (m : M response) db : (run_view m db).2 = (m db).2.
Proof. unfold run_view. by destruct (m db) as [[?|?] ?]. Qed.

Lemma handle_inv req db u :
  db_consistent db → user req = Some u → step_inv u db (Urls.handle req db).2.
Proof.
  intros Hc Hu. unfold Urls.handle. rewrite Hu.
  destruct (Urls.resolve (path req)) as [[v r]|]; [|by apply step_inv_start].
  destruct (Urls.action_of v r (method req)) as [a|];
    [|by apply step_inv_start].
  rewrite run_view_state. by apply view_inv, step_inv_start.
Qed.

Lemma handle_consistent req db :
  db_consistent db → db_consistent (Urls.handle req db).2.
Proof.
  intros Hc. destruct (user req) as [u|] eqn:Hu.
  - by destruct (handle_inv req db u Hc Hu).
  - unfold Urls.handle. rewrite Hu.
    by destruct (Urls.resolve (path req)) as [[v r]|].
Qed.

Lemma empty_db_consistent : db_consistent empty_db.
Proof.
  unfold db_consistent, genres_wf, empty_db. simpl.
  split; [|split; [|split]].
  - intros k [x Hx]. by rewrite lookup_empty in Hx.
  - intros k [x Hx]. by rewrite lookup_empty in Hx.
  - intros m g Hin. by apply not_elem_of_empty in Hin.
  - intros k m f Hk. by rewrite lookup_empty in Hk.
Qed.

Lemma run_requests_consistent reqs db :
  db_consistent db → db_consistent (run_requests reqs db).
Proof.
  unfold run_requests. revert db.
  induction reqs as [|r reqs IH]; intros db Hc; [done|].
  simpl. by apply IH, handle_consistent.
Qed.

End step_views.

(** X1: every request, whatever its method, path, user and payload, takes a
    consistent state to a consistent state; so every state reached from the
    empty database by requests is consistent: keys lie below the counters,
    every attachment joins an existing movie to an existing genre of the same
    owner, and no stored movie holds an unsaved upload. *)
Theorem requests_keep_consistency `{!Framework} :
  (∀ req db, db_consistent db → db_consistent (Urls.handle req db).2) ∧
  (∀ reqs, db_consistent (run_requests reqs empty_db)).
Proof.
  split; [intros req db; apply handle_consistent|].
  intros reqs. apply run_requests_consistent, empty_db_consistent.
Qed.

(** X2: a request of user [u] on a consistent state leaves every movie and
    every genre of any other user exactly as it was, and removes no genre
    from a movie of another user. *)
Theorem request_keeps_others `{!Framework} (u : Z) (req : request) (db : DB) :
  db_consistent db → user req = Some u →
  kept_for_others u db (Urls.handle req db).2.
Proof. intros Hc Hu. by destruct (handle_inv req db u Hc Hu). Qed.

(** X3: a GET request never writes: whatever its path, user and parameters,
    and whether it succeeds or fails, the database after it is the database
    before it. *)
Theorem get_requests_read_only `{!Framework} (req : request) (db : DB) :
  method req = GET → (Urls.handle req db).2 = db.
Proof.
  intros Hm. unfold Urls.handle. rewrite Hm.
  destruct (Urls.resolve (path req)) as [[v r]|]; [|done].
  destruct (user req) as [u|]; [|done].
  destruct v, r; simpl; try done; rewrite run_view_state.
  - unfold MovieViewSet.list. rewrite bind_run.
    pose proof (get_queryset_state u req db) as Hq.
    by destruct (MovieViewSet.get_queryset u req db) as [[?|?] ?].
  - unfold MovieViewSet.retrieve. rewrite bind_run.
    pose proof (get_object_state u req pk db) as Hq.
    by destruct (MovieViewSet.get_object u req pk db) as [[?|?] ?].
Qed.

(** ** The order of the movie list *)

#[global] Instance id_desc_total {T} : Total (@Orm.id_desc T).
Proof. intros x y. unfold Orm.id_desc. lia. Qed.

#[global] Instance id_desc_trans {T} : Transitive (@Orm.id_desc T).
Proof. intros x y z. unfold Orm.id_desc. lia. Qed.

Lemma StronglySorted_remove_dups {A} `{EqDecision A} (R : relation A) l :
  StronglySorted R l → StronglySorted R (remove_dups l).
Proof.
  induction 1 as [|x l Hs IH Hall]; simpl; [constructor|].
  case_match; [done|]. constructor; [done|].
  apply Forall_forall. intros y Hy. rewrite elem_of_remove_dups in Hy.
  by apply (proj1 (Forall_forall _ _) Hall).
Qed.

Lemma StronglySorted_strict {T} (l : list (Z * T)) :
  StronglySorted Orm.id_desc l → NoDup l.*1 →
  StronglySorted (λ x y, y.1 < x.1) l.
Proof.
  induction 1 as [|x l Hs IH Hall]; intros Hnd; [constructor|].
  rewrite fmap_cons in Hnd. apply NoDup_cons in Hnd as [Hx Hnd].
  constructor; [by apply IH|].
  apply Forall_forall. intros y Hy.
  pose proof (proj1 (Forall_forall _ _) Hall y Hy) as Hle.
  unfold Orm.id_desc in Hle.
  assert (y.1 ≠ x.1); [|lia].
  intros Heq. apply Hx. rewrite <-Heq. by apply list_elem_of_fmap_2.
Qed.

(** X4: whatever the filter, the movies of a listing come in strictly
    descending order of their keys. *)
Theorem movie_list_descending `{!Framework} (u : Z) (req : request)
    (db db' : DB) (l : list (Z * Movie.t)) :
  MovieViewSet.list u req db = (Ok (Response 200 (Movies l)), db') →
  StronglySorted (λ x y, y.1 < x.1) l.
Proof.
  unfold MovieViewSet.list. rewrite bind_run. intros Hl.
  destruct (MovieViewSet.get_queryset u req db) as [[l'|e] db1] eqn:Hq;
    [|done].
  unfold ret in Hl. injection Hl as -> _.
  pose proof (get_queryset_sound u req db l db1 Hq) as (-> & Hnd & Hown).
  apply StronglySorted_strict;
    [|apply (NoDup_keys (movies db)); [done|intros r Hr; by apply Hown]].
  assert (∃ qs, l = Orm.distinct (Orm.order_by_id_desc qs)) as [qs ->].
  { destruct (decide (genres_filter_ok req)) as [Hok|Hbad].
    - unfold genres_filter_ok in Hok.
      destruct (Py.dict_get "genres" (query_params req)) as [[|c s]|] eqn:Hg.
      + rewrite get_queryset_no_filter in Hq by auto. simplify_eq. eauto.
      + destruct Hok as [ids Hids].
        rewrite (get_queryset_filter u req db _ ids) in Hq by done.
        simplify_eq. eauto.
      + rewrite get_queryset_no_filter in Hq by auto. simplify_eq. eauto.
    - by rewrite genres_filter_bad_queryset in Hq. }
  apply StronglySorted_remove_dups, StronglySorted_merge_sort; apply _.
Qed.

(** ** The user's own movie *)

Section own_movie.
Context `{!Framework}.

Lemma get_queryset_keys u req db l :
  MovieViewSet.get_queryset u req db = (Ok l, db) → NoDup l.*1.
Proof.
  intros Hq. apply get_queryset_sound in Hq as (_ & Hnd & Hown).
  apply (NoDup_keys (movies db)); [done|]. intros r Hr. by apply Hown.
Qed.

(** Without a genre filter the user's movie is found. *)
Lemma get_object_own u req pk db k m :
  Py.dict_get "genres" (query_params req) = None ∨
  Py.dict_get "genres" (query_params req) = Some EmptyString →
  Py.int pk = Some k → movies db !! k = Some m → Movie.user m = u →
  MovieViewSet.get_object u req pk db = (Ok (k, m), db).
Proof.
  intros Hg Hpk Hk Hu. unfold MovieViewSet.get_object. rewrite bind_run.
  pose proof (get_queryset_no_filter u req db Hg) as Hq. rewrite Hq, Hpk.
  apply orm_get_found; [by eapply get_queryset_keys|].
  unfold Orm.distinct, Orm.filter_movie_user.
  by rewrite elem_of_remove_dups, elem_of_order_by_id_desc, list_elem_of_filter,
    elem_of_all.
Qed.

(** With a genre filter it is found when it has one of the genres, and is
    reported as not found when it has none of them. *)
Lemma get_object_own_filtered u req pk db k m s ids :
  Py.dict_get "genres" (query_params req) = Some s →
  mapM Py.int (Py.split "," s) = Some ids →
  Py.int pk = Some k → movies db !! k = Some m → Movie.user m = u →
  MovieViewSet.get_object u req pk db
  = if decide (Exists (λ g, (k, g) ∈ movie_genres db) ids)
    then (Ok (k, m), db) else (Raise Py.Http404, db).
Proof.
  intros Hg Hids Hpk Hk Hu. unfold MovieViewSet.get_object. rewrite bind_run.
  assert (s ≠ EmptyString) as Hs by (by intros ->).
  pose proof (get_queryset_filter u req db s ids Hg Hs Hids) as Hq.
  rewrite Hq, Hpk.
  assert (∀ x, (k, x) ∈ Orm.distinct (Orm.order_by_id_desc
                 (Orm.filter_movie_user u
                    (Orm.filter_genres_id_in (movie_genres db) ids
                       (Orm.all (movies db))))) ↔
               x = m ∧ ∃ g, g ∈ ids ∧ (k, g) ∈ movie_genres db) as Hmem.
  { intros x. unfold Orm.distinct, Orm.filter_movie_user.
    rewrite elem_of_remove_dups, elem_of_order_by_id_desc, list_elem_of_filter,
      elem_of_filter_genres_id_in, elem_of_all. simpl. split.
    - intros (Hx & Hkx & Hgs). split; [congruence|done].
    - intros [-> Hgs]. done. }
  case_decide as Hd.
  - apply orm_get_found; [by eapply get_queryset_keys|]. apply Hmem.
    split; [done|]. apply Exists_exists in Hd as (g & ? & ?). eauto.
  - apply orm_get_missing. intros x [_ (g & ? & ?)]%Hmem.
    apply Hd, Exists_exists. eauto.
Qed.

End own_movie.

(** X5: the detail of the user's own movie requested with a genre filter is
    found (status 200) exactly when the movie has one of the listed genres;
    when it has none of them the answer is 404 although the movie exists and
    is the user's.  Without the filter it is always found. *)
Theorem movie_detail_with_filter `{!Framework} (u : Z) (req : request)
    (pk : string) (db : DB) (k : Z) (m : Movie.t) :
  Py.int pk = Some k → movies db !! k = Some m → Movie.user m = u →
  (Py.dict_get "genres" (query_params req) = None →
   run_view (MovieViewSet.retrieve u req pk) db
   = (Response 200 (MovieObj (k, m)), db)) ∧
  (∀ s ids, Py.dict_get "genres" (query_params req) = Some s →
            mapM Py.int (Py.split "," s) = Some ids →
            run_view (MovieViewSet.retrieve u req pk) db
            = if decide (Exists (λ g, (k, g) ∈ movie_genres db) ids)
              then (Response 200 (MovieObj (k, m)), db)
              else (Response 404 Errors, db)).
Proof.
  intros Hpk Hk Hu. split.
  - intros Hg. unfold run_view, MovieViewSet.retrieve. rewrite bind_run.
    by rewrite (get_object_own u req pk db k m) by auto.
  - intros s ids Hg Hids. unfold run_view, MovieViewSet.retrieve.
    rewrite bind_run.
    rewrite (get_object_own_filtered u req pk db k m s ids) by done.
    by case_decide.
Qed.

(** ** Deleting a movie and uploading its image *)

(** X6: deleting the user's own movie, requested without a [genres] query
    parameter, answers 204, removes the movie and its rows of the junction
    table and nothing else: the other movies, all genres and the genres of
    the other movies stay; the movie is then no longer found. *)
Theorem movie_destroy_own `{!Framework} (u : Z) (req : request) (pk : string)
    (db : DB) (k : Z) (m : Movie.t) :
  Py.dict_get "genres" (query_params req) = None →
  Py.int pk = Some k → movies db !! k = Some m → Movie.user m = u →
  ∃ db', run_view (MovieViewSet.destroy u req pk) db
         = (Response 204 NoBody, db') ∧
         movies db' = delete k (movies db) ∧ genres db' = genres db ∧
         (∀ j, j ∈ movie_genres db' ↔ j ∈ movie_genres db ∧ j.1 ≠ k) ∧
         run_view (MovieViewSet.retrieve u req pk) db'
         = (Response 404 Errors, db').
Proof.
  intros Hg Hpk Hk Hu. eexists. split; [|split; [|split; [|split]]].
  - unfold run_view, MovieViewSet.destroy. rewrite bind_run.
    rewrite (get_object_own u req pk db k m) by auto.
    unfold get_db, put_db, ret. rewrite !bind_run. reflexivity.
  - done.
  - done.
  - intros j. simpl. rewrite elem_of_filter. tauto.
  - unfold run_view, MovieViewSet.retrieve. rewrite bind_run.
    rewrite get_object_not_own.
    + rewrite decide_True; [done|]. unfold genres_filter_ok. by rewrite Hg.
    + intros k' m' Hk'. simpl. assert (k' = k) as -> by congruence.
      by rewrite lookup_delete_eq.
Qed.

(** X7: an upload for the user's own movie, requested without a [genres]
    query parameter.  A payload without the [image] key, or with a value that is no image, is answered with 400 and changes
    nothing.  A valid image is answered with 200: the movie gets the path
    generated from fresh random bytes and the name of the upload, its other
    columns, the other movies, the genres and the junction table stay; a
    null value clears the image. *)
Theorem upload_image_own `{!Framework} (u : Z) (req : request) (pk : string)
    (db : DB) (k : Z) (m : Movie.t) :
  Py.dict_get "genres" (query_params req) = None →
  Py.int pk = Some k → movies db !! k = Some m → Movie.user m = u →
  run_view (MovieViewSet.upload_image u req pk) db
  = match Py.dict_get "image" (data req) with
    | None => (Response 400 Errors, db)
    | Some VNull =>
        let m' := Serializers.setattr "image" (FImage NoImage) m in
        (Response 200 (MovieObj (k, m')),
         MkDB (<[k := m']> (movies db)) (genres db) (movie_genres db)
              (movie_seq db) (genre_seq db) (urandom_calls db))
    | Some v =>
        match ImageField v with
        | Some f =>
            let path :=
              movie_image_file_path (urandom (urandom_calls db)) f in
            let m' := Serializers.setattr "image" (FImage (Stored path)) m in
            (Response 200 (MovieObj (k, m')),
             MkDB (<[k := m']> (movies db)) (genres db) (movie_genres db)
                  (movie_seq db) (genre_seq db) (S (urandom_calls db)))
        | None => (Response 400 Errors, db)
        end
    end.
Proof.
  intros Hg Hpk Hk Hu. unfold run_view, MovieViewSet.upload_image.
  rewrite bind_run. rewrite (get_object_own u req pk db k m) by auto.
  unfold MovieViewSet.get_serializer_class,
    Serializers.RecipeImageSerializer_fields, Serializers.to_internal_value,
    Serializers.run_validation. simpl.
  destruct m as [mu mt md mr mrd ma ml mi].
  destruct (Py.dict_get "image" (data req)) as [v|]; [|done].
  destruct v; simpl; try (destruct (ImageField _) as [f|]; simpl; [|done]);
    reflexivity.
Qed.

(** ** The user's own genre *)

Lemma genre_get_object_own `{!Framework} u pk db k g :
  Py.int pk = Some k → genres db !! k = Some g → Genre.user g = u →
  GenreViewSet.get_object u pk db = (Ok (k, g), db).
Proof.
  intros Hpk Hk Hu. unfold GenreViewSet.get_object, GenreViewSet.get_queryset.
  rewrite !bind_run. unfold get_db, ret. simpl. rewrite Hpk.
  assert (∀ r, r ∈ Orm.order_by_name_desc
                 (Orm.filter_genre_user u (Orm.all (genres db))) ↔
               genres db !! r.1 = Some r.2 ∧ Genre.user r.2 = u) as Hmem.
  { intros r. unfold Orm.order_by_name_desc, Orm.filter_genre_user.
    rewrite merge_sort_Permutation, list_elem_of_filter, elem_of_all. tauto. }
  apply orm_get_found; [|by apply Hmem].
  apply (NoDup_keys (genres db)); [|intros r Hr; by apply Hmem].
  unfold Orm.order_by_name_desc. rewrite merge_sort_Permutation.
  apply NoDup_filter, NoDup_map_to_list.
Qed.

(** X8: deleting the user's own genre answers 204, removes the genre and
    detaches it from every movie, and nothing else: all movies, the other
    genres and the other attachments stay; the genre is then no longer
    found. *)
Theorem genre_destroy_own `{!Framework} (u : Z) (req : request) (pk : string)
    (db : DB) (k : Z) (g : Genre.t) :
  Py.int pk = Some k → genres db !! k = Some g → Genre.user g = u →
  ∃ db', run_view (GenreViewSet.destroy u pk) db
         = (Response 204 NoBody, db') ∧
         genres db' = delete k (genres db) ∧ movies db' = movies db ∧
         (∀ j, j ∈ movie_genres db' ↔ j ∈ movie_genres db ∧ j.2 ≠ k) ∧
         run_view (GenreViewSet.update true u req pk) db'
         = (Response 404 Errors, db').
Proof.
  intros Hpk Hk Hu. eexists. split; [|split; [|split; [|split]]].
  - unfold run_view, GenreViewSet.destroy. rewrite bind_run.
    rewrite (genre_get_object_own u pk db k g) by done.
    unfold get_db, put_db, ret. rewrite !bind_run. reflexivity.
  - done.
  - done.
  - intros j. simpl. rewrite elem_of_filter. tauto.
  - unfold run_view, GenreViewSet.update. rewrite bind_run.
    match goal with |- context [GenreViewSet.get_object u pk ?d] =>
      assert (GenreViewSet.get_object u pk d = (Raise Py.Http404, d)) as ->;
        [|done]
    end.
    unfold GenreViewSet.get_object, GenreViewSet.get_queryset.
    rewrite !bind_run. unfold get_db, ret. simpl. rewrite Hpk.
    apply orm_get_missing. intros x.
    unfold Orm.order_by_name_desc, Orm.filter_genre_user.
    rewrite merge_sort_Permutation, list_elem_of_filter, elem_of_all. simpl.
    rewrite lookup_delete_eq. by intros [_ ?].
Qed.

(** X9: an update of the user's own genre.  With a valid [name] the answer
    is 200 and the name is replaced, the key and the owner of the genre, all
    attachments and everything else staying as they are; any [id] or [user]
    in the payload is ignored.  A partial update without [name] answers 200
    and changes nothing; a full update without [name], or any update with a
    null or invalid name, answers 400 and changes nothing. *)
Theorem genre_update_own `{!Framework} (partial : bool) (u : Z) (req : request)
    (pk : string) (db : DB) (k : Z) (g : Genre.t) :
  Py.int pk = Some k → genres db !! k = Some g → Genre.user g = u →
  run_view (GenreViewSet.update partial u req pk) db
  = match Py.dict_get "name" (data req) with
    | None => if partial then (Response 200 (GenreObj (k, g)), db)
              else (Response 400 Errors, db)
    | Some VNull => (Response 400 Errors, db)
    | Some v =>
        match CharField (Some 255%nat) false v with
        | Some s =>
            (Response 200 (GenreObj (k, Genre.Build s u)),
             MkDB (movies db) (<[k := Genre.Build s u]> (genres db))
                  (movie_genres db) (movie_seq db) (genre_seq db)
                  (urandom_calls db))
        | None => (Response 400 Errors, db)
        end
    end.
Proof.
  intros Hpk Hk Hu. unfold run_view, GenreViewSet.update. rewrite bind_run.
  rewrite (genre_get_object_own u pk db k g) by done.
  unfold Serializers.GenreSerializer_fields, Serializers.to_internal_value,
    Serializers.run_validation. simpl.
  destruct (Py.dict_get "name" (data req)) as [v|].
  - destruct v; simpl; try done;
      (destruct (CharField _ _ _) as [nm|]; simpl; [|done]);
      by rewrite Hu.
  - destruct partial; simpl; [|done].
    rewrite insert_id by done. by destruct db.
Qed.

(** ** Creating a movie: required fields *)

Lemma to_internal_value_fails `{!Framework} partial fields data f :
  f ∈ fields → Serializers.run_validation partial f data = None →
  Serializers.to_internal_value partial fields data = None.
Proof.
  induction fields as [|f' fs IH]; intros Hin Hf.
  { by apply not_elem_of_nil in Hin. }
  simpl. apply elem_of_cons in Hin as [->|Hin].
  - by rewrite Hf.
  - rewrite IH by done. by destruct (Serializers.run_validation partial f' data).
Qed.

(** X10: a create request whose payload lacks [title] or
    [running_time_minutes], or gives one of them as null, is answered with
    400 and nothing is written, whatever else the payload holds. *)
Theorem movie_create_requires_fields `{!Framework} (u : Z) (req : request)
    (db : DB) (key : string) :
  key = "title"%string ∨ key = "running_time_minutes"%string →
  Py.dict_get key (data req) = None ∨ Py.dict_get key (data req) = Some VNull →
  run_view (MovieViewSet.create u req) db = (Response 400 Errors, db).
Proof.
  intros Hkey Hval. unfold run_view, MovieViewSet.create. rewrite bind_run.
  assert (Serializers.to_internal_value false
            (MovieViewSet.get_serializer_class create_) (data req) = None)
    as ->; [|done].
  destruct Hkey as [-> | ->].
  - apply (to_internal_value_fails _ _ _
             (Field "title" (TChar (Some 255%nat) false) true false false)).
    + right. left.
    + unfold Serializers.run_validation. simpl. by destruct Hval as [-> | ->].
  - apply (to_internal_value_fails _ _ _
             (Field "running_time_minutes" TInteger true false false)).
    + right. right. left.
    + unfold Serializers.run_validation. simpl. by destruct Hval as [-> | ->].
Qed.

(** ** Find-or-create-and-attach only adds *)

Lemma only_added_refl u k ds db : only_added u k ds db db.
Proof.
  split; [done|]. split; [by left|]. split; [done|]. split; [by left|done].
Qed.

(** One step of the loop: the genre found or created for a descriptor. *)
Lemma get_or_create_step u d db g db0 :
  genres_wf db → Orm.genre_get_or_create u d db = (Ok g, db0) →
  genres_wf db0 ∧ movies db0 = movies db ∧ movie_seq db0 = movie_seq db ∧
  movie_genres db0 = movie_genres db ∧
  genres db0 !! g.1 = Some g.2 ∧ Orm.genre_matches u d g ∧
  (∀ x row, genres db !! x = Some row → genres db0 !! x = Some row) ∧
  (∀ x row, genres db0 !! x = Some row →
            genres db !! x = Some row ∨
            (x = g.1 ∧ row = g.2 ∧ Genre.name row = default EmptyString d ∧
             ∀ y, genres db !! y.1 = Some y.2 → ¬ Orm.genre_matches u d y)).
Proof.
  intros Hwf Hgoc.
  pose proof (get_or_create_ok u d db g db0 Hgoc) as (Hg & Hrel & _).
  destruct (Hg g) as [_ [Hgrow Hgm]]; [done|].
  unfold Orm.genre_get_or_create in Hgoc.
  destruct (filter _ _) as [|r [|r' t]] eqn:Hf; [| |done].
  - unfold Orm.genre_create in Hgoc. injection Hgoc as <- <-. simpl in *.
    assert (genres db !! genre_seq db = None) as Hfresh.
    { destruct (genres db !! genre_seq db) eqn:E; [|done].
      specialize (Hwf _ (mk_is_Some _ _ E)). lia. }
    split.
    { intros x Hx. simpl in *. destruct (decide (x = genre_seq db)) as [->|Hne];
        [lia|]. rewrite lookup_insert_ne in Hx by done.
      specialize (Hwf x Hx). lia. }
    do 5 (split; [done|]). split.
    + intros x row Hx. rewrite lookup_insert_ne; [done|]. congruence.
    + intros x row Hx. destruct (decide (x = genre_seq db)) as [->|Hne].
      * rewrite lookup_insert_eq in Hx. injection Hx as <-. right.
        do 3 (split; [done|]). intros y Hy Hmy.
        assert (y ∈ filter (Orm.genre_matches u d) (Orm.all (genres db)))
          as Hin by by apply elem_of_matching.
        rewrite Hf in Hin. by apply not_elem_of_nil in Hin.
      * rewrite lookup_insert_ne in Hx by done. by left.
  - injection Hgoc as <- <-. do 7 (split; [done|]). by left.
Qed.

Section reconcile_grows.
Context `{!Framework}.

Lemma reconcile_grows u k ds :
  ∀ db, genres_wf db →
    genres_wf (Serializers._get_or_create_genres u ds k db).2 ∧
    only_added u k ds db (Serializers._get_or_create_genres u ds k db).2 ∧
    (unique_names u db →
     unique_names u (Serializers._get_or_create_genres u ds k db).2) ∧
    ((Serializers._get_or_create_genres u ds k db).1 = Ok tt →
     ∀ d, d ∈ ds →
          ∃ g row, genres (Serializers._get_or_create_genres u ds k db).2 !! g
                     = Some row ∧
                   Orm.genre_matches u d (g, row) ∧
                   (k, g) ∈ movie_genres
                              (Serializers._get_or_create_genres u ds k db).2).
Proof.
  unfold Serializers._get_or_create_genres.
  induction ds as [|d ds IH]; intros db Hwf; simpl.
  { split; [done|]. split; [apply only_added_refl|]. split; [done|].
    intros _ d Hd. by apply not_elem_of_nil in Hd. }
  rewrite !bind_run.
  destruct (Orm.genre_get_or_create u d db) as [[g|e] db0] eqn:Hgoc.
  2:{ simpl. assert (db0 = db) as ->.
      { unfold Orm.genre_get_or_create in Hgoc.
        by destruct (filter _ _) as [|? [|? ?]]; simplify_eq. }
      split; [done|]. split; [apply only_added_refl|]. by split. }
  destruct (get_or_create_step u d db g db0 Hwf Hgoc)
    as (Hwf0 & Hm0 & Hs0 & Hj0 & Hgrow & Hgm & Hkeep & Hnew).
  unfold Orm.genres_add. simpl.
  match goal with |- context [for_each ds ?body ?d1] =>
    set (db1 := d1); specialize (IH db1) end.
  destruct (IH Hwf0) as (Hwf2 & (Ha & Hb & Hc & Hd & He & Hf) & Hun & Hok).
  clear IH.
  match goal with |- context [for_each ds ?body db1] =>
    set (r := for_each ds body db1) in * end.
  split; [done|]. split; [|split].
  - split; [|split; [|split; [|split; [|split]]]].
    + intros x row Hx. by apply Ha, Hkeep.
    + intros x row Hx.
      destruct (Hb x row Hx) as [Hold|(Hu & [d' [Hd' Hn]] & Hfresh)].
      * destruct (Hnew x row Hold) as [?|(-> & -> & Hname & Hno)]; [by left|].
        right. split; [by destruct Hgm|]. split; [exists d; split; [left|done]|].
        intros g0 row0 Hg0 Hu0 Heq.
        apply (Hno (g0, row0)); [done|]. split; [done|].
        destruct d; simpl in *; [congruence|done].
      * right. split; [done|]. split; [exists d'; split; [by right|done]|].
        intros g0 row0 Hg0 Hu0. apply (Hfresh g0 row0); [|done].
        by apply Hkeep.
    + intros j Hj. apply Hc. unfold db1. simpl. rewrite Hj0.
      by apply elem_of_union_r.
    + intros j Hj. destruct (Hd j Hj) as [Hold|?]; [|by right].
      unfold db1 in Hold. simpl in Hold. rewrite Hj0 in Hold.
      apply elem_of_union in Hold as [->%elem_of_singleton|?]; [|by left].
      right. split; [done|]. exists g.2. split; [by apply Ha|by destruct Hgm].
    + exact (eq_trans He Hm0).
    + exact (eq_trans Hf Hs0).
  - intros Huq. apply Hun. intros g1 g2 r1 r2 H1 H2 Hu1 Hu2 Hn.
    change (genres db1) with (genres db0) in H1, H2.
    destruct (Hnew g1 r1 H1) as [Ho1|(-> & -> & _ & Hno1)];
      destruct (Hnew g2 r2 H2) as [Ho2|(-> & -> & _ & Hno2)];
      [by eapply Huq| | |done].
    + destruct (Hno2 (g1, r1)); [done|]. split; [done|].
      destruct d; simpl in *; [|done]. destruct Hgm as [_ Hgn]. simpl in Hgn.
      congruence.
    + destruct (Hno1 (g2, r2)); [done|]. split; [done|].
      destruct d; simpl in *; [|done]. destruct Hgm as [_ Hgn]. simpl in Hgn.
      congruence.
  - intros Hr d' [->|Hd']%elem_of_cons; [|by apply Hok].
    exists g.1, g.2. split; [by apply Ha|].
    split; [by destruct g|]. apply Hc. unfold db1. simpl.
    by apply elem_of_union_l, elem_of_singleton.
Qed.

End reconcile_grows.

(** X11: find-or-create-and-attach only adds. Whether it ends normally or
    with an exception, every genre record that existed is still there and
    unchanged, every new record belongs to the requesting user and carries the
    name of one of the descriptors, a name none of the user's genres had;
    every new attachment joins the given movie to a genre of the user; the
    movies are untouched; and if the user's genre names were pairwise
    different before, they still are. When it ends normally every descriptor
    has a matching genre of the user attached to the movie. *)
Theorem reconciliation_only_adds `{!Framework} (u k : Z)
    (ds : list (option string)) (db : DB) :
  genres_wf db →
  only_added u k ds db (Serializers._get_or_create_genres u ds k db).2 ∧
  (unique_names u db →
   unique_names u (Serializers._get_or_create_genres u ds k db).2) ∧
  ((Serializers._get_or_create_genres u ds k db).1 = Ok tt →
   ∀ d, d ∈ ds →
        ∃ g row, genres (Serializers._get_or_create_genres u ds k db).2 !! g
                   = Some row ∧
                 Orm.genre_matches u d (g, row) ∧
                 (k, g) ∈ movie_genres
                            (Serializers._get_or_create_genres u ds k db).2).
Proof. intros Hwf. by destruct (reconcile_grows u k ds db Hwf) as (_ & ?). Qed.

(** ** The columns of a movie after an update *)

Lemma getattr_setattr_other attr v a m :
  attr ≠ a → getattr a (Serializers.setattr attr v m) = getattr a m.
Proof.
  intros Hne. unfold Serializers.setattr.
  destruct v; repeat case_match; try reflexivity;
    match goal with H : String.eqb attr _ = true |- _ =>
      apply String.eqb_eq in H; subst attr end;
    unfold getattr; repeat case_match; try reflexivity;
    match goal with H : String.eqb a _ = true |- _ =>
      apply String.eqb_eq in H; subst a end; done.
Qed.

Lemma getattr_setattrs vd a m :
  (∀ kv, kv ∈ vd → column_value kv.1 kv.2) →
  getattr a (Serializers.setattrs vd m)
  = from_option Some (getattr a m) (Py.dict_get a vd).
Proof.
  unfold Serializers.setattrs. revert m.
  induction vd as [|[k v] vd IH]; intros m Hcol; [done|]. simpl.
  rewrite IH by (intros; apply Hcol; by right).
  destruct (Py.dict_get a vd) as [w|]; [done|]. simpl.
  destruct (String.eqb k a) eqn:E.
  - apply String.eqb_eq in E as ->. apply (Hcol (a, v)). left.
  - apply String.eqb_neq in E. by apply getattr_setattr_other.
Qed.

Lemma dict_get_dict_del {V} a k (d : list (string * V)) :
  a ≠ k → Py.dict_get a (Py.dict_del k d) = Py.dict_get a d.
Proof.
  intros Hne. unfold Py.dict_del.
  induction d as [|[k' v] d IH]; [done|]. simpl.
  destruct (decide ((k', v).1 ≠ k)) as [Hk|Hk]; simpl in Hk.
  - rewrite filter_cons_True by done. simpl. by rewrite IH.
  - rewrite filter_cons_False by done. rewrite IH.
    destruct (Py.dict_get a d); [done|].
    destruct (String.eqb k' a) eqn:E; [|done].
    apply String.eqb_eq in E. destruct Hk. congruence.
Qed.

Section columns.
Context `{!Framework}.

Lemma to_internal_value_origin partial fields data vd kv :
  Serializers.to_internal_value partial fields data = Some vd → kv ∈ vd →
  ∃ f, f ∈ fields ∧ Serializers.run_validation partial f data = Some (Some kv).
Proof.
  revert vd. induction fields as [|f fs IH]; intros vd Hv Hin; simpl in Hv.
  { simplify_eq. by apply not_elem_of_nil in Hin. }
  destruct (Serializers.run_validation partial f data) as [r|] eqn:Hr;
    [|done].
  destruct (Serializers.to_internal_value partial fs data) as [rest|];
    [|done].
  simplify_eq. apply elem_of_app in Hin as [Hin|Hin].
  - destruct r as [kv'|]; [|by apply not_elem_of_nil in Hin].
    apply list_elem_of_singleton in Hin as ->. exists f. split; [left|done].
  - destruct (IH rest eq_refl Hin) as (f' & ? & ?).
    exists f'. split; [by right|done].
Qed.

Lemma run_validation_type partial f data kv :
  Serializers.run_validation partial f data = Some (Some kv) →
  kv.1 = field_name f ∧ has_type (field_ty f) kv.2 ∧
  Py.dict_get (field_name f) data ≠ None.
Proof.
  unfold Serializers.run_validation.
  destruct (read_only f); [done|].
  destruct (Py.dict_get (field_name f) data) as [v|].
  2:{ destruct partial; [done|]. by destruct (required f). }
  assert (∀ o : option field_value,
            (∀ x, o = Some x → has_type (field_ty f) x) →
            (λ x, Some (field_name f, x)) <$> o = Some (Some kv) →
            kv.1 = field_name f ∧ has_type (field_ty f) kv.2 ∧
            Some v ≠ None) as Hgen.
  { intros [x|] Hx; [|done]. intros [= <-]. simpl. by auto. }
  assert (∀ x, Serializers.field_to_internal partial (field_ty f) v = Some x →
               has_type (field_ty f) x) as Hty.
  { intros x. unfold Serializers.field_to_internal.
    destruct (field_ty f); simpl.
    - by destruct (CharField _ _ _); intros [= <-].
    - by destruct (IntegerField _); intros [= <-].
    - by destruct (DateField _); intros [= <-].
    - by destruct (ImageField _); intros [= <-].
    - destruct v; try done. by destruct (mapM _ _); intros [= <-]. }
  destruct v; try (by apply Hgen).
  destruct (allow_null f); [|done]. apply Hgen.
  intros x. by destruct (field_ty f); intros [= <-].
Qed.

(** A key the payload lacks is not in the validated data. *)
Lemma to_internal_value_absent partial fields data vd a :
  Serializers.to_internal_value partial fields data = Some vd →
  Py.dict_get a data = None → Py.dict_get a vd = None.
Proof.
  intros Hv Ha. destruct (Py.dict_get a vd) as [v|] eqn:Hget; [|done].
  apply dict_get_elem in Hget.
  destruct (to_internal_value_origin _ _ _ _ _ Hv Hget) as (f & _ & Hr).
  apply run_validation_type in Hr as (Hn & _ & Hd). simpl in Hn.
  by rewrite <-Hn in Hd.
Qed.

(** The validated entries of a movie payload, [genres] apart, are
    assignments to columns. *)
Lemma movie_validated_columns partial data vd kv :
  Serializers.to_internal_value partial
    Serializers.MovieDetailSerializer_fields data = Some vd →
  kv ∈ vd → kv.1 ≠ "genres"%string → column_value kv.1 kv.2.
Proof.
  intros Hv Hin Hne.
  destruct (to_internal_value_origin _ _ _ _ _ Hv Hin) as (f & Hf & Hr).
  pose proof (run_validation_key _ _ _ _ Hr) as [_ Hro].
  apply run_validation_type in Hr as (Hn & Hty & _).
  destruct kv as [a v]. simpl in *. subst a.
  unfold Serializers.MovieDetailSerializer_fields,
    Serializers.MovieSerializer_fields in Hf. simpl in Hf.
  repeat (apply elem_of_cons in Hf as [->|Hf];
          [try done; by destruct v; try done; intros m|]).
  by apply not_elem_of_nil in Hf.
Qed.

Lemma get_or_create_genres_counters u ds k db :
  urandom_calls (Serializers._get_or_create_genres u ds k db).2
  = urandom_calls db ∧
  movie_seq (Serializers._get_or_create_genres u ds k db).2 = movie_seq db.
Proof.
  unfold Serializers._get_or_create_genres. revert db.
  induction ds as [|d ds IH]; intros db; [done|]. simpl. unfold_orm.
  unfold Orm.genre_get_or_create, Orm.genre_create, Orm.genres_add.
  destruct (filter _ _) as [|r [|r' t]]; simpl; [|..|done];
    match goal with |- context [for_each ds ?body ?d] => exact (IH d) end.
Qed.

(** What [MovieSerializer.update] stores, when it ends normally. *)
Lemma serializers_update_columns u inst vd db r db' :
  (∀ kv, kv ∈ vd → kv.1 ≠ "genres"%string → column_value kv.1 kv.2) →
  Serializers.update u inst vd db = (Ok r, db') →
  r.1 = inst.1 ∧ movies db' = <[inst.1 := r.2]> (movies db) ∧
  movie_seq db' = movie_seq db ∧
  (∀ a, a ≠ "genres"%string → a ≠ "image"%string →
        getattr a r.2 = from_option Some (getattr a inst.2) (Py.dict_get a vd)) ∧
  getattr "image" r.2
  = Some (FImage (saved_image (urandom (urandom_calls db))
                    (match Py.dict_get "image" vd with
                     | Some (FImage i) => i
                     | _ => Movie.image inst.2
                     end))).
Proof.
  intros Hcol. unfold Serializers.update, Py.dict_pop.
  set (vd' := Py.dict_del "genres" vd).
  set (step := match Py.dict_get "genres" vd with
               | Some (FGenres ds) =>
                   (Orm.genres_clear inst.1 ;;;
                    Serializers._get_or_create_genres u ds inst.1)%orm
               | _ => ret tt
               end).
  assert (movies (step db).2 = movies db ∧
          urandom_calls (step db).2 = urandom_calls db ∧
          movie_seq (step db).2 = movie_seq db) as (Hm & Hu & Hs).
  { unfold step. destruct (Py.dict_get "genres" vd) as [[]|]; try done.
    unfold bind, Orm.genres_clear.
    rewrite get_or_create_genres_movies.
    match goal with |- context [Serializers._get_or_create_genres u ?ds ?k ?d] =>
      by destruct (get_or_create_genres_counters u ds k d) as [-> ->] end. }
  rewrite bind_run. destruct (step db) as [[[]|e] db1]; [|done].
  simpl in Hm, Hu, Hs.
  assert (∀ a, a ≠ "genres"%string →
               getattr a (Serializers.setattrs vd' inst.2)
               = from_option Some (getattr a inst.2) (Py.dict_get a vd)) as Hset.
  { intros a Ha. rewrite getattr_setattrs.
    - unfold vd'. by rewrite dict_get_dict_del.
    - intros kv [Hk Hin]%elem_of_dict_del. by apply Hcol. }
  unfold Serializers.movie_save. rewrite bind_run.
  destruct (pre_save_full (Serializers.setattrs vd' inst.2) db1) as [n ->].
  unfold_orm. intros [= <- <-]. simpl. rewrite Hm, Hs, Hu.
  do 3 (split; [done|]). split.
  - intros a Ha Hi. rewrite <-(Hset a Ha). unfold getattr.
    repeat case_match; try reflexivity.
    match goal with H : String.eqb a "image" = true |- _ =>
      by apply String.eqb_eq in H end.
  - specialize (Hset "image"%string). unfold getattr at 1 2 in Hset.
    simpl in Hset. unfold getattr. simpl. do 3 f_equal.
    specialize (Hset ltac:(done)).
    pose proof (λ v H, Hcol ("image"%string, v) (dict_get_elem _ _ _ H)) as Hi.
    simpl in Hi.
    destruct (Py.dict_get "image" vd) as [v|]; simpl in Hset;
      [|congruence].
    specialize (Hi v eq_refl ltac:(done) inst.2).
    destruct v; try done. congruence.
Qed.

End columns.

(** X12: what a successful update or partial update of a movie stores. The
    answer is 200 with the movie of the URL, which was the user's; the stored
    row is the one answered; every column whose key the validated payload
    holds has the validated value and every other column keeps its value, in
    particular every column whose key the payload lacks; the image is the
    submitted or the former one, an upload being stored under a generated
    path. *)
Theorem movie_update_columns `{!Framework} (partial : bool) (u : Z)
    (req : request) (pk : string) (db db' : DB) (r : response) :
  MovieViewSet.update partial u req pk db = (Ok r, db') →
  ∃ k m m' vd,
    r = Response 200 (MovieObj (k, m')) ∧ Py.int pk = Some k ∧
    movies db !! k = Some m ∧ Movie.user m = u ∧
    Serializers.to_internal_value partial
      Serializers.MovieDetailSerializer_fields (data req) = Some vd ∧
    movies db' = <[k := m']> (movies db) ∧
    (∀ a, a ≠ "genres"%string → a ≠ "image"%string →
          getattr a m' = from_option Some (getattr a m) (Py.dict_get a vd)) ∧
    (∀ a, Py.dict_get a (data req) = None → a ≠ "image"%string →
          getattr a m' = getattr a m) ∧
    Movie.image m'
    = saved_image (urandom (urandom_calls db))
        (match Py.dict_get "image" vd with
         | Some (FImage i) => i
         | _ => Movie.image m
         end).
Proof.
  intros Hrun.
  destruct (MovieViewSet.get_object u req pk db) as [[inst|e] db1] eqn:Hobj.
  2:{ unfold MovieViewSet.update in Hrun. by rewrite bind_run, Hobj in Hrun. }
  destruct (get_object_inv _ _ _ _ _ _ Hobj) as (-> & Hpk & Hrow & Hown).
  destruct (Serializers.to_internal_value partial
              Serializers.MovieDetailSerializer_fields (data req))
    as [vd|] eqn:Hv.
  2:{ unfold MovieViewSet.update in Hrun.
      rewrite bind_run, Hobj, bind_run in Hrun. unfold is_valid in Hrun.
      change (MovieViewSet.get_serializer_class update_)
        with Serializers.MovieDetailSerializer_fields in Hrun.
      by rewrite Hv in Hrun. }
  rewrite (view_update_run _ _ _ _ _ _ _ Hobj Hv) in Hrun.
  destruct (Serializers.update u inst vd db) as [[saved|e] db2] eqn:Hupd;
    [|done].
  injection Hrun as <- <-.
  apply serializers_update_columns in Hupd as (Hk & Hm & _ & Hcols & Himg).
  2:{ intros kv. by apply movie_validated_columns with partial (data req). }
  destruct inst as [k m], saved as [k' m'].
  simpl in Hk, Hm, Hcols, Himg, Hpk, Hrow, Hown. subst k'.
  exists k, m, m', vd. do 6 (split; [done|]). split; [|split].
  - done.
  - intros a Ha Hi. destruct (decide (a = "genres"%string)) as [->|Hg]; [done|].
    rewrite Hcols by done.
    by rewrite (to_internal_value_absent _ _ _ _ _ Hv Ha).
  - unfold getattr in Himg. simpl in Himg. congruence.
Qed.

(** ** What a create stores *)

Section create_columns.
Context `{!Framework}.

Lemma serializers_create_columns u kw db r db' :
  db_consistent db →
  (∀ kv, kv ∈ kw → kv.1 ≠ "genres"%string → column_value kv.1 kv.2) →
  Serializers.create u kw db = (Ok r, db') →
  ∃ n, Py.dict_get "running_time_minutes" kw = Some (FInt n) ∧
  r.1 = movie_seq db ∧ movies db !! movie_seq db = None ∧
  movies db' = <[movie_seq db := r.2]> (movies db) ∧
  movie_seq db' = movie_seq db + 1 ∧
  (∀ a, a ≠ "genres"%string → a ≠ "image"%string →
        getattr a r.2
        = from_option Some
            (getattr a (Movie.Build (Movie.user r.2) "" "" n None "" "" NoImage))
            (Py.dict_get a kw)) ∧
  Movie.image r.2
  = saved_image (urandom (urandom_calls db))
      (match Py.dict_get "image" kw with
       | Some (FImage i) => i
       | _ => NoImage
       end) ∧
  (∀ g row, genres db !! g = Some row → genres db' !! g = Some row) ∧
  attached_ok u (movie_seq db)
    (match Py.dict_get "genres" kw with Some (FGenres ds) => ds | _ => [] end)
    db' ∧
  (∀ k' g, k' ≠ movie_seq db →
           (k', g) ∈ movie_genres db' ↔ (k', g) ∈ movie_genres db).
Proof.
  intros (Hkeys & Hwf & Hjun & _) Hcol.
  unfold Serializers.create, Py.dict_pop.
  set (kw' := Py.dict_del "genres" kw).
  set (ds := match Py.dict_get "genres" kw with
             | Some (FGenres ds) => ds
             | _ => []
             end).
  rewrite bind_run. unfold Serializers.movie_create.
  assert (∀ a, a ≠ "genres"%string → Py.dict_get a kw' = Py.dict_get a kw)
    as Hget by (intros a Ha; by apply dict_get_dict_del).
  rewrite !Hget by done.
  destruct (Py.dict_get "user" kw) as [[| | | |u0|]|] eqn:Huser; try done.
  destruct (Py.dict_get "running_time_minutes" kw) as [[|n| | | |]|] eqn:Hrt;
    try done.
  set (blank := Movie.Build u0 "" "" n None "" "" NoImage).
  assert (∀ a, a ≠ "genres"%string →
               getattr a (Serializers.setattrs kw' blank)
               = from_option Some (getattr a blank) (Py.dict_get a kw)) as Hset.
  { intros a Ha. rewrite getattr_setattrs, Hget; [done..|].
    intros kv [Hk Hin]%elem_of_dict_del. by apply Hcol. }
  rewrite bind_run.
  destruct (pre_save_full (Serializers.setattrs kw' blank) db) as [c ->].
  unfold_orm. simpl.
  match goal with |- context [Serializers._get_or_create_genres u ds ?k ?d] =>
    set (db1 := d) end.
  assert (genres_wf db1) as Hwf1 by done.
  assert (attached_ok u (movie_seq db) [] db1) as Hatt.
  { intros g. split.
    - intros Hin. destruct (Hjun _ _ Hin) as (mr & _ & Hmr & _).
      specialize (Hkeys _ (mk_is_Some _ _ Hmr)). lia.
    - intros (_ & d & _ & Hd & _). by apply not_elem_of_nil in Hd. }
  pose proof (get_or_create_genres_movies u ds (movie_seq db) db1) as Hmov.
  destruct (get_or_create_genres_counters u ds (movie_seq db) db1)
    as [_ Hseq].
  destruct (reconcile_grows u (movie_seq db) ds db1 Hwf1)
    as (_ & (Hkeep & _) & _).
  pose proof (reconcile_inv u (movie_seq db) ds [] db1) as Hrec.
  destruct (Serializers._get_or_create_genres u ds (movie_seq db) db1)
    as [[[]|e] db2]; [|done].
  destruct (Hrec db2 Hwf1 Hatt eq_refl) as (_ & Hatt2 & Hoth).
  intros [= <- <-]. simpl in Hmov, Hseq, Hkeep. simpl.
  set (m := Serializers.setattrs kw' blank) in *.
  assert (Movie.user m = u0) as Hu.
  { specialize (Hset "user"%string ltac:(done)). rewrite Huser in Hset.
    unfold getattr in Hset. simpl in Hset. congruence. }
  exists n. split; [done|]. split; [done|]. split.
  { destruct (movies db !! movie_seq db) eqn:E; [|done].
    specialize (Hkeys _ (mk_is_Some _ _ E)). lia. }
  do 2 (split; [done|]). split; [|split; [|split; [done|split; [done|done]]]].
  - intros a Ha Hi. transitivity (getattr a m).
    + unfold getattr. repeat case_match; try reflexivity.
      match goal with H : String.eqb a "image" = true |- _ =>
        by apply String.eqb_eq in H end.
    + rewrite Hu. exact (Hset a Ha).
  - f_equal. specialize (Hset "image"%string ltac:(done)).
    unfold getattr in Hset. simpl in Hset.
    pose proof (λ v H, Hcol ("image"%string, v) (dict_get_elem _ _ _ H)) as Hi.
    simpl in Hi.
    destruct (Py.dict_get "image" kw) as [v|]; simpl in Hset; [|congruence].
    specialize (Hi v eq_refl ltac:(done) blank).
    destruct v; try done. congruence.
Qed.

End create_columns.

(** X13: what a successful create stores. The answer is 201 with a movie
    under the next key of the table, which was free, owned by the requesting
    user; every column whose key the validated payload holds has the
    validated value, the text columns left out are empty and a release date
    left out is null; an uploaded image is stored under a generated path;
    every genre record that existed is kept; the new movie is attached to
    exactly the user's genres matched by a submitted descriptor (to none when
    the payload has no [genres]), and the genres of the other movies are as
    before. *)
Theorem movie_create_stores `{!Framework} (u : Z) (req : request)
    (db db' : DB) (r : response) :
  db_consistent db →
  MovieViewSet.create u req db = (Ok r, db') →
  ∃ m vd,
    r = Response 201 (MovieObj (movie_seq db, m)) ∧
    Serializers.to_internal_value false
      Serializers.MovieDetailSerializer_fields (data req) = Some vd ∧
    movies db !! movie_seq db = None ∧
    movies db' = <[movie_seq db := m]> (movies db) ∧
    movie_seq db' = movie_seq db + 1 ∧
    Movie.user m = u ∧
    (∀ a v, a ≠ "genres"%string → a ≠ "image"%string →
            Py.dict_get a vd = Some v → getattr a m = Some v) ∧
    (∀ a, a ∈ ["description"; "age_restriction"; "link"]%string →
          Py.dict_get a vd = None → getattr a m = Some (FStr "")) ∧
    (Py.dict_get "release_date" vd = None → Movie.release_date m = None) ∧
    Movie.image m
    = saved_image (urandom (urandom_calls db))
        (match Py.dict_get "image" vd with
         | Some (FImage i) => i
         | _ => NoImage
         end) ∧
    (∀ g row, genres db !! g = Some row → genres db' !! g = Some row) ∧
    attached_ok u (movie_seq db)
      (match Py.dict_get "genres" vd with Some (FGenres ds) => ds | _ => [] end)
      db' ∧
    (∀ k' g, k' ≠ movie_seq db →
             (k', g) ∈ movie_genres db' ↔ (k', g) ∈ movie_genres db).
Proof.
  intros Hcons Hrun. unfold MovieViewSet.create in Hrun.
  rewrite bind_run in Hrun. unfold is_valid in Hrun.
  change (MovieViewSet.get_serializer_class create_)
    with Serializers.MovieDetailSerializer_fields in Hrun.
  destruct (Serializers.to_internal_value false
              Serializers.MovieDetailSerializer_fields (data req))
    as [vd|] eqn:Hv; [|done].
  unfold ret at 1 in Hrun. rewrite bind_run in Hrun.
  unfold MovieViewSet.perform_create in Hrun.
  set (kw := Serializers.save_kwargs vd [("user"%string, FUser u)]) in Hrun.
  assert (kw = Py.dict_del "user" vd ++ [("user"%string, FUser u)]) as Hkw
    by done.
  assert (∀ a, a ≠ "user"%string → Py.dict_get a kw = Py.dict_get a vd)
    as Hget.
  { intros a Ha. rewrite Hkw, dict_get_app.
    change (Py.dict_get a [("user"%string, FUser u)])
      with (if String.eqb "user" a then Some (FUser u) else None).
    destruct (String.eqb "user" a) eqn:E;
      [by apply String.eqb_eq in E|].
    by apply dict_get_dict_del. }
  assert (Py.dict_get "user" kw = Some (FUser u)) as Huser
    by (rewrite Hkw; apply dict_get_snoc).
  destruct (Serializers.create u kw db) as [[[k m]|e] db1] eqn:Hcr; [|done].
  unfold ret in Hrun. injection Hrun as <- <-.
  apply serializers_create_columns in Hcr
    as (n & Hrt & Hk & Hfree & Hm & Hseq & Hcols & Himg & Hkeep & Hatt & Hoth);
    [|done|].
  2:{ rewrite Hkw. intros kv [Hin|Hin]%elem_of_app Hne.
      - apply elem_of_dict_del in Hin as [_ Hin].
        by apply movie_validated_columns with false (data req) vd.
      - apply list_elem_of_singleton in Hin as ->. by intros m0. }
  simpl in Hk, Hm, Hcols, Himg. subst k.
  rewrite !Hget in Hatt, Himg by done.
  assert (Movie.user m = u) as Hu.
  { specialize (Hcols "user"%string ltac:(done) ltac:(done)).
    rewrite Huser in Hcols. unfold getattr in Hcols. simpl in Hcols.
    congruence. }
  exists m, vd. do 6 (split; [done|]).
  split; [|split; [|split; [|done]]].
  - intros a v Hg Hi Ha.
    destruct (decide (a = "user"%string)) as [->|Hnu].
    { apply dict_get_elem in Ha.
      by destruct (movie_validated_no_user _ _ _ _ Hv Ha). }
    by rewrite Hcols, Hget, Ha.
  - intros a Ha Hnone.
    repeat (apply elem_of_cons in Ha as [->|Ha];
            [by rewrite Hcols, Hget, Hnone|]).
    by apply not_elem_of_nil in Ha.
  - intros Hnone.
    specialize (Hcols "release_date"%string ltac:(done) ltac:(done)).
    rewrite Hget, Hnone in Hcols by done. unfold getattr in Hcols.
    simpl in Hcols. congruence.
Qed.

(** ** Client errors write nothing *)

Lemma writes_bind {A} (m : M A) (f : A → M response) db :
  (m db).2 = db →
  (∀ a, m db = (Ok a, db) → writes_on_success_only db (f a db)) →
  writes_on_success_only db (bind m f db).
Proof.
  intros Hst Hf. rewrite bind_run.
  destruct (m db) as [[a|e] db1] eqn:E; simpl in Hst; subst db1.
  - by apply Hf.
  - done.
Qed.

Section raises.
Context `{!Framework}.

Lemma reconcile_raises u ds k db e :
  (Serializers._get_or_create_genres u ds k db).1 = Raise e →
  e = Py.MultipleObjectsReturned.
Proof.
  unfold Serializers._get_or_create_genres. revert db.
  induction ds as [|d ds IH]; intros db; [done|]. simpl. unfold_orm.
  unfold Orm.genre_get_or_create, Orm.genre_create, Orm.genres_add.
  destruct (filter _ _) as [|r [|r' t]]; simpl;
    [apply IH|apply IH|by intros [= <-]].
Qed.

Lemma serializers_update_raises u inst vd db e :
  (Serializers.update u inst vd db).1 = Raise e →
  e = Py.MultipleObjectsReturned.
Proof.
  unfold Serializers.update, Py.dict_pop. rewrite bind_run.
  set (step := match Py.dict_get "genres" vd with
               | Some (FGenres ds) =>
                   (Orm.genres_clear inst.1 ;;;
                    Serializers._get_or_create_genres u ds inst.1)%orm
               | _ => ret tt
               end).
  assert (∀ e', (step db).1 = Raise e' → e' = Py.MultipleObjectsReturned)
    as Hstep.
  { unfold step. destruct (Py.dict_get "genres" vd) as [[]|]; try done.
    intros e'. rewrite bind_run. unfold Orm.genres_clear.
    apply reconcile_raises. }
  destruct (step db) as [[[]|e'] db1]; [|intros [= <-]; by apply Hstep].
  destruct (movie_save_relation inst.1
              (Serializers.setattrs (Py.dict_del "genres" vd) inst.2) db1)
    as (_ & _ & r & Hr).
  rewrite Hr. done.
Qed.

Lemma serializers_create_raises u kw db e :
  (Serializers.create u kw db).1 = Raise e →
  e = Py.MultipleObjectsReturned ∨ e = Py.IntegrityError.
Proof.
  unfold Serializers.create, Py.dict_pop. rewrite bind_run.
  unfold Serializers.movie_create.
  destruct (Py.dict_get "user" _) as [[| | | |u0|]|];
    try (intros [= <-]; by right).
  destruct (Py.dict_get "running_time_minutes" _) as [[|n| | | |]|];
    try (intros [= <-]; by right).
  rewrite bind_run.
  match goal with |- context [Serializers.pre_save ?x db] =>
    destruct (pre_save_full x db) as [c ->] end.
  unfold_orm.
  match goal with |- context [Serializers._get_or_create_genres u ?ds ?k ?d] =>
    pose proof (reconcile_raises u ds k d) as Hr;
    destruct (Serializers._get_or_create_genres u ds k d) as [[[]|e'] db2]
  end; [done|]. intros [= <-]. left. by apply Hr.
Qed.

Lemma view_writes_on_success_only v a u req pk db :
  writes_on_success_only db (Urls.view v a u req pk db).
Proof.
  destruct v, a; simpl.
  - (* movie list *)
    unfold MovieViewSet.list. apply writes_bind; [apply get_queryset_state|].
    intros l _. by left.
  - (* movie create *)
    unfold MovieViewSet.create. apply writes_bind; [apply is_valid_state|].
    intros vd _. rewrite bind_run. unfold MovieViewSet.perform_create.
    match goal with |- context [Serializers.create u ?kw db] =>
      pose proof (serializers_create_raises u kw db) as Hr;
      destruct (Serializers.create u kw db) as [[r|e] db1] end.
    + right. by left.
    + intros [->| ->]; by destruct (Hr _ eq_refl).
  - (* movie retrieve *)
    unfold MovieViewSet.retrieve. apply writes_bind; [apply get_object_state|].
    intros inst _. by left.
  - (* movie update *)
    unfold MovieViewSet.update. apply writes_bind; [apply get_object_state|].
    intros inst _. apply writes_bind; [apply is_valid_state|].
    intros vd _. rewrite bind_run.
    pose proof (serializers_update_raises u inst vd db) as Hr.
    destruct (Serializers.update u inst vd db) as [[r|e] db1].
    + by left.
    + intros [->| ->]; by specialize (Hr _ eq_refl).
  - (* movie partial update *)
    unfold MovieViewSet.update. apply writes_bind; [apply get_object_state|].
    intros inst _. apply writes_bind; [apply is_valid_state|].
    intros vd _. rewrite bind_run.
    pose proof (serializers_update_raises u inst vd db) as Hr.
    destruct (Serializers.update u inst vd db) as [[r|e] db1].
    + by left.
    + intros [->| ->]; by specialize (Hr _ eq_refl).
  - (* movie destroy *)
    unfold MovieViewSet.destroy. apply writes_bind; [apply get_object_state|].
    intros inst _. unfold_orm. simpl. by right; right; left.
  - (* upload image *)
    unfold MovieViewSet.upload_image.
    apply writes_bind; [apply get_object_state|].
    intros inst _.
    destruct (Serializers.to_internal_value _ _ _) as [vd|].
    + rewrite bind_run.
      destruct (movie_save_relation inst.1 (Serializers.setattrs vd inst.2) db)
        as (_ & _ & r & Hr).
      destruct (Serializers.movie_save _ _ db) as [[r'|e] db1];
        [by left|done].
    + unfold ret. simpl. by right; right; right; split; [left|].
  - (* genre list *)
    unfold GenreViewSet.list, GenreViewSet.get_queryset. unfold_orm. by left.
  - unfold ret. simpl. by right; right; right; split; [right|].
  - unfold ret. simpl. by right; right; right; split; [right|].
  - (* genre update *)
    unfold GenreViewSet.update.
    apply writes_bind; [apply genre_get_object_state|].
    intros inst _. apply writes_bind; [apply is_valid_state|].
    intros vd _. unfold Serializers.genre_update. unfold_orm. by left.
  - unfold GenreViewSet.update.
    apply writes_bind; [apply genre_get_object_state|].
    intros inst _. apply writes_bind; [apply is_valid_state|].
    intros vd _. unfold Serializers.genre_update. unfold_orm. by left.
  - (* genre destroy *)
    unfold GenreViewSet.destroy.
    apply writes_bind; [apply genre_get_object_state|].
    intros inst _. unfold_orm. simpl. by right; right; left.
  - unfold ret. simpl. by right; right; right; split; [right|].
Qed.

End raises.

(** X14: the answers and the writes of a request. Every request is answered
    with one of the statuses 200, 201, 204, 400, 401, 404, 405 and 500, never
    with 403; and a request answered with a client error (400, 401, 404 or
    405) has written nothing: validation and the lookup of the instance come
    before every write. *)
Theorem client_errors_write_nothing `{!Framework} (req : request) (db : DB) :
  status (Urls.handle req db).1 ∈ [200; 201; 204; 400; 401; 404; 405; 500] ∧
  (400 ≤ status (Urls.handle req db).1 < 500 → (Urls.handle req db).2 = db).
Proof.
  unfold Urls.handle.
  destruct (Urls.resolve (path req)) as [[v r]|]; [|split; [set_solver|done]].
  destruct (user req) as [u|]; [|split; [set_solver|done]].
  destruct (Urls.action_of v r (method req)) as [a|];
    [|split; [set_solver|done]].
  unfold run_view.
  pose proof (view_writes_on_success_only v a u req (Urls.route_pk r) db) as Hw.
  destruct (Urls.view v a u req (Urls.route_pk r) db) as [[resp|e] db1];
    simpl in Hw |- *.
  - destruct Hw as [->|[->|[->|[[-> | ->] ->]]]];
      (split; [set_solver|]); (done || lia).
  - destruct e; simpl; (split; [set_solver|]);
      try lia; intros _; apply Hw; auto.
Qed.

(** ** An update that fails half way *)

Lemma filter_two {A} (P : A → Prop) `{!∀ x, Decision (P x)} (l : list A) x y :
  x ≠ y → x ∈ l → y ∈ l → P x → P y →
  ∃ a b t, filter P l = a :: b :: t.
Proof.
  intros Hne Hx Hy Hpx Hpy.
  assert (x ∈ filter P l) as Hfx by by apply list_elem_of_filter.
  assert (y ∈ filter P l) as Hfy by by apply list_elem_of_filter.
  destruct (filter P l) as [|a [|b t]].
  - by apply not_elem_of_nil in Hfx.
  - apply list_elem_of_singleton in Hfx, Hfy. congruence.
  - by eauto.
Qed.

(** X16: an update is not undone when it fails. When the user's own movie is
    updated, in a request without a [genres] query parameter, with a valid
    payload whose first genre descriptor matches two genre records of the
    user, the lookup of the genre raises, the answer is
    500, and the database is left with the genres of the movie cleared and
    the columns of the movie not written. *)
Theorem update_failure_keeps_clear `{!Framework} (partial : bool) (u : Z)
    (req : request) (pk : string) (db : DB) (k : Z) (m : Movie.t)
    (vd : list (string * field_value)) (d : option string)
    (ds : list (option string)) (g1 g2 : Z * Genre.t) :
  Py.dict_get "genres" (query_params req) = None →
  Py.int pk = Some k → movies db !! k = Some m → Movie.user m = u →
  Serializers.to_internal_value partial
    Serializers.MovieDetailSerializer_fields (data req) = Some vd →
  Py.dict_get "genres" vd = Some (FGenres (d :: ds)) →
  g1 ≠ g2 →
  genres db !! g1.1 = Some g1.2 → genres db !! g2.1 = Some g2.2 →
  Orm.genre_matches u d g1 → Orm.genre_matches u d g2 →
  run_view (MovieViewSet.update partial u req pk) db
  = (Response 500 NoBody,
     MkDB (movies db) (genres db)
          (filter (λ j, j.1 ≠ k) (movie_genres db))
          (movie_seq db) (genre_seq db) (urandom_calls db)).
Proof.
  intros Hq Hpk Hk Hu Hv Hg Hne H1 H2 Hm1 Hm2. unfold run_view.
  rewrite (view_update_run u req pk partial db (k, m) vd);
    [|by apply get_object_own; auto|done].
  unfold Serializers.update, Py.dict_pop. rewrite Hg, !bind_run.
  unfold Orm.genres_clear, Serializers._get_or_create_genres. simpl.
  rewrite !bind_run. unfold Orm.genre_get_or_create. simpl.
  destruct (filter_two (Orm.genre_matches u d) (Orm.all (genres db)) g1 g2)
    as (a & b & t & ->); try done; by apply elem_of_all.
Qed.

(** ** The [genres] parameter built from keys *)

Example of_int_examples :
  PyStr.of_int 0 = "0"%string ∧ PyStr.of_int 7 = "7"%string ∧
  PyStr.of_int 120 = "120"%string ∧ PyStr.of_int (-45) = "-45"%string ∧
  PyStr.join "," (PyStr.of_int <$> [3; 12; 1]) = "3,12,1"%string.
Proof. repeat split; reflexivity. Qed.

Lemma append_empty_r s : String.append s "" = s.
Proof.
  induction s as [|a s IH]; [done|].
  change (String a (String.append s "") = String a s). by rewrite IH.
Qed.

Lemma append_assoc_cons s c t :
  String.append (String.append s (String c "")) t = String.append s (String c t).
Proof.
  induction s as [|a s IH]; [done|].
  change (String a (String.append (String.append s (String c "")) t)
          = String a (String.append s (String c t))). by rewrite IH.
Qed.

Lemma digit_char_spec d :
  0 ≤ d < 10 →
  Py.is_digit (PyStr.digit_char d) = true ∧
  Py.digit_val (PyStr.digit_char d) = d.
Proof.
  intros Hd.
  assert (d = 0 ∨ d = 1 ∨ d = 2 ∨ d = 3 ∨ d = 4 ∨ d = 5 ∨ d = 6 ∨ d = 7 ∨
          d = 8 ∨ d = 9) as Hc by lia.
  repeat (destruct Hc as [->|Hc]; [by vm_compute|]). subst d. by vm_compute.
Qed.

Lemma is_digit_plain c :
  Py.is_digit c = true →
  Py.is_int_space c = false ∧ Ascii.eqb c "," = false ∧
  c ≠ "-"%char ∧ c ≠ "+"%char.
Proof.
  destruct c as [[] [] [] [] [] [] [] []]; vm_compute; intros Hd;
    try discriminate Hd; repeat split; discriminate.
Qed.

Opaque PyStr.digit_char.

(** A text of digits: not empty, and every character a decimal digit. *)
Lemma of_nonneg_fuel_spec fuel :
  ∀ n acc, 0 ≤ n < 10 ^ Z.of_nat (S fuel) →
    ∃ c s, PyStr.of_nonneg_fuel (S fuel) n acc
           = String.append (String c s) acc ∧
           (∀ x, Py.contains x (String c s) = true → Py.is_digit x = true) ∧
           ∀ a prev rest,
             Py.digits (String.append (String c s) rest) a prev
             = Py.digits rest
                 (a * 10 ^ Z.of_nat (String.length (String c s)) + n) true.
Proof.
  induction fuel as [|fuel IH]; intros n acc Hn.
  - assert (n < 10) as Hlt by (change (10 ^ Z.of_nat 1) with 10 in Hn; lia).
    exists (PyStr.digit_char n), EmptyString.
    destruct (digit_char_spec n) as [Hd Hv]; [lia|].
    simpl. rewrite (Z.mod_small n 10) by lia.
    destruct (Z.ltb_spec n 10); [|lia]. split; [done|]. split.
    + intros x. rewrite orb_false_r. by intros <-%Ascii.eqb_eq.
    + intros a prev rest.
      change (Py.digits (String (PyStr.digit_char n) rest) a prev
              = Py.digits rest (a * 10 ^ 1 + n) true).
      simpl. rewrite Hd, Hv. f_equal. lia.
  - destruct (digit_char_spec (n mod 10)) as [Hd Hv];
      [apply Z.mod_pos_bound; lia|].
    change (PyStr.of_nonneg_fuel (S (S fuel)) n acc)
      with (let acc' := String (PyStr.digit_char (n mod 10)) acc in
            if n <? 10 then acc'
            else PyStr.of_nonneg_fuel (S fuel) (n / 10) acc').
    cbv zeta. destruct (Z.ltb_spec n 10) as [Hlt|Hge].
    + exists (PyStr.digit_char n), EmptyString.
      rewrite (Z.mod_small n 10) in * by lia. split; [done|]. split.
      * intros x. simpl. rewrite orb_false_r. by intros <-%Ascii.eqb_eq.
      * intros a prev rest.
        change (Py.digits (String (PyStr.digit_char n) rest) a prev
                = Py.digits rest (a * 10 ^ 1 + n) true).
        simpl. rewrite Hd, Hv. f_equal. lia.
    + destruct (IH (n / 10) (String (PyStr.digit_char (n mod 10)) acc))
        as (c & s & -> & Hall & Hval).
      { split; [apply Z.div_pos; lia|].
        apply Z.div_lt_upper_bound; [lia|].
        rewrite Nat2Z.inj_succ, Z.pow_succ_r in Hn by lia. lia. }
      exists c, (String.append s (String (PyStr.digit_char (n mod 10)) "")).
      split; [|split].
      * change (String c (String.append s (String (PyStr.digit_char (n mod 10)) acc))
                = String c (String.append
                              (String.append s
                                 (String (PyStr.digit_char (n mod 10)) "")) acc)).
        by rewrite append_assoc_cons.
      * intros x Hx.
        change (String c (String.append s (String (PyStr.digit_char (n mod 10)) "")))
          with (String.append (String c s)
                  (String (PyStr.digit_char (n mod 10)) "")) in Hx.
        revert Hx. generalize (String c s) Hall. intros t Ht.
        induction t as [|b t IHt]; simpl.
        { rewrite orb_false_r. by intros <-%Ascii.eqb_eq. }
        intros [Hb|Hx]%orb_true_iff.
        -- apply Ht. simpl. by rewrite Hb.
        -- apply IHt; [|done]. intros y Hy. apply Ht. simpl. rewrite Hy.
           by rewrite orb_true_r.
      * intros a prev rest.
        change (String.append
                  (String c (String.append s
                               (String (PyStr.digit_char (n mod 10)) ""))) rest)
          with (String.append
                  (String.append (String c s)
                     (String (PyStr.digit_char (n mod 10)) "")) rest).
        rewrite append_assoc_cons, Hval. simpl Py.digits. rewrite Hd, Hv.
        f_equal.
        assert (String.length
                  (String.append s (String (PyStr.digit_char (n mod 10)) ""))
                = S (String.length s)) as ->.
        { clear. induction s as [|b s IHs]; [done|]. simpl. by rewrite IHs. }
        rewrite !Nat2Z.inj_succ, !Z.pow_succ_r by lia.
        pose proof (Z.div_mod n 10). lia.
Qed.

Transparent PyStr.digit_char.

Lemma rstrip_plain s :
  (∀ x, Py.contains x s = true → Py.is_int_space x = false) → Py.int_rstrip s = s.
Proof.
  induction s as [|c s IH]; intros Hs; [done|]. simpl.
  rewrite IH.
  - destruct s; [|done]. rewrite (Hs c); [done|]. simpl.
    by rewrite Ascii.eqb_refl.
  - intros x Hx. apply Hs. simpl. rewrite Hx. apply orb_true_r.
Qed.

Lemma strip_plain c s :
  (∀ x, Py.contains x (String c s) = true → Py.is_int_space x = false) →
  Py.int_rstrip (Py.int_lstrip (String c s)) = String c s.
Proof.
  intros Hs.
  assert (Py.int_lstrip (String c s) = String c s) as ->.
  { simpl. rewrite (Hs c); [done|]. simpl. by rewrite Ascii.eqb_refl. }
  by apply rstrip_plain.
Qed.

Lemma int_unsigned c s :
  Py.int_rstrip (Py.int_lstrip (String c s)) = String c s → c ≠ "-"%char → c ≠ "+"%char →
  Py.int (String c s) = Py.digits (String c s) 0 false.
Proof.
  intros Hs Hm Hp. unfold Py.int. rewrite Hs.
  destruct c as [[] [] [] [] [] [] [] []]; try reflexivity; congruence.
Qed.

Lemma of_nonneg_spec n :
  0 ≤ n →
  ∃ c s, PyStr.of_nonneg n = String c s ∧
         (∀ x, Py.contains x (String c s) = true → Py.is_digit x = true) ∧
         Py.digits (String c s) 0 false = Some n.
Proof.
  intros Hn. unfold PyStr.of_nonneg.
  destruct (of_nonneg_fuel_spec (Z.to_nat (Z.log2 n)) n EmptyString)
    as (c & s & -> & Hall & Hval).
  { split; [done|]. rewrite Nat2Z.inj_succ, Z2Nat.id by apply Z.log2_nonneg.
    destruct (decide (n = 0)) as [->|Hz]; [done|].
    destruct (Z.log2_spec n) as [_ Hlt]; [lia|].
    eapply Z.lt_le_trans; [exact Hlt|].
    apply Z.pow_le_mono_l. pose proof (Z.log2_nonneg n). lia. }
  exists c, s. rewrite append_empty_r. split; [done|]. split; [done|].
  specialize (Hval 0 false EmptyString). rewrite append_empty_r in Hval.
  rewrite Hval. simpl. f_equal; lia.
Qed.

Lemma digits_plain c s x :
  (∀ y, Py.contains y (String c s) = true → Py.is_digit y = true) →
  Py.contains x (String c s) = true → Py.is_int_space x = false.
Proof. intros Hall Hx. by destruct (is_digit_plain x (Hall x Hx)). Qed.

(** Reading back the text of an integer gives the integer. *)
Lemma int_of_int n : Py.int (PyStr.of_int n) = Some n.
Proof.
  unfold PyStr.of_int. destruct (Z.ltb_spec n 0) as [Hneg|Hpos].
  - destruct (of_nonneg_spec (- n)) as (c & s & -> & Hall & Hval); [lia|].
    unfold Py.int.
    assert (Py.int_rstrip (Py.int_lstrip (String "-" (String c s)))
            = String "-" (String c s)) as ->.
    { apply strip_plain. intros x.
      change (Py.contains x (String "-" (String c s)))
        with (Ascii.eqb "-" x || Py.contains x (String c s)).
      intros [<-%Ascii.eqb_eq|Hx]%orb_true_iff; [done|].
      by apply digits_plain with c s. }
    rewrite Hval. simpl. f_equal; lia.
  - destruct (of_nonneg_spec n) as (c & s & -> & Hall & Hval); [lia|].
    destruct (is_digit_plain c) as (_ & _ & Hm & Hp).
    { apply Hall. simpl. by rewrite Ascii.eqb_refl. }
    rewrite int_unsigned; [done| |done|done].
    apply strip_plain. intros x. by apply digits_plain.
Qed.

Lemma of_int_no_comma n : Py.contains "," (PyStr.of_int n) = false.
Proof.
  assert (∀ c s,
            (∀ x, Py.contains x (String c s) = true → Py.is_digit x = true) →
            Py.contains "," (String c s) = false) as Hd.
  { intros c s Hall. destruct (Py.contains "," (String c s)) eqn:E; [|done].
    by specialize (Hall _ E). }
  unfold PyStr.of_int. destruct (Z.ltb_spec n 0) as [Hneg|Hpos].
  - destruct (of_nonneg_spec (- n)) as (c & s & -> & Hall & _); [lia|].
    change (Ascii.eqb "-" "," || Py.contains "," (String c s) = false).
    by rewrite (Hd c s Hall).
  - destruct (of_nonneg_spec n) as (c & s & -> & Hall & _); [lia|].
    by apply Hd.
Qed.

Lemma split_single sep s : Py.contains sep s = false → Py.split sep s = [s].
Proof.
  induction s as [|c s IH]; intros Hc; [done|]. simpl in *.
  apply orb_false_iff in Hc as [Hc1 Hc2]. by rewrite Hc1, IH.
Qed.

Lemma split_join sep ps :
  ps ≠ [] → (∀ p, p ∈ ps → Py.contains sep p = false) →
  Py.split sep (PyStr.join sep ps) = ps.
Proof.
  induction ps as [|p ps IH]; intros Hne Hall; [done|].
  destruct ps as [|q ps].
  - apply split_single, Hall. left.
  - change (PyStr.join sep (p :: q :: ps))
      with (String.append p (String sep (PyStr.join sep (q :: ps)))).
    rewrite split_app by (apply Hall; left).
    rewrite IH; [done|done|]. intros r Hr. apply Hall. by right.
Qed.

Lemma mapM_int_of_int ids : mapM Py.int (PyStr.of_int <$> ids) = Some ids.
Proof.
  apply mapM_Some. induction ids as [|n ids IH]; [constructor|].
  constructor; [apply int_of_int|done].
Qed.

Lemma split_join_of_int ids :
  ids ≠ [] →
  Py.split "," (PyStr.join "," (PyStr.of_int <$> ids)) = PyStr.of_int <$> ids.
Proof.
  intros Hne. apply split_join.
  - by destruct ids.
  - intros p (n & -> & _)%list_elem_of_fmap. apply of_int_no_comma.
Qed.

(** X17: the [genres] parameter round trip. The comma-separated decimal
    text of a non-empty list of keys, negative ones included, is a non-empty
    parameter that [_params_to_ints] reads back as exactly that list, in
    order and with repetitions, without raising and without touching the
    database. *)
Theorem params_to_ints_round_trip `{!Framework} (ids : list Z) (db : DB) :
  ids ≠ [] →
  PyStr.join "," (PyStr.of_int <$> ids) ≠ EmptyString ∧
  MovieViewSet._params_to_ints (PyStr.join "," (PyStr.of_int <$> ids)) db
  = (Ok ids, db).
Proof.
  intros Hne. pose proof (split_join_of_int ids Hne) as Hs. split.
  - intros Heq. rewrite Heq in Hs.
    pose proof (mapM_int_of_int ids) as Hm. rewrite <-Hs in Hm.
    by vm_compute in Hm.
  - unfold MovieViewSet._params_to_ints. by rewrite Hs, mapM_int_of_int.
Qed.

(** ** The further properties on the example database *)

Lemma sample_db_consistent : db_consistent sample_db.
Proof. apply run_requests_consistent, empty_db_consistent. Qed.

Lemma sample_db_movie_3 :
  movies sample_db !! 3 = Some (movie_row 1 "Holidays" 90).
Proof. vm_compute. reflexivity. Qed.

Lemma sample_db_genre_2 : genres sample_db !! 2 = Some (Genre.Build "Sci-Fi" 1).
Proof. vm_compute. reflexivity. Qed.

Lemma request_keeps_others_witness :
  db_consistent sample_db ∧ user rename_request = Some 1 ∧
  kept_for_others 1 sample_db (Urls.handle rename_request sample_db).2.
Proof.
  split; [exact sample_db_consistent|]. split; [reflexivity|].
  exact (request_keeps_others 1 rename_request sample_db
           sample_db_consistent eq_refl).
Defined.

Lemma get_requests_read_only_witness :
  method (list_request "1,abc") = GET ∧
  (Urls.handle (list_request "1,abc") sample_db).2 = sample_db.
Proof.
  split; [reflexivity|].
  exact (get_requests_read_only (list_request "1,abc") sample_db eq_refl).
Defined.

Lemma movie_list_descending_witness :
  MovieViewSet.list 1 (list_request "") sample_db
  = (Ok (Response 200 (Movies [ (3, movie_row 1 "Holidays" 90);
                                (2, movie_row 1 "Avengers" 180);
                                (1, movie_row 1 "Black Adam" 120) ])),
     sample_db) ∧
  StronglySorted (λ x y : Z * Movie.t, y.1 < x.1)
    [ (3, movie_row 1 "Holidays" 90); (2, movie_row 1 "Avengers" 180);
      (1, movie_row 1 "Black Adam" 120) ].
Proof.
  assert (MovieViewSet.list 1 (list_request "") sample_db
          = (Ok (Response 200 (Movies [ (3, movie_row 1 "Holidays" 90);
                                        (2, movie_row 1 "Avengers" 180);
                                        (1, movie_row 1 "Black Adam" 120) ])),
             sample_db)) as H by (vm_compute; reflexivity).
  split; [exact H|].
  exact (movie_list_descending 1 (list_request "") sample_db sample_db _ H).
Defined.

(** Movie 3 of user 1 has no genre: with the filter [1,2] its detail is not
    found. *)
Lemma movie_detail_with_filter_witness :
  Py.int "3" = Some 3 ∧
  movies sample_db !! 3 = Some (movie_row 1 "Holidays" 90) ∧
  Movie.user (movie_row 1 "Holidays" 90) = 1 ∧
  run_view (MovieViewSet.retrieve 1 (list_request "1,2") "3") sample_db
  = (if decide (Exists (λ g, (3, g) ∈ movie_genres sample_db) [1; 2])
     then (Response 200 (MovieObj (3, movie_row 1 "Holidays" 90)), sample_db)
     else (Response 404 Errors, sample_db)) ∧
  run_view (MovieViewSet.retrieve 1 (list_request "1,2") "3") sample_db
  = (Response 404 Errors, sample_db).
Proof.
  split; [reflexivity|]. split; [exact sample_db_movie_3|].
  split; [reflexivity|]. split; [|vm_compute; reflexivity].
  exact (proj2 (movie_detail_with_filter 1 (list_request "1,2") "3" sample_db
                  3 (movie_row 1 "Holidays" 90) eq_refl sample_db_movie_3
                  eq_refl)
           "1,2"%string [1; 2] eq_refl eq_refl).
Defined.

Lemma movie_destroy_own_witness :
  Py.dict_get "genres" (query_params (Request DELETE "movies/3/" (Some 1) [] []))
  = None ∧
  Py.int "3" = Some 3 ∧
  movies sample_db !! 3 = Some (movie_row 1 "Holidays" 90) ∧
  Movie.user (movie_row 1 "Holidays" 90) = 1 ∧
  ∃ db', run_view (MovieViewSet.destroy 1
                     (Request DELETE "movies/3/" (Some 1) [] []) "3") sample_db
         = (Response 204 NoBody, db') ∧
         movies db' = delete 3 (movies sample_db) ∧
         genres db' = genres sample_db ∧
         (∀ j, j ∈ movie_genres db' ↔ j ∈ movie_genres sample_db ∧ j.1 ≠ 3) ∧
         run_view (MovieViewSet.retrieve 1
                     (Request DELETE "movies/3/" (Some 1) [] []) "3") db'
         = (Response 404 Errors, db').
Proof.
  split; [reflexivity|]. split; [reflexivity|].
  split; [exact sample_db_movie_3|]. split; [reflexivity|].
  exact (movie_destroy_own 1 (Request DELETE "movies/3/" (Some 1) [] []) "3"
           sample_db 3 (movie_row 1 "Holidays" 90) eq_refl eq_refl
           sample_db_movie_3 eq_refl).
Defined.

Lemma upload_image_own_witness :
  let req := Request POST "movies/3/upload-image/" (Some 1) []
               [("image"%string, VFile "poster.jpg" "JFIF")] in
  let bad := Request POST "movies/3/upload-image/" (Some 1) []
               [("image"%string, VStr "notanimage")] in
  Py.dict_get "genres" (query_params req) = None ∧
  Py.int "3" = Some 3 ∧
  movies sample_db !! 3 = Some (movie_row 1 "Holidays" 90) ∧
  Movie.user (movie_row 1 "Holidays" 90) = 1 ∧
  status (run_view (MovieViewSet.upload_image 1 req "3") sample_db).1 = 200 ∧
  run_view (MovieViewSet.upload_image 1 bad "3") sample_db
  = (Response 400 Errors, sample_db).
Proof.
  intros req bad.
  split; [reflexivity|]. split; [reflexivity|].
  split; [exact sample_db_movie_3|]. split; [reflexivity|]. split.
  - rewrite (upload_image_own 1 req "3" sample_db 3 (movie_row 1 "Holidays" 90)
               eq_refl eq_refl sample_db_movie_3 eq_refl).
    reflexivity.
  - exact (upload_image_own 1 bad "3" sample_db 3 (movie_row 1 "Holidays" 90)
             eq_refl eq_refl sample_db_movie_3 eq_refl).
Defined.

Lemma genre_destroy_own_witness :
  Py.int "2" = Some 2 ∧
  genres sample_db !! 2 = Some (Genre.Build "Sci-Fi" 1) ∧
  Genre.user (Genre.Build "Sci-Fi" 1) = 1 ∧
  ∃ db', run_view (GenreViewSet.destroy 1 "2") sample_db
         = (Response 204 NoBody, db') ∧
         genres db' = delete 2 (genres sample_db) ∧
         movies db' = movies sample_db ∧
         (∀ j, j ∈ movie_genres db' ↔ j ∈ movie_genres sample_db ∧ j.2 ≠ 2) ∧
         run_view (GenreViewSet.update true 1 rename_request "2") db'
         = (Response 404 Errors, db').
Proof.
  split; [reflexivity|]. split; [exact sample_db_genre_2|].
  split; [reflexivity|].
  exact (genre_destroy_own 1 rename_request "2" sample_db 2
           (Genre.Build "Sci-Fi" 1) eq_refl sample_db_genre_2 eq_refl).
Defined.

Lemma genre_update_own_witness :
  Py.int "2" = Some 2 ∧
  genres sample_db !! 2 = Some (Genre.Build "Sci-Fi" 1) ∧
  Genre.user (Genre.Build "Sci-Fi" 1) = 1 ∧
  run_view (GenreViewSet.update true 1 rename_request "2") sample_db
  = (Response 200 (GenreObj (2, Genre.Build "Adventure" 1)),
     MkDB (movies sample_db)
          (<[2 := Genre.Build "Adventure" 1]> (genres sample_db))
          (movie_genres sample_db) (movie_seq sample_db)
          (genre_seq sample_db) (urandom_calls sample_db)).
Proof.
  split; [reflexivity|]. split; [exact sample_db_genre_2|].
  split; [reflexivity|].
  exact (genre_update_own true 1 rename_request "2" sample_db 2
           (Genre.Build "Sci-Fi" 1) eq_refl sample_db_genre_2 eq_refl).
Defined.

Lemma movie_create_requires_fields_witness :
  let req := Request POST "movies/" (Some 1) []
               [("running_time_minutes"%string, VInt 90)] in
  ("title"%string = "title"%string ∨
   "title"%string = "running_time_minutes"%string) ∧
  (Py.dict_get "title" (data req) = None ∨
   Py.dict_get "title" (data req) = Some VNull) ∧
  run_view (MovieViewSet.create 1 req) sample_db
  = (Response 400 Errors, sample_db).
Proof.
  intros req. split; [by left|]. split; [by left|].
  exact (movie_create_requires_fields 1 req sample_db "title"
           (or_introl eq_refl) (or_introl eq_refl)).
Defined.

Lemma reconciliation_only_adds_witness :
  genres_wf sample_db ∧
  only_added 1 3 [Some "Adventure"; Some "Drama"]%string sample_db
    (Serializers._get_or_create_genres 1 [Some "Adventure"; Some "Drama"]%string
       3 sample_db).2.
Proof.
  split; [exact sample_db_genres_wf|].
  exact (proj1 (reconciliation_only_adds 1 3
                  [Some "Adventure"; Some "Drama"]%string sample_db
                  sample_db_genres_wf)).
Defined.

Lemma movie_update_columns_witness :
  let req := Request PATCH "movies/1/" (Some 1) []
               [("title"%string, VStr "New movie title")] in
  ∃ r db', MovieViewSet.update true 1 req "1" sample_db = (Ok r, db') ∧
    ∃ k m m', r = Response 200 (MovieObj (k, m')) ∧
              movies sample_db !! k = Some m ∧
              getattr "link" m' = getattr "link" m.
Proof.
  intros req.
  assert (∃ r db', MovieViewSet.update true 1 req "1" sample_db = (Ok r, db'))
    as (r & db' & H) by (eexists _, _; vm_compute; reflexivity).
  exists r, db'. split; [exact H|].
  destruct (movie_update_columns true 1 req "1" sample_db db' r H)
    as (k & m & m' & vd & Hr & _ & Hrow & _ & _ & _ & _ & Habs & _).
  exists k, m, m'. split; [exact Hr|]. split; [exact Hrow|].
  apply Habs; [reflexivity|discriminate].
Defined.

Lemma movie_create_stores_witness :
  let req := Request POST "movies/" (Some 1) []
               [ ("title"%string, VStr "Sample movie");
                 ("running_time_minutes"%string, VInt 120);
                 ("genres"%string, VList [descriptor "Comedy"]) ] in
  db_consistent sample_db ∧
  ∃ r db', MovieViewSet.create 1 req sample_db = (Ok r, db') ∧
    ∃ m, r = Response 201 (MovieObj (movie_seq sample_db, m)) ∧
         Movie.user m = 1 ∧
         movies db' = <[movie_seq sample_db := m]> (movies sample_db).
Proof.
  intros req. split; [exact sample_db_consistent|].
  assert (∃ r db', MovieViewSet.create 1 req sample_db = (Ok r, db'))
    as (r & db' & H) by (eexists _, _; vm_compute; reflexivity).
  exists r, db'. split; [exact H|].
  destruct (movie_create_stores 1 req sample_db db' r sample_db_consistent H)
    as (m & vd & Hr & _ & _ & Hm & _ & Hu & _).
  exists m. split; [exact Hr|]. split; [exact Hu|exact Hm].
Defined.

Lemma sample_db_genre_3 :
  ∀ k g, Py.int "3" = Some k → genres sample_db !! k = Some g →
         Genre.user g ≠ 1.
Proof.
  intros k g Hk Hg. change (Some 3 = Some k) in Hk. injection Hk as <-.
  assert (genres sample_db !! 3 = Some (Genre.Build "Adventure" 2)) as H
    by (vm_compute; reflexivity).
  rewrite H in Hg. injection Hg as <-. simpl. lia.
Qed.

(** Genre 3 belongs to user 2: user 1 cannot rename or delete it. *)
Lemma genre_detail_not_found_witness :
  (∀ k g, Py.int "3" = Some k → genres sample_db !! k = Some g →
          Genre.user g ≠ 1) ∧
  run_view (GenreViewSet.update true 1 rename_request "3") sample_db
  = (Response 404 Errors, sample_db) ∧
  run_view (GenreViewSet.destroy 1 "3") sample_db
  = (Response 404 Errors, sample_db).
Proof.
  split; [exact sample_db_genre_3|]. split.
  - exact (proj1 (proj2 (genre_detail_not_found 1 rename_request "3" sample_db
                           sample_db_genre_3))).
  - exact (proj2 (proj2 (genre_detail_not_found 1 rename_request "3" sample_db
                           sample_db_genre_3))).
Defined.

(** In the state with two genres named Adventure of user 1, replacing the
    genres of movie 1 by Adventure fails and leaves the movie without genres. *)
Lemma update_failure_keeps_clear_witness :
  let req := Request PATCH "movies/1/" (Some 1) []
               [("genres"%string, VList [descriptor "Adventure"])] in
  let vd := [("genres"%string, FGenres [Some "Adventure"%string])] in
  let g1 := (1, Genre.Build "Adventure" 1) in
  let g2 := (2, Genre.Build "Adventure" 1) in
  Py.dict_get "genres" (query_params req) = None ∧
  Py.int "1" = Some 1 ∧
  movies renamed_db !! 1 = Some (movie_row 1 "Black Adam" 120) ∧
  Movie.user (movie_row 1 "Black Adam" 120) = 1 ∧
  Serializers.to_internal_value true
    Serializers.MovieDetailSerializer_fields (data req) = Some vd ∧
  Py.dict_get "genres" vd = Some (FGenres [Some "Adventure"%string]) ∧
  g1 ≠ g2 ∧
  genres renamed_db !! g1.1 = Some g1.2 ∧
  genres renamed_db !! g2.1 = Some g2.2 ∧
  Orm.genre_matches 1 (Some "Adventure"%string) g1 ∧
  Orm.genre_matches 1 (Some "Adventure"%string) g2 ∧
  run_view (MovieViewSet.update true 1 req "1") renamed_db
  = (Response 500 NoBody,
     MkDB (movies renamed_db) (genres renamed_db)
          (filter (λ j, j.1 ≠ 1) (movie_genres renamed_db))
          (movie_seq renamed_db) (genre_seq renamed_db)
          (urandom_calls renamed_db)).
Proof.
  intros req vd g1 g2.
  assert (movies renamed_db !! 1 = Some (movie_row 1 "Black Adam" 120)) as H3
    by (vm_compute; reflexivity).
  assert (Serializers.to_internal_value true
            Serializers.MovieDetailSerializer_fields (data req) = Some vd) as H5
    by (vm_compute; reflexivity).
  assert (g1 ≠ g2) as H7 by discriminate.
  assert (genres renamed_db !! g1.1 = Some g1.2) as H8
    by (vm_compute; reflexivity).
  assert (genres renamed_db !! g2.1 = Some g2.2) as H9
    by (vm_compute; reflexivity).
  assert (Orm.genre_matches 1 (Some "Adventure"%string) g1) as H10
    by (split; reflexivity).
  assert (Orm.genre_matches 1 (Some "Adventure"%string) g2) as H11
    by (split; reflexivity).
  split; [reflexivity|]. split; [reflexivity|]. split; [exact H3|].
  split; [reflexivity|]. split; [exact H5|]. split; [reflexivity|].
  split; [exact H7|]. split; [exact H8|]. split; [exact H9|].
  split; [exact H10|]. split; [exact H11|].
  exact (update_failure_keeps_clear true 1 req "1" renamed_db 1
           (movie_row 1 "Black Adam" 120) vd (Some "Adventure"%string) []
           g1 g2 eq_refl eq_refl H3 eq_refl H5 eq_refl H7 H8 H9 H10 H11).
Defined.

Lemma params_to_ints_round_trip_witness :
  [3; 12; 1] ≠ [] ∧
  PyStr.join "," (PyStr.of_int <$> [3; 12; 1]) = "3,12,1"%string ∧
  MovieViewSet._params_to_ints (PyStr.join "," (PyStr.of_int <$> [3; 12; 1]))
    sample_db
  = (Ok [3; 12; 1], sample_db).
Proof.
  split; [discriminate|]. split; [reflexivity|].
  exact (proj2 (params_to_ints_round_trip [3; 12; 1] sample_db
                  ltac:(discriminate))).
Defined.

(** ** The genre endpoints add nothing *)

Lemma nothing_added_refl db : nothing_added db db.
Proof. do 3 (split; [done|]). split; [by eauto|done]. Qed.

Section genre_views.
Context `{!Framework}.

Lemma genre_update_nothing_added partial u req pk db :
  nothing_added db (GenreViewSet.update partial u req pk db).2.
Proof.
  unfold GenreViewSet.update. rewrite bind_run.
  destruct (GenreViewSet.get_object u pk db) as [[inst|e] db1] eqn:Hobj.
  2:{ pose proof (genre_get_object_state u pk db) as Hs.
      rewrite Hobj in Hs. simpl in Hs. subst db1. apply nothing_added_refl. }
  apply genre_get_object_inv in Hobj as (-> & _ & Hrow & _).
  rewrite bind_run. unfold is_valid.
  destruct (Serializers.to_internal_value _ _ _) as [vd|];
    [|apply nothing_added_refl].
  unfold Serializers.genre_update. unfold_orm. simpl.
  do 3 (split; [done|]). split; [|done].
  intros k g' Hk. simpl in Hk. destruct (decide (k = inst.1)) as [->|Hne].
  - rewrite lookup_insert_eq in Hk. injection Hk as <-.
    exists inst.2. split; [done|].
    by destruct (Py.dict_get "name" vd) as [[]|].
  - rewrite lookup_insert_ne in Hk by done. by eauto.
Qed.

Lemma genre_destroy_nothing_added u pk db :
  nothing_added db (GenreViewSet.destroy u pk db).2.
Proof.
  unfold GenreViewSet.destroy. rewrite bind_run.
  destruct (GenreViewSet.get_object u pk db) as [[inst|e] db1] eqn:Hobj.
  2:{ pose proof (genre_get_object_state u pk db) as Hs.
      rewrite Hobj in Hs. simpl in Hs. subst db1. apply nothing_added_refl. }
  apply genre_get_object_inv in Hobj as (-> & _ & Hrow & _).
  unfold_orm. simpl. do 3 (split; [done|]). split.
  - intros k g' Hk. simpl in Hk. destruct (decide (k = inst.1)) as [->|Hne].
    + by rewrite lookup_delete_eq in Hk.
    + rewrite lookup_delete_ne in Hk by done. by eauto.
  - intros j Hj. by apply elem_of_filter in Hj as [_ ?].
Qed.

End genre_views.

(** X18: the genre endpoints add nothing. Whatever the method, the user and
    the payload of a request whose path is routed to the genre views, after
    it the movies and the key counters are the same, every genre record was
    a record before under the same key and with the same owner, and every
    attachment was one before: genres are created only through the movie
    endpoints, and a genre never changes its owner. *)
Theorem tags_requests_add_nothing `{!Framework} (req : request) (db : DB)
    (r : Urls.route) :
  Urls.resolve (path req) = Some (Urls.GenreViews, r) →
  nothing_added db (Urls.handle req db).2.
Proof.
  intros Hres. unfold Urls.handle. rewrite Hres.
  destruct (user req) as [u|]; [|apply nothing_added_refl].
  destruct (Urls.action_of Urls.GenreViews r (method req)) as [a|];
    [|apply nothing_added_refl].
  rewrite run_view_state.
  destruct a; simpl; try apply nothing_added_refl.
  - apply genre_update_nothing_added.
  - apply genre_update_nothing_added.
  - apply genre_destroy_nothing_added.
Qed.

Lemma tags_requests_add_nothing_witness :
  Urls.resolve (path rename_request)
  = Some (Urls.GenreViews, Urls.DetailRoute "2") ∧
  nothing_added sample_db (Urls.handle rename_request sample_db).2.
Proof.
  split; [reflexivity|].
  exact (tags_requests_add_nothing rename_request sample_db
           (Urls.DetailRoute "2") eq_refl).
Defined.
